(** * Rule-based text detectors of nlp_100: a shallow embedding

    This development embeds four of the repository's keyword detectors,

      - [detect_spam]                 (app_002_spam_detection/app_improved.py)
      - [detect_toxicity]             (app_005_toxicity_detection/app.py)
      - [detect_fake_news]            (app_009_fake_news_detection/app.py)
      - [analyze_review_authenticity] (app_020_review_authenticity/app.py)

    and states the properties of the lexical scoring engine on them.

    Modelling conventions.

    - Text is a [string]; a character is read as a code point below 256
      (Latin-1), which is where [str.lower], [str.isupper], [str.split],
      [\d], [\w] and [[A-Z]] are defined below.
    - A number is the rational it denotes ([Q]), and equality of numbers
      is [==].  The detectors are embedded twice.  In [Spam], [Toxicity],
      [FakeNews] and [Review] a decimal literal such as [0.15] is the
      rational 15/100 and [+], [*], [/] are exact; what is stated of them
      does not depend on rounding: bounds, order, monotonicity, which terms
      and labels are returned, and equations between expressions of the
      code taken in the order of the code.  In [Toxicity64], [FakeNews64]
      and [Review64] every operation is rounded as Python rounds its
      binary64 numbers ([Binary64]); what turns on a rounded value is stated
      of them.  [detect_spam] adds ones and halves, which binary64 adds
      without rounding.  Every division of the embedded functions has a
      divisor that is a non-zero constant or is guarded to be positive, so
      [ZeroDivisionError] cannot occur.
    - A loop over a list is a [fold_left] on the variables the loop
      updates; [found.append(keyword)] is [found ++ [keyword]].
    - A result dictionary with fixed keys is a record with one field per
      key; the label strings are constructors of an inductive type. *)

From Stdlib Require Import Bool Arith ZArith QArith Qminmax Lia Lqa List Ascii String.
Import ListNotations.

Open Scope string_scope.

(** ** Comparisons on numbers, as Python's [>] and [>=] *)

Definition Qgt_bool (x y : Q) : bool := negb (Qle_bool x y).
Definition Qge_bool (x y : Q) : bool := Qle_bool y x.

(** An [int] used in a float expression. *)
Definition of_int (n : nat) : Q := inject_Z (Z.of_nat n).

(** ** Binary64 numbers

    Python's [float] is the IEEE 754 binary64 format.  A float is modelled
    by the rational it denotes, and an operation by the exact operation
    followed by [round], which rounds to the nearest number with a
    significand of 53 bits, the one with the even significand when two are
    equally near; below [2 ** -1022] the spacing is that of the subnormal
    numbers.  Overflow is not modelled: a result of [2 ** 1024] or more
    needs a text of more than [2 ** 900] characters. *)

Module Binary64.

Local Open Scope Z_scope.

(** [2 ** k] for [k >= 0], and 1 otherwise. *)
Definition pow2 (k : Z) : Z := 2 ^ Z.max k 0.

(** The exponent [e] with [2 ** e <= p / q < 2 ** (e + 1)]. *)
Definition exponent (p q : positive) : Z :=
  let e := Z.log2 (Zpos p) - Z.log2 (Zpos q) in
  if Zpos q * pow2 e <=? Zpos p * pow2 (- e) then e else e - 1.

(** The integer nearest to [num / den], the even one of two that are
    equally near. *)
Definition nearest_even (num den : Z) : Z :=
  let d := num / den in
  let r := num mod den in
  match 2 * r ?= den with
  | Lt => d
  | Gt => d + 1
  | Eq => if Z.even d then d else d + 1
  end.

(** The positive rational [p / q], rounded. *)
Definition round_pos (p q : positive) : Q :=
  let e := Z.max (exponent p q) (-1022) in
  let s := 52 - e in
  let n := nearest_even (Zpos p * pow2 s) (Zpos q * pow2 (- s)) in
  Qred ((n * pow2 (- s)) # Z.to_pos (pow2 s)).

Definition round (x : Q) : Q :=
  match Qnum x with
  | Z0 => 0%Q
  | Zpos p => round_pos p (Qden x)
  | Zneg p => Qopp (round_pos p (Qden x))
  end.

(** A decimal literal of the source, such as [0.15]. *)
Definition lit (x : Q) : Q := round x.

(** [x + y], [x - y], [x * y] and [x / y] on floats. *)
Definition add (x y : Q) : Q := round (x + y)%Q.
Definition sub (x y : Q) : Q := round (x - y)%Q.
Definition mul (x y : Q) : Q := round (x * y)%Q.
Definition div (x y : Q) : Q := round (x / y)%Q.

(** An [int] used in a float expression, and the true division [n / m] of
    two [int]s, which Python rounds once. *)
Definition of_int (n : nat) : Q := round (inject_Z (Z.of_nat n)).
Definition int_div (n m : nat) : Q :=
  round (inject_Z (Z.of_nat n) / inject_Z (Z.of_nat m))%Q.

End Binary64.

(** ** The string methods the detectors call *)

Module Py.

Definition code (c : ascii) : nat := nat_of_ascii c.

Definition in_range (lo hi : nat) (c : ascii) : bool :=
  (lo <=? code c)%nat && (code c <=? hi)%nat.

(** [c.isupper()]: A-Z, and the Latin-1 capitals U+00C0..U+00DE without
    the multiplication sign U+00D7. *)
Definition isupper (c : ascii) : bool :=
  in_range 65 90 c || in_range 192 214 c || in_range 216 222 c.

(** [c.lower()]: every capital below 256 has its small letter 32 places on. *)
Definition lower_char (c : ascii) : ascii :=
  if isupper c then ascii_of_nat (code c + 32) else c.

(** [s.lower()] *)
Fixpoint lower (s : string) : string :=
  match s with
  | EmptyString => EmptyString
  | String c r => String (lower_char c) (lower r)
  end.

(** [c.isspace()]: tab to carriage return, the four separators
    U+001C..U+001F, space, U+0085 and U+00A0. *)
Definition isspace (c : ascii) : bool :=
  in_range 9 13 c || in_range 28 32 c || in_range 133 133 c
  || in_range 160 160 c.

(** [s.split()]: the maximal runs of characters that are not white space;
    [cur] is the word being read. *)
Fixpoint split_from (cur : string) (s : string) : list string :=
  match s with
  | EmptyString => match cur with EmptyString => [] | _ => [cur] end
  | String c r =>
      if isspace c
      then match cur with
           | EmptyString => split_from EmptyString r
           | _ => cur :: split_from EmptyString r
           end
      else split_from (cur ++ String c EmptyString) r
  end.

Definition split (s : string) : list string := split_from EmptyString s.

(** [s.startswith(p)] *)
Fixpoint startswith (s p : string) {struct p} : bool :=
  match p with
  | EmptyString => true
  | String a p' =>
      match s with
      | EmptyString => false
      | String b s' => Ascii.eqb a b && startswith s' p'
      end
  end.

(** [sub in s] *)
Fixpoint contains (sub s : string) : bool :=
  startswith s sub
  || match s with
     | EmptyString => false
     | String _ r => contains sub r
     end.

(** [s.count(sub)]: the occurrences of [sub] counted from the left without
    overlap.  [skip] is the number of characters still covered by the
    occurrence just counted. *)
Fixpoint count_from (sub : string) (skip : nat) (s : string) : nat :=
  match s with
  | EmptyString =>
      match skip with
      | O => if startswith EmptyString sub then 1%nat else 0%nat
      | S _ => 0%nat
      end
  | String _ r =>
      match skip with
      | S k => count_from sub k r
      | O =>
          if startswith s sub
          then S (count_from sub (String.length sub - 1) r)
          else count_from sub 0 r
      end
  end.

Definition count (s sub : string) : nat := count_from sub 0 s.

(** [len([c for c in s if c.isupper()])] *)
Fixpoint count_upper (s : string) : nat :=
  match s with
  | EmptyString => 0%nat
  | String c r => ((if isupper c then 1 else 0) + count_upper r)%nat
  end.

(** [s[n:]] *)
Fixpoint drop (n : nat) (s : string) : string :=
  match n, s with
  | S k, String _ r => drop k r
  | _, _ => s
  end.

(** [s[:n]] *)
Fixpoint take (n : nat) (s : string) : string :=
  match n, s with
  | S k, String c r => String c (take k r)
  | _, _ => EmptyString
  end.

End Py.

(** ** The regular expressions the detectors use

    Each pattern of the sources has its own matcher; none of the sources
    passes a flag, so matching is case sensitive and by code point. *)

Module Re.

(** [\d]: below 256 the decimal digits are 0-9. *)
Definition is_digit (c : ascii) : bool := Py.in_range 48 57 c.

(** [[A-Z]] *)
Definition is_AZ (c : ascii) : bool := Py.in_range 65 90 c.

(** [\w]: alphanumeric characters and the underscore. *)
Definition is_word (c : ascii) : bool :=
  is_digit c || is_AZ c || Py.in_range 97 122 c || Py.in_range 95 95 c
  || Py.in_range 170 170 c || Py.in_range 178 179 c || Py.in_range 181 181 c
  || Py.in_range 185 186 c || Py.in_range 188 190 c || Py.in_range 192 214 c
  || Py.in_range 216 246 c || Py.in_range 248 255 c.

Definition is_char (a : ascii) (c : ascii) : bool := Ascii.eqb a c.

(** [X{n,}] matched at the start of [s], for a class [X] of single
    characters: the first [n] characters are in the class. *)
Fixpoint match_run (X : ascii -> bool) (n : nat) (s : string) : bool :=
  match n with
  | O => true
  | S k =>
      match s with
      | EmptyString => false
      | String c r => X c && match_run X k r
      end
  end.

(** [re.search(r'X{n,}', s)] finds a match. *)
Fixpoint search_run (X : ascii -> bool) (n : nat) (s : string) : bool :=
  match_run X n s
  || match s with
     | EmptyString => false
     | String _ r => search_run X n r
     end.

(** [re.search(r'\$\d+', s)] finds a match: a dollar sign with a digit
    after it. *)
Fixpoint search_dollar_digits (s : string) : bool :=
  match s with
  | EmptyString => false
  | String c r =>
      (is_char "$" c && match_run is_digit 1 r) || search_dollar_digits r
  end.

(** [http[s]?://] matched at the start of [s]: the length of the match. *)
Definition match_http (s : string) : option nat :=
  if Py.startswith s "https://" then Some 8%nat
  else if Py.startswith s "http://" then Some 7%nat
  else None.

(** [re.findall(r'http[s]?://', s)]: the matches from the left, without
    overlap. *)
Fixpoint findall_http_from (skip : nat) (s : string) : list string :=
  match s with
  | EmptyString => []
  | String _ r =>
      match skip with
      | S k => findall_http_from k r
      | O =>
          match match_http s with
          | Some n => Py.take n s :: findall_http_from (n - 1) r
          | None => findall_http_from 0 r
          end
      end
  end.

Definition findall_http (s : string) : list string := findall_http_from 0 s.

(** The length of the run of digits [s] starts with. *)
Fixpoint digits_len (s : string) : nat :=
  match s with
  | EmptyString => 0%nat
  | String c r => if is_digit c then S (digits_len r) else 0%nat
  end.

(** [\b] after a word character: the end of the text or a character that
    is not a word character. *)
Definition at_word_end (s : string) : bool :=
  match s with
  | EmptyString => true
  | String c _ => negb (is_word c)
  end.

(** [\b\d+\b] matched at the start of [s], where [prev_word] says whether
    the character before is a word character: the length of the match.
    There is no boundary between two digits, so the match is the whole run
    of digits, and it needs a boundary on either side. *)
Definition match_number (prev_word : bool) (s : string) : option nat :=
  let n := digits_len s in
  if negb prev_word && (1 <=? n)%nat && at_word_end (Py.drop n s)
  then Some n else None.

(** [re.findall(r'\b\d+\b', s)] *)
Fixpoint findall_numbers_from (skip : nat) (prev_word : bool) (s : string)
  : list string :=
  match s with
  | EmptyString => []
  | String c r =>
      match skip with
      | S k => findall_numbers_from k (is_word c) r
      | O =>
          match match_number prev_word s with
          | Some n =>
              Py.take n s :: findall_numbers_from (n - 1) (is_word c) r
          | None => findall_numbers_from 0 (is_word c) r
          end
      end
  end.

Definition findall_numbers (s : string) : list string :=
  findall_numbers_from 0 false s.

End Re.

(** ** app_002_spam_detection/app_improved.py *)

Module Spam.

Local Open Scope Q_scope.

Definition spam_keywords : list string :=
  ["winner"; "free"; "prize"; "click here"; "urgent"; "cash"; "loan";
   "credit"; "congratulations"; "offer"; "discount"; "limited time";
   "act now"; "$$$"; "buy now"; "call now"; "subscribe"; "unsubscribe";
   "guarantee"; "risk free"; "viagra"; "pharmacy"].

(** The default of the parameter [threshold]. *)
Definition default_threshold : Q := 0.4.

Inductive label := SPAM | HAM.

Record result := {
  text : string;
  is_spam : bool;
  classification : label;
  spam_probability : Q;
  ham_probability : Q;
  spam_score : Q;
  found_keywords : list string;
  keyword_count : nat;
  patterns_found : list string;
  pattern_count : nat;
  confidence : Q;
  word_count : nat;
  text_length : nat
}.

(** The body of the loop over [spam_keywords], on the pair
    [(spam_score, found_keywords)]. *)
Definition check_keyword (text_lower : string) (st : Q * list string)
    (keyword : string) : Q * list string :=
  if Py.contains keyword text_lower
  then (fst st + 1, (snd st ++ [keyword])%list)
  else st.

(** One pattern check, on the pair [(spam_score, patterns_found)]:
    [if fires: spam_score += weight; patterns_found.append(name)]. *)
Definition check_pattern (fires : bool) (weight : Q) (name : string)
    (st : Q * list string) : Q * list string :=
  if fires then (fst st + weight, (snd st ++ [name])%list) else st.

(** [len([c for c in text if c.isupper()]) / max(len(text), 1)] *)
Definition caps_ratio (text : string) : Q :=
  of_int (Py.count_upper text) / of_int (Nat.max (String.length text) 1).

(** The condition of the excessive capitals check. *)
Definition excessive_caps (text : string) : bool :=
  Qgt_bool (caps_ratio text) 0.5.

(** The loop over [spam_keywords]: [(spam_score, found_keywords)]. *)
Definition scan_keywords (text_lower : string) : Q * list string :=
  fold_left (check_keyword text_lower) spam_keywords (0, []).

(** The five pattern checks, from the score of the keywords:
    [(spam_score, patterns_found)]. *)
Definition check_patterns (text : string) (spam_score : Q)
  : Q * list string :=
  let st := (spam_score, []) in
  let st := check_pattern (Re.search_run Re.is_digit 3 text)
              0.5 "Multiple digits" st in
  let st := check_pattern (excessive_caps text)
              1 "Excessive CAPS" st in
  let st := check_pattern (2 <? Py.count text "!")%nat
              0.5 "Multiple exclamations" st in
  let st := check_pattern (Re.search_dollar_digits text)
              0.5 "Dollar amounts" st in
  let st := check_pattern (1 <? List.length (Re.findall_http text))%nat
              0.5 "Multiple URLs" st in
  st.

Definition detect_spam (text : string) (threshold : Q) : result :=
  let text_lower := Py.lower text in
  (* Check spam keywords *)
  let kw := scan_keywords text_lower in
  let found_keywords := snd kw in
  (* Pattern checks *)
  let st := check_patterns text (fst kw) in
  let spam_score := fst st in
  let patterns_found := snd st in
  (* Calculate spam probability *)
  let spam_probability := Qmin (spam_score / 5.0) 1.0 in
  let is_spam := Qgt_bool spam_probability threshold in
  {| text := text;
     is_spam := is_spam;
     classification := if is_spam then SPAM else HAM;
     spam_probability := spam_probability;
     ham_probability := 1 - spam_probability;
     spam_score := spam_score;
     found_keywords := found_keywords;
     keyword_count := List.length found_keywords;
     patterns_found := patterns_found;
     pattern_count := List.length patterns_found;
     confidence := Qmax spam_probability (1 - spam_probability);
     word_count := List.length (Py.split text);
     text_length := String.length text |}.

End Spam.

(** ** app_005_toxicity_detection/app.py *)

Module Toxicity.

Local Open Scope Q_scope.

(** The keys of [TOXIC_WORDS]. *)
Module Key.
Inductive t := severe | obscene | threat | insult | identity.
End Key.

Definition TOXIC_WORDS (k : Key.t) : list string :=
  match k with
  | Key.severe => ["kill"; "death"; "die"; "murder"; "destroy"]
  | Key.obscene => ["damn"; "hell"; "crap"; "suck"]
  | Key.threat => ["will kill"; "gonna hurt"; "watch out"; "be sorry"; "regret"]
  | Key.insult => ["idiot"; "stupid"; "dumb"; "moron"; "fool"; "loser"; "pathetic"]
  | Key.identity => ["race"; "religion"; "gender"; "orientation"]
  end.

(** The keys of [scores] and of [detected_items], in the order in which
    the dictionary holds them. *)
Module Cat.
Inductive t :=
  toxic | severe_toxic | obscene | threat | insult | identity_attack.

Definition eqb (a b : t) : bool :=
  match a, b with
  | toxic, toxic | severe_toxic, severe_toxic | obscene, obscene
  | threat, threat | insult, insult | identity_attack, identity_attack => true
  | _, _ => false
  end.

Definition keys : list t :=
  [toxic; severe_toxic; obscene; threat; insult; identity_attack].
End Cat.

(** A dictionary over the six keys. *)
Definition dict (V : Type) : Type := Cat.t -> V.

Definition set {V} (d : dict V) (k : Cat.t) (v : V) : dict V :=
  fun k' => if Cat.eqb k k' then v else d k'.

Definition values {V} (d : dict V) : list V := map d Cat.keys.

(** [max(xs)]: the first of the greatest elements.  ([max] of an empty
    sequence raises [ValueError]; [scores] has six values.) *)
Definition max_of (xs : list Q) : Q :=
  match xs with
  | [] => 0
  | x :: r => fold_left Qmax r x
  end.

Inductive label := Highly_Toxic | Moderately_Toxic | Mildly_Toxic | Non_Toxic.
Inductive risk := HIGH_RISK | MEDIUM_RISK | LOW_RISK | SAFE.

Record result := {
  text : string;
  overall_toxicity : Q;
  classification : label;
  risk_level : risk;
  toxic : Q;
  severe_toxic : Q;
  obscene : Q;
  threat : Q;
  insult : Q;
  identity_attack : Q;
  detected_items : dict (list string);
  word_count : nat
}.

(** [result[key]] for the key of a category. *)
Definition get (r : result) (k : Cat.t) : Q :=
  match k with
  | Cat.toxic => toxic r
  | Cat.severe_toxic => severe_toxic r
  | Cat.obscene => obscene r
  | Cat.threat => threat r
  | Cat.insult => insult r
  | Cat.identity_attack => identity_attack r
  end.

(** The body of the five loops over the word lists, on the pair
    [(scores, detected_items)]:
    [if word in text_lower: scores[cat] += w; scores['toxic'] += w_toxic;
     detected_items[cat].append(word)]. *)
Definition check_word (text_lower : string) (cat : Cat.t) (w w_toxic : Q)
    (st : dict Q * dict (list string)) (word : string)
  : dict Q * dict (list string) :=
  if Py.contains word text_lower
  then
    let scores := set (fst st) cat (fst st cat + w) in
    let scores := set scores Cat.toxic (scores Cat.toxic + w_toxic) in
    (scores, set (snd st) cat (snd st cat ++ [word])%list)
  else st.

(** The ladder of cutoffs on [overall_toxicity]. *)
Definition classify (overall_toxicity : Q) : label * risk :=
  if Qge_bool overall_toxicity 0.7 then (Highly_Toxic, HIGH_RISK)
  else if Qge_bool overall_toxicity 0.4 then (Moderately_Toxic, MEDIUM_RISK)
  else if Qge_bool overall_toxicity 0.2 then (Mildly_Toxic, LOW_RISK)
  else (Non_Toxic, SAFE).

(** [scores] when the loops and the two pattern checks are done, before it
    is normalized, with [detected_items]. *)
Definition accumulate (text : string) : dict Q * dict (list string) :=
  let text_lower := Py.lower text in
  (* Initialize scores *)
  let st : dict Q * dict (list string) := (fun _ => 0.0, fun _ => []) in
  (* Check for severe toxic words *)
  let st := fold_left (check_word text_lower Cat.severe_toxic 0.3 0.2)
              (TOXIC_WORDS Key.severe) st in
  (* Check for obscene words *)
  let st := fold_left (check_word text_lower Cat.obscene 0.25 0.15)
              (TOXIC_WORDS Key.obscene) st in
  (* Check for threats *)
  let st := fold_left (check_word text_lower Cat.threat 0.4 0.25)
              (TOXIC_WORDS Key.threat) st in
  (* Check for insults *)
  let st := fold_left (check_word text_lower Cat.insult 0.2 0.15)
              (TOXIC_WORDS Key.insult) st in
  (* Check for identity attacks *)
  let st := fold_left (check_word text_lower Cat.identity_attack 0.15 0.1)
              (TOXIC_WORDS Key.identity) st in
  (* Pattern-based detection *)
  let scores := fst st in
  let scores :=
    if Re.search_run Re.is_AZ 5 text
    then set scores Cat.toxic (scores Cat.toxic + 0.1) else scores in
  let scores :=
    if Re.search_run (Re.is_char "!") 3 text
    then set scores Cat.toxic (scores Cat.toxic + 0.05) else scores in
  (scores, snd st).

(** [for key in scores: scores[key] = min(scores[key], 1.0)] *)
Definition normalize (scores : dict Q) : dict Q :=
  fold_left (fun sc key => set sc key (Qmin (sc key) 1.0)) Cat.keys scores.

Definition detect_toxicity (text : string) : result :=
  let word_count := List.length (Py.split text) in
  let st := accumulate text in
  (* Normalize scores to 0-1 range *)
  let scores := normalize (fst st) in
  (* Overall toxicity *)
  let overall_toxicity := max_of (values scores) in
  (* Classification *)
  let c := classify overall_toxicity in
  {| text := text;
     overall_toxicity := overall_toxicity;
     classification := fst c;
     risk_level := snd c;
     toxic := scores Cat.toxic;
     severe_toxic := scores Cat.severe_toxic;
     obscene := scores Cat.obscene;
     threat := scores Cat.threat;
     insult := scores Cat.insult;
     identity_attack := scores Cat.identity_attack;
     detected_items := snd st;
     word_count := word_count |}.

End Toxicity.

(** ** app_009_fake_news_detection/app.py *)

Module FakeNews.

Local Open Scope Q_scope.

(** A dictionary literal from category names to keyword lists, in the
    order of its items. *)
Definition indicators : Type := list (string * list string).

Definition FAKE_INDICATORS : indicators :=
  [("sensationalism",
    ["shocking"; "unbelievable"; "you won't believe"; "amazing";
     "incredible"; "mind-blowing"; "jaw-dropping"; "viral"; "breaking"]);
   ("emotion",
    ["outrage"; "furious"; "devastating"; "horrifying"; "terrifying";
     "scandal"]);
   ("urgency",
    ["now"; "immediately"; "urgent"; "breaking"; "just in"; "alert"]);
   ("absolute",
    ["always"; "never"; "everyone"; "nobody"; "completely"; "totally";
     "all"]);
   ("unreliable",
    ["sources say"; "rumor"; "allegedly"; "reportedly"; "claims";
     "unconfirmed"])].

Definition CREDIBLE_INDICATORS : indicators :=
  [("sources",
    ["according to"; "study shows"; "research"; "official"; "reported by";
     "statement"; "confirmed"]);
   ("facts",
    ["data"; "statistics"; "percent"; "number"; "figure"; "analysis"]);
   ("attribution",
    ["said"; "stated"; "announced"; "revealed"; "disclosed"]);
   ("verification",
    ["verified"; "fact-checked"; "confirmed"; "authenticated";
     "validated"])].

Inductive label := Likely_Credible | Mixed_Signals | Questionable | Likely_Fake.
Inductive risk := Low_Risk | Medium_Risk | High_Risk | Very_High_Risk.

Record result := {
  text : string;
  credibility : Q;
  classification : label;
  risk_level : risk;
  fake_score : Q;
  credible_score : Q;
  fake_indicators : list (string * list string);
  credible_indicators : list (string * list string);
  word_count : nat
}.

(** The body of the inner loop, on the pair [(score, found)]:
    [if keyword in text_lower: count = text_lower.count(keyword);
     score += count * weight; found.append(keyword)]. *)
Definition check_keyword (text_lower : string) (weight : Q)
    (st : Q * list string) (keyword : string) : Q * list string :=
  if Py.contains keyword text_lower
  then
    let count := Py.count text_lower keyword in
    (fst st + of_int count * weight, (snd st ++ [keyword])%list)
  else st.

(** The body of the outer loop, on the pair [(score, found_by_category)]:
    [found = []], the inner loop, [found_by_category[category] = found]. *)
Definition check_category (text_lower : string) (weight : Q)
    (st : Q * list (string * list string))
    (item : string * list string) : Q * list (string * list string) :=
  let inner :=
    fold_left (check_keyword text_lower weight) (snd item) (fst st, []) in
  (fst inner, (snd st ++ [(fst item, snd inner)])%list).

(** Both loops over the categories of a dictionary of indicators. *)
Definition scan (table : indicators) (weight : Q) (text_lower : string)
  : Q * list (string * list string) :=
  fold_left (check_category text_lower weight) table (0.0, []).

(** The overall credibility from the two normalized scores. *)
Definition combine (credible_score fake_score : Q) : Q :=
  if Qgt_bool credible_score 0 || Qgt_bool fake_score 0
  then
    if Qgt_bool (credible_score + fake_score) 0
    then credible_score / (credible_score + fake_score)
    else 0.5
  else 0.5.

(** The ladder of cutoffs on [credibility]. *)
Definition classify (credibility : Q) : label * risk :=
  if Qge_bool credibility 0.7 then (Likely_Credible, Low_Risk)
  else if Qge_bool credibility 0.5 then (Mixed_Signals, Medium_Risk)
  else if Qge_bool credibility 0.3 then (Questionable, High_Risk)
  else (Likely_Fake, Very_High_Risk).

(** The three pattern checks on [fake_score]. *)
Definition check_patterns (text : string) (fake_score : Q) : Q :=
  let fake_score :=
    if Re.search_run Re.is_AZ 10 text then fake_score + 0.3 else fake_score in
  let fake_score :=
    if Re.search_run (Re.is_char "!") 3 text
    then fake_score + 0.2 else fake_score in
  let fake_score :=
    if Re.search_run (Re.is_char "?") 2 text
    then fake_score + 0.1 else fake_score in
  fake_score.

Definition detect_fake_news (text : string) : result :=
  let text_lower := Py.lower text in
  let word_count := List.length (Py.split text) in
  (* Calculate fake indicators *)
  let fake := scan FAKE_INDICATORS 0.15 text_lower in
  let fake_score := fst fake in
  let fake_found := snd fake in
  (* Calculate credibility indicators *)
  let credible := scan CREDIBLE_INDICATORS 0.2 text_lower in
  let credible_score := fst credible in
  let credible_found := snd credible in
  (* Pattern checks *)
  let fake_score := check_patterns text fake_score in
  (* Normalize scores *)
  let fake_score := Qmin fake_score 1.0 in
  let credible_score := Qmin credible_score 1.0 in
  (* Calculate overall credibility (0 = fake, 1 = credible) *)
  let credibility := combine credible_score fake_score in
  (* Classification *)
  let c := classify credibility in
  {| text := text;
     credibility := credibility;
     classification := fst c;
     risk_level := snd c;
     fake_score := fake_score;
     credible_score := credible_score;
     fake_indicators := fake_found;
     credible_indicators := credible_found;
     word_count := word_count |}.

End FakeNews.

(** ** app_020_review_authenticity/app.py *)

Module Review.

Local Open Scope Q_scope.

Definition FAKE_INDICATORS : list string :=
  ["best product ever"; "highly recommend"; "must buy"; "amazing product";
   "life changing"; "perfect"; "excellent quality"].
Definition SPAM_PATTERNS : list string :=
  ["click here"; "visit"; "check out"; "limited time"; "discount"; "promo";
   "coupon"].
Definition AUTHENTIC_INDICATORS : list string :=
  ["however"; "but"; "although"; "wish"; "could be better"; "pros and cons";
   "disappointed"; "satisfied"].

Inductive label :=
  Likely_Authentic | Moderately_Authentic | Questionable | Likely_Fake_Spam.
Inductive trust_level := High | Medium | Low | Very_Low.

Record result := {
  text : string;
  authenticity_score : Q;
  classification : label;
  trust : trust_level;
  fake_score : Q;
  authentic_score : Q;
  found_indicators : list (string * list string);
  word_count : nat
}.

(** The body of the three phrase loops, on the pair [(score, found)]:
    [if phrase in text_lower: score += weight; found.append(phrase)]. *)
Definition check_phrase (text_lower : string) (weight : Q)
    (st : Q * list string) (phrase : string) : Q * list string :=
  if Py.contains phrase text_lower
  then (fst st + weight, (snd st ++ [phrase])%list)
  else st.

(** [if found: found_indicators[key] = found] *)
Definition record_found (key : string) (found : list string)
    (found_indicators : list (string * list string))
  : list (string * list string) :=
  match found with
  | [] => found_indicators
  | _ => (found_indicators ++ [(key, found)])%list
  end.

(** [sum(1 for c in text if c.isupper()) / max(len(text), 1)] *)
Definition caps_ratio (text : string) : Q :=
  of_int (Py.count_upper text) / of_int (Nat.max (String.length text) 1).

(** [authenticity_score] from the two totals. *)
Definition combine (fake_score authentic_score : Q) : Q :=
  if Qgt_bool fake_score authentic_score
  then Qmax 0 (1 - fake_score / Qmax (fake_score + authentic_score) 0.1)
  else Qmin 1 (authentic_score / Qmax (fake_score + authentic_score) 0.1).

(** The ladder of cutoffs on [authenticity_score]. *)
Definition classify (authenticity_score : Q) : label * trust_level :=
  if Qge_bool authenticity_score 0.7 then (Likely_Authentic, High)
  else if Qge_bool authenticity_score 0.5 then (Moderately_Authentic, Medium)
  else if Qge_bool authenticity_score 0.3 then (Questionable, Low)
  else (Likely_Fake_Spam, Very_Low).

(** The body of [analyze_review_authenticity] down to the excessive
    punctuation check:
    [(fake_score, authentic_score, found_indicators, word_count)]. *)
Definition totals (text : string)
  : Q * Q * list (string * list string) * nat :=
  let text_lower := Py.lower text in
  let words := Py.split text_lower in
  let word_count := List.length words in
  (* Scoring *)
  let fake_score : Q := 0 in
  let authentic_score : Q := 0 in
  let found_indicators : list (string * list string) := [] in
  (* Check for overly positive/generic language *)
  let st := fold_left (check_phrase text_lower 0.4) FAKE_INDICATORS
              (fake_score, []) in
  let fake_score := fst st in
  let found_indicators :=
    record_found "fake_indicators" (snd st) found_indicators in
  (* Check for spam patterns *)
  let st := fold_left (check_phrase text_lower 0.5) SPAM_PATTERNS
              (fake_score, []) in
  let fake_score := fst st in
  let found_indicators :=
    record_found "spam_patterns" (snd st) found_indicators in
  (* Check for authentic indicators *)
  let st := fold_left (check_phrase text_lower 0.3) AUTHENTIC_INDICATORS
              (authentic_score, []) in
  let authentic_score := fst st in
  let found_indicators :=
    record_found "authentic_indicators" (snd st) found_indicators in
  (* Length check (very short = suspicious) *)
  let fake_score :=
    if (word_count <? 10)%nat then fake_score + 0.3 else fake_score in
  let authentic_score :=
    if (word_count <? 10)%nat then authentic_score
    else if (30 <? word_count)%nat then authentic_score + 0.2
    else authentic_score in
  (* Specificity (numbers, dates, specific details) *)
  let numbers := Re.findall_numbers text in
  let authentic_score :=
    if (0 <? List.length numbers)%nat
    then authentic_score + of_int (List.length numbers) * 0.15
    else authentic_score in
  (* Personal pronouns (I, my, me = more authentic) *)
  let personal :=
    List.length
      (filter (fun word => Py.contains word text_lower)
              ["i "; "my "; "me "; "mine "]) in
  let authentic_score := authentic_score + of_int personal * 0.2 in
  (* ALL CAPS (spam indicator) *)
  let fake_score :=
    if Qgt_bool (caps_ratio text) 0.3 then fake_score + 0.4 else fake_score in
  (* Excessive punctuation *)
  let fake_score :=
    if (3 <? Py.count text "!")%nat then fake_score + 0.3 else fake_score in
  (fake_score, authentic_score, found_indicators, word_count).

Definition analyze_review_authenticity (text : string) : result :=
  let st := totals text in
  let fake_score := fst (fst (fst st)) in
  let authentic_score := snd (fst (fst st)) in
  (* Calculate authenticity *)
  let authenticity_score := combine fake_score authentic_score in
  (* Classification *)
  let c := classify authenticity_score in
  {| text := text;
     authenticity_score := authenticity_score;
     classification := fst c;
     trust := snd c;
     fake_score := fake_score;
     authentic_score := authentic_score;
     found_indicators := snd (fst st);
     word_count := snd st |}.

End Review.

(** ** The detectors in binary64 arithmetic

    The same functions with every operation on numbers rounded as Python
    rounds it.  The records of results, the dictionaries and the labels are
    those of the modules above. *)

Module Toxicity64.
Import Toxicity.
Local Open Scope Q_scope.

Definition check_word (text_lower : string) (cat : Cat.t) (w w_toxic : Q)
    (st : dict Q * dict (list string)) (word : string)
  : dict Q * dict (list string) :=
  if Py.contains word text_lower
  then
    let scores := set (fst st) cat (Binary64.add (fst st cat) w) in
    let scores :=
      set scores Cat.toxic (Binary64.add (scores Cat.toxic) w_toxic) in
    (scores, set (snd st) cat (snd st cat ++ [word])%list)
  else st.

Definition classify (overall_toxicity : Q) : label * risk :=
  if Qge_bool overall_toxicity (Binary64.lit 0.7)
  then (Highly_Toxic, HIGH_RISK)
  else if Qge_bool overall_toxicity (Binary64.lit 0.4)
  then (Moderately_Toxic, MEDIUM_RISK)
  else if Qge_bool overall_toxicity (Binary64.lit 0.2)
  then (Mildly_Toxic, LOW_RISK)
  else (Non_Toxic, SAFE).

Definition accumulate (text : string) : dict Q * dict (list string) :=
  let text_lower := Py.lower text in
  let st : dict Q * dict (list string) := (fun _ => 0.0, fun _ => []) in
  let st :=
    fold_left (check_word text_lower Cat.severe_toxic
                 (Binary64.lit 0.3) (Binary64.lit 0.2))
      (TOXIC_WORDS Key.severe) st in
  let st :=
    fold_left (check_word text_lower Cat.obscene
                 (Binary64.lit 0.25) (Binary64.lit 0.15))
      (TOXIC_WORDS Key.obscene) st in
  let st :=
    fold_left (check_word text_lower Cat.threat
                 (Binary64.lit 0.4) (Binary64.lit 0.25))
      (TOXIC_WORDS Key.threat) st in
  let st :=
    fold_left (check_word text_lower Cat.insult
                 (Binary64.lit 0.2) (Binary64.lit 0.15))
      (TOXIC_WORDS Key.insult) st in
  let st :=
    fold_left (check_word text_lower Cat.identity_attack
                 (Binary64.lit 0.15) (Binary64.lit 0.1))
      (TOXIC_WORDS Key.identity) st in
  let scores := fst st in
  let scores :=
    if Re.search_run Re.is_AZ 5 text
    then set scores Cat.toxic
           (Binary64.add (scores Cat.toxic) (Binary64.lit 0.1))
    else scores in
  let scores :=
    if Re.search_run (Re.is_char "!") 3 text
    then set scores Cat.toxic
           (Binary64.add (scores Cat.toxic) (Binary64.lit 0.05))
    else scores in
  (scores, snd st).

Definition detect_toxicity (text : string) : result :=
  let word_count := List.length (Py.split text) in
  let st := accumulate text in
  let scores := normalize (fst st) in
  let overall_toxicity := max_of (values scores) in
  let c := classify overall_toxicity in
  {| text := text;
     overall_toxicity := overall_toxicity;
     classification := fst c;
     risk_level := snd c;
     toxic := scores Cat.toxic;
     severe_toxic := scores Cat.severe_toxic;
     obscene := scores Cat.obscene;
     threat := scores Cat.threat;
     insult := scores Cat.insult;
     identity_attack := scores Cat.identity_attack;
     detected_items := snd st;
     word_count := word_count |}.

End Toxicity64.

Module FakeNews64.
Import FakeNews.
Local Open Scope Q_scope.

Definition check_keyword (text_lower : string) (weight : Q)
    (st : Q * list string) (keyword : string) : Q * list string :=
  if Py.contains keyword text_lower
  then
    let count := Py.count text_lower keyword in
    (Binary64.add (fst st) (Binary64.mul (Binary64.of_int count) weight),
     (snd st ++ [keyword])%list)
  else st.

Definition check_category (text_lower : string) (weight : Q)
    (st : Q * list (string * list string))
    (item : string * list string) : Q * list (string * list string) :=
  let inner :=
    fold_left (check_keyword text_lower weight) (snd item) (fst st, []) in
  (fst inner, (snd st ++ [(fst item, snd inner)])%list).

Definition scan (table : indicators) (weight : Q) (text_lower : string)
  : Q * list (string * list string) :=
  fold_left (check_category text_lower weight) table (0.0, []).

Definition combine (credible_score fake_score : Q) : Q :=
  if Qgt_bool credible_score 0 || Qgt_bool fake_score 0
  then
    if Qgt_bool (Binary64.add credible_score fake_score) 0
    then Binary64.div credible_score (Binary64.add credible_score fake_score)
    else 0.5
  else 0.5.

Definition classify (credibility : Q) : label * risk :=
  if Qge_bool credibility (Binary64.lit 0.7) then (Likely_Credible, Low_Risk)
  else if Qge_bool credibility (Binary64.lit 0.5)
  then (Mixed_Signals, Medium_Risk)
  else if Qge_bool credibility (Binary64.lit 0.3)
  then (Questionable, High_Risk)
  else (Likely_Fake, Very_High_Risk).

Definition check_patterns (text : string) (fake_score : Q) : Q :=
  let fake_score :=
    if Re.search_run Re.is_AZ 10 text
    then Binary64.add fake_score (Binary64.lit 0.3) else fake_score in
  let fake_score :=
    if Re.search_run (Re.is_char "!") 3 text
    then Binary64.add fake_score (Binary64.lit 0.2) else fake_score in
  let fake_score :=
    if Re.search_run (Re.is_char "?") 2 text
    then Binary64.add fake_score (Binary64.lit 0.1) else fake_score in
  fake_score.

Definition detect_fake_news (text : string) : result :=
  let text_lower := Py.lower text in
  let word_count := List.length (Py.split text) in
  let fake := scan FAKE_INDICATORS (Binary64.lit 0.15) text_lower in
  let fake_score := fst fake in
  let fake_found := snd fake in
  let credible := scan CREDIBLE_INDICATORS (Binary64.lit 0.2) text_lower in
  let credible_score := fst credible in
  let credible_found := snd credible in
  let fake_score := check_patterns text fake_score in
  let fake_score := Qmin fake_score 1.0 in
  let credible_score := Qmin credible_score 1.0 in
  let credibility := combine credible_score fake_score in
  let c := classify credibility in
  {| text := text;
     credibility := credibility;
     classification := fst c;
     risk_level := snd c;
     fake_score := fake_score;
     credible_score := credible_score;
     fake_indicators := fake_found;
     credible_indicators := credible_found;
     word_count := word_count |}.

End FakeNews64.

Module Review64.
Import Review.
Local Open Scope Q_scope.

Definition check_phrase (text_lower : string) (weight : Q)
    (st : Q * list string) (phrase : string) : Q * list string :=
  if Py.contains phrase text_lower
  then (Binary64.add (fst st) weight, (snd st ++ [phrase])%list)
  else st.

Definition caps_ratio (text : string) : Q :=
  Binary64.int_div (Py.count_upper text) (Nat.max (String.length text) 1).

Definition combine (fake_score authentic_score : Q) : Q :=
  if Qgt_bool fake_score authentic_score
  then
    Qmax 0
      (Binary64.sub 1
         (Binary64.div fake_score
            (Qmax (Binary64.add fake_score authentic_score)
               (Binary64.lit 0.1))))
  else
    Qmin 1
      (Binary64.div authentic_score
         (Qmax (Binary64.add fake_score authentic_score) (Binary64.lit 0.1))).

Definition classify (authenticity_score : Q) : label * trust_level :=
  if Qge_bool authenticity_score (Binary64.lit 0.7)
  then (Likely_Authentic, High)
  else if Qge_bool authenticity_score (Binary64.lit 0.5)
  then (Moderately_Authentic, Medium)
  else if Qge_bool authenticity_score (Binary64.lit 0.3)
  then (Questionable, Low)
  else (Likely_Fake_Spam, Very_Low).

Definition totals (text : string)
  : Q * Q * list (string * list string) * nat :=
  let text_lower := Py.lower text in
  let words := Py.split text_lower in
  let word_count := List.length words in
  let fake_score : Q := 0 in
  let authentic_score : Q := 0 in
  let found_indicators : list (string * list string) := [] in
  let st := fold_left (check_phrase text_lower (Binary64.lit 0.4))
              FAKE_INDICATORS (fake_score, []) in
  let fake_score := fst st in
  let found_indicators :=
    record_found "fake_indicators" (snd st) found_indicators in
  let st := fold_left (check_phrase text_lower (Binary64.lit 0.5))
              SPAM_PATTERNS (fake_score, []) in
  let fake_score := fst st in
  let found_indicators :=
    record_found "spam_patterns" (snd st) found_indicators in
  let st := fold_left (check_phrase text_lower (Binary64.lit 0.3))
              AUTHENTIC_INDICATORS (authentic_score, []) in
  let authentic_score := fst st in
  let found_indicators :=
    record_found "authentic_indicators" (snd st) found_indicators in
  let fake_score :=
    if (word_count <? 10)%nat
    then Binary64.add fake_score (Binary64.lit 0.3) else fake_score in
  let authentic_score :=
    if (word_count <? 10)%nat then authentic_score
    else if (30 <? word_count)%nat
    then Binary64.add authentic_score (Binary64.lit 0.2)
    else authentic_score in
  let numbers := Re.findall_numbers text in
  let authentic_score :=
    if (0 <? List.length numbers)%nat
    then Binary64.add authentic_score
           (Binary64.mul (Binary64.of_int (List.length numbers))
              (Binary64.lit 0.15))
    else authentic_score in
  let personal :=
    List.length
      (filter (fun word => Py.contains word text_lower)
              ["i "; "my "; "me "; "mine "]) in
  let authentic_score :=
    Binary64.add authentic_score
      (Binary64.mul (Binary64.of_int personal) (Binary64.lit 0.2)) in
  let fake_score :=
    if Qgt_bool (caps_ratio text) (Binary64.lit 0.3)
    then Binary64.add fake_score (Binary64.lit 0.4) else fake_score in
  let fake_score :=
    if (3 <? Py.count text "!")%nat
    then Binary64.add fake_score (Binary64.lit 0.3) else fake_score in
  (fake_score, authentic_score, found_indicators, word_count).

Definition analyze_review_authenticity (text : string) : result :=
  let st := totals text in
  let fake_score := fst (fst (fst st)) in
  let authentic_score := snd (fst (fst st)) in
  let authenticity_score := combine fake_score authentic_score in
  let c := classify authenticity_score in
  {| text := text;
     authenticity_score := authenticity_score;
     classification := fst c;
     trust := snd c;
     fake_score := fake_score;
     authentic_score := authentic_score;
     found_indicators := snd (fst st);
     word_count := snd st |}.

End Review64.

(** ** Vocabulary of the statements *)

(** The terms of a list that occur in a text, in the order of the list. *)
Definition matched (text_lower : string) (terms : list string) : list string :=
  filter (fun term => Py.contains term text_lower) terms.

(** How often the terms of a list occur in a text, all together. *)
Definition occurrences (text_lower : string) (terms : list string) : nat :=
  list_sum (map (Py.count text_lower) terms).

(** The same over the categories of a dictionary of indicators. *)
Definition matched_by_category (text_lower : string)
    (table : list (string * list string)) : list (string * list string) :=
  map (fun item => (fst item, matched text_lower (snd item))) table.

Definition total_occurrences (text_lower : string)
    (table : list (string * list string)) : nat :=
  list_sum (map (fun item => occurrences text_lower (snd item)) table).

(** The number of words of a list of [TOXIC_WORDS] that occur in a text. *)
Definition toxic_hits (key : Toxicity.Key.t) (text_lower : string) : Q :=
  of_int (List.length (matched text_lower (Toxicity.TOXIC_WORDS key))).

(** What the two pattern checks of [detect_toxicity] add to [toxic]. *)
Definition toxic_pattern_bonus (text : string) : Q :=
  ((if Re.search_run Re.is_AZ 5 text then 0.1 else 0)
   + (if Re.search_run (Re.is_char "!") 3 text then 0.05 else 0))%Q.

(** The weights of [detect_toxicity], each counted once per word of the
    list that occurs in the text, by key of [scores]. *)
Definition toxicity_sum (text : string) (k : Toxicity.Cat.t) : Q :=
  let tl := Py.lower text in
  (match k with
   | Toxicity.Cat.toxic =>
       0.2 * toxic_hits Toxicity.Key.severe tl
       + 0.15 * toxic_hits Toxicity.Key.obscene tl
       + 0.25 * toxic_hits Toxicity.Key.threat tl
       + 0.15 * toxic_hits Toxicity.Key.insult tl
       + 0.1 * toxic_hits Toxicity.Key.identity tl
       + toxic_pattern_bonus text
   | Toxicity.Cat.severe_toxic => 0.3 * toxic_hits Toxicity.Key.severe tl
   | Toxicity.Cat.obscene => 0.25 * toxic_hits Toxicity.Key.obscene tl
   | Toxicity.Cat.threat => 0.4 * toxic_hits Toxicity.Key.threat tl
   | Toxicity.Cat.insult => 0.2 * toxic_hits Toxicity.Key.insult tl
   | Toxicity.Cat.identity_attack => 0.15 * toxic_hits Toxicity.Key.identity tl
   end)%Q.

(** The words of [TOXIC_WORDS] that occur in the text, by key of
    [detected_items]. *)
Definition toxicity_items (text : string) (k : Toxicity.Cat.t) : list string :=
  let tl := Py.lower text in
  match k with
  | Toxicity.Cat.toxic => []
  | Toxicity.Cat.severe_toxic => matched tl (Toxicity.TOXIC_WORDS Toxicity.Key.severe)
  | Toxicity.Cat.obscene => matched tl (Toxicity.TOXIC_WORDS Toxicity.Key.obscene)
  | Toxicity.Cat.threat => matched tl (Toxicity.TOXIC_WORDS Toxicity.Key.threat)
  | Toxicity.Cat.insult => matched tl (Toxicity.TOXIC_WORDS Toxicity.Key.insult)
  | Toxicity.Cat.identity_attack =>
      matched tl (Toxicity.TOXIC_WORDS Toxicity.Key.identity)
  end.

(** Every entry of [scores] is at least 0, an invariant of the accumulation
    of [detect_toxicity]. *)
Definition nonneg (sc : Toxicity.dict Q) : Prop := forall k, (0 <= sc k)%Q.

(** One [scores] is below another at every key. *)
Definition le_dict (sc sc' : Toxicity.dict Q) : Prop :=
  forall k, (sc k <= sc' k)%Q.

(** The share of [n] matched words of a list in the score of key [k]:
    [w] each for the category of the list, [wt] each for [toxic]. *)
Definition bump (cat : Toxicity.Cat.t) (w wt n : Q) (k : Toxicity.Cat.t) : Q :=
  ((if Toxicity.Cat.eqb cat k then w * n else 0)
   + (if Toxicity.Cat.eqb Toxicity.Cat.toxic k then wt * n else 0))%Q.

(** Every weight of [analyze_review_authenticity] is at least 0.15, so a
    total is 0 or at least 0.15. *)
Definition apart (x : Q) : Prop := (x == 0 \/ 0.15 <= x)%Q.

(** ** The callers of the detectors: single input and batch mode

    The pages call the detectors from three modes.  Single input analyses
    the text of the text area when [user_input.strip()] is not empty; batch
    mode maps the detector over the column ['text'] of the uploaded table
    (each cell through [str]) and summarizes the list of results.  A table
    made from an empty list of results has no columns, so that reading a
    column of it raises [KeyError]. *)

Inductive exn := KeyError (column : string).

Module Page.

(** [s.lstrip()] *)
Fixpoint lstrip (s : string) : string :=
  match s with
  | EmptyString => EmptyString
  | String c r => if Py.isspace c then lstrip r else s
  end.

(** [s.rstrip()] *)
Fixpoint rstrip (s : string) : string :=
  match s with
  | EmptyString => EmptyString
  | String c r =>
      match rstrip r with
      | EmptyString => if Py.isspace c then EmptyString else String c EmptyString
      | r' => String c r'
      end
  end.

(** [s.strip()] *)
Definition strip (s : string) : string := rstrip (lstrip s).

(** The truth value of a string: it is not empty. *)
Definition truthy (s : string) : bool :=
  match s with
  | EmptyString => false
  | String _ _ => true
  end.

(** [if user_input.strip():], the guard of single input mode in the four
    pages. *)
Definition accepts (user_input : string) : bool := truthy (strip user_input).

(** [text[:n] + '...' if len(text) > n else text] *)
Definition shorten (n : nat) (text : string) : string :=
  if (n <? String.length text)%nat then Py.take n text ++ "..." else text.

(** [len(df[df[column] >= bound])] and [len(df[df[column] < bound])] on the
    values of a column. *)
Definition count_ge (bound : Q) (values : list Q) : nat :=
  List.length (filter (fun v => Qge_bool v bound) values).

Definition count_lt (bound : Q) (values : list Q) : nat :=
  List.length (filter (fun v => negb (Qge_bool v bound)) values).

(** [column.mean()] of a column that is not empty. *)
Definition mean (values : list Q) : Q :=
  (fold_left Qplus values 0 / of_int (List.length values))%Q.

End Page.

(** Batch mode of app_002_spam_detection/app_improved.py. *)
Module SpamPage.

Definition analyze_all (texts : list string) (sensitivity : Q)
  : list Spam.result :=
  map (fun text => Spam.detect_spam text sensitivity) texts.

Record summary := {
  total_messages : nat;
  spam_count : nat;
  ham_count : nat;
  spam_rate : Q
}.

(** The summary statistics of the list of results. *)
Definition summarize (results : list Spam.result) : exn + summary :=
  match results with
  | [] => inl (KeyError "is_spam")
  | _ =>
      let is_spam := map Spam.is_spam results in
      let spam_count := List.length (filter (fun b => b) is_spam) in
      let ham_count := List.length (filter negb is_spam) in
      let spam_rate :=
        if (0 <? List.length results)%nat
        then (of_int spam_count / of_int (List.length results) * 100)%Q
        else 0%Q in
      inr {| total_messages := List.length results;
             spam_count := spam_count;
             ham_count := ham_count;
             spam_rate := spam_rate |}
  end.

End SpamPage.

(** Batch mode of app_005_toxicity_detection/app.py. *)
Module ToxicityPage.

(** The row that batch mode keeps of a result. *)
Record simple_result := {
  text : string;
  overall_toxicity : Q;
  classification : Toxicity.label;
  risk_level : Toxicity.risk;
  toxic : Q;
  severe_toxic : Q;
  obscene : Q;
  threat : Q;
  insult : Q;
  identity_attack : Q
}.

Definition simplify (result : Toxicity.result) : simple_result :=
  {| text := Page.shorten 100 (Toxicity.text result);
     overall_toxicity := Toxicity.overall_toxicity result;
     classification := Toxicity.classification result;
     risk_level := Toxicity.risk_level result;
     toxic := Toxicity.toxic result;
     severe_toxic := Toxicity.severe_toxic result;
     obscene := Toxicity.obscene result;
     threat := Toxicity.threat result;
     insult := Toxicity.insult result;
     identity_attack := Toxicity.identity_attack result |}.

Definition analyze_all (texts : list string) : list simple_result :=
  map (fun text => simplify (Toxicity.detect_toxicity text)) texts.

Record summary := {
  total_analyzed : nat;
  high_risk : nat;
  avg_toxicity : Q;
  toxic_count : nat
}.

Definition summarize (results : list simple_result) : exn + summary :=
  match results with
  | [] => inl (KeyError "overall_toxicity")
  | _ =>
      let column := map overall_toxicity results in
      inr {| total_analyzed := List.length results;
             high_risk := Page.count_ge 0.7 column;
             avg_toxicity := Page.mean column;
             toxic_count := Page.count_ge 0.2 column |}
  end.

End ToxicityPage.

(** Batch mode of app_009_fake_news_detection/app.py. *)
Module FakeNewsPage.

Record simple_result := {
  text : string;
  credibility : Q;
  classification : FakeNews.label;
  risk_level : FakeNews.risk
}.

Definition simplify (result : FakeNews.result) : simple_result :=
  {| text := Page.shorten 60 (FakeNews.text result);
     credibility := FakeNews.credibility result;
     classification := FakeNews.classification result;
     risk_level := FakeNews.risk_level result |}.

Definition analyze_all (texts : list string) : list simple_result :=
  map (fun text => simplify (FakeNews.detect_fake_news text)) texts.

Record summary := {
  total_analyzed : nat;
  likely_fake : nat;
  likely_credible : nat;
  avg_cred : Q
}.

Definition summarize (results : list simple_result) : exn + summary :=
  match results with
  | [] => inl (KeyError "credibility")
  | _ =>
      let column := map credibility results in
      inr {| total_analyzed := List.length results;
             likely_fake := Page.count_lt 0.3 column;
             likely_credible := Page.count_ge 0.7 column;
             avg_cred := Page.mean column |}
  end.

End FakeNewsPage.

(** Batch mode of app_020_review_authenticity/app.py. *)
Module ReviewPage.

Record row := {
  text : string;
  classification : Review.label;
  authenticity : Q;
  trust : Review.trust_level
}.

(** The row of a result: its text is cut at 60 characters and always
    followed by the dots. *)
Definition simplify (result : Review.result) : row :=
  {| text := Py.take 60 (Review.text result) ++ "...";
     classification := Review.classification result;
     authenticity := Review.authenticity_score result;
     trust := Review.trust result |}.

Definition analyze_all (texts : list string) : list row :=
  map (fun text => simplify (Review.analyze_review_authenticity text)) texts.

Record summary := {
  total : nat;
  authentic : nat;
  fake : nat
}.

Definition summarize (results : list row) : exn + summary :=
  match results with
  | [] => inl (KeyError "authenticity")
  | _ =>
      let column := map authenticity results in
      inr {| total := List.length results;
             authentic := Page.count_ge 0.7 column;
             fake := Page.count_lt 0.3 column |}
  end.

End ReviewPage.

(** The label tests of the summaries. *)
Definition is_highly_toxic (row : ToxicityPage.simple_result) : bool :=
  match ToxicityPage.classification row with
  | Toxicity.Highly_Toxic => true
  | _ => false
  end.

Definition is_toxic (row : ToxicityPage.simple_result) : bool :=
  match ToxicityPage.classification row with
  | Toxicity.Non_Toxic => false
  | _ => true
  end.

Definition is_likely_fake (row : FakeNewsPage.simple_result) : bool :=
  match FakeNewsPage.classification row with
  | FakeNews.Likely_Fake => true
  | _ => false
  end.

Definition is_likely_credible (row : FakeNewsPage.simple_result) : bool :=
  match FakeNewsPage.classification row with
  | FakeNews.Likely_Credible => true
  | _ => false
  end.

Definition is_authentic_row (row : ReviewPage.row) : bool :=
  match ReviewPage.classification row with
  | Review.Likely_Authentic => true
  | _ => false
  end.

Definition is_fake_row (row : ReviewPage.row) : bool :=
  match ReviewPage.classification row with
  | Review.Likely_Fake_Spam => true
  | _ => false
  end.

(** The weight that [detect_toxicity] adds to the score of a category for a
    word of its list ([toxic] has no list of its own). *)
Definition category_weight (k : Toxicity.Cat.t) : Q :=
  match k with
  | Toxicity.Cat.toxic => 0
  | Toxicity.Cat.severe_toxic => 0.3
  | Toxicity.Cat.obscene => 0.25
  | Toxicity.Cat.threat => 0.4
  | Toxicity.Cat.insult => 0.2
  | Toxicity.Cat.identity_attack => 0.15
  end%Q.

(** [score = add score (value term)] for each term of a list, in the order
    of the list. *)
Definition add_terms (add : Q -> Q -> Q) (value : string -> Q)
    (terms : list string) (score : Q) : Q :=
  fold_left (fun acc term => add acc (value term)) terms score.

(** [score = add score weight] once for each term of a list. *)
Definition add_each (add : Q -> Q -> Q) (weight : Q) (terms : list string)
    (score : Q) : Q :=
  add_terms add (fun _ => weight) terms score.

(** The keywords of a dictionary of indicators that occur in a text, in the
    order in which the two loops meet them. *)
Definition matched_terms (text_lower : string)
    (table : list (string * list string)) : list string :=
  List.concat (map snd (matched_by_category text_lower table)).

(** The score of key [k] as [detect_toxicity] accumulates it, before it is
    normalized: the weight of a list once for each word of the list that
    occurs in the text, in the order of the five loops, and then the two
    pattern checks on [toxic].  [add] is the addition and [lit] the reading
    of a decimal literal. *)
Definition toxicity_score (add : Q -> Q -> Q) (lit : Q -> Q) (text : string)
    (k : Toxicity.Cat.t) : Q :=
  let items := toxicity_items text in
  match k with
  | Toxicity.Cat.toxic =>
      let s := add_each add (lit 0.2) (items Toxicity.Cat.severe_toxic) 0.0 in
      let s := add_each add (lit 0.15) (items Toxicity.Cat.obscene) s in
      let s := add_each add (lit 0.25) (items Toxicity.Cat.threat) s in
      let s := add_each add (lit 0.15) (items Toxicity.Cat.insult) s in
      let s := add_each add (lit 0.1) (items Toxicity.Cat.identity_attack) s in
      let s := if Re.search_run Re.is_AZ 5 text then add s (lit 0.1) else s in
      if Re.search_run (Re.is_char "!") 3 text then add s (lit 0.05) else s
  | _ => add_each add (lit (category_weight k)) (items k) 0.0
  end%Q.

(** What a keyword of [detect_fake_news] adds to a score: the number of its
    occurrences times the weight. *)
Definition keyword_value (text_lower : string) (weight : Q) (keyword : string)
  : Q :=
  (of_int (Py.count text_lower keyword) * weight)%Q.

Definition keyword_value64 (text_lower : string) (weight : Q)
    (keyword : string) : Q :=
  Binary64.mul (Binary64.of_int (Py.count text_lower keyword)) weight.

(** What the excessive capitals check adds to the spam score. *)
Definition caps_bonus (text : string) : Q :=
  if Spam.excessive_caps text then 1 else 0.

(** What the other four checks of [detect_spam] add to it. *)
Definition pattern_bonus (text : string) : Q :=
  ((if Re.search_run Re.is_digit 3 text then 0.5 else 0)
   + (if (2 <? Py.count text "!")%nat then 0.5 else 0)
   + (if Re.search_dollar_digits text then 0.5 else 0)
   + (if (1 <? List.length (Re.findall_http text))%nat then 0.5 else 0))%Q.

(** Every weight of the fake total of a review is at least 0.3, so the
    total is 0 or at least 0.3. *)
Definition floored (x : Q) : Prop := (x == 0 \/ 0.3 <= x)%Q.

Example py_lower_ex : Py.lower "Click HERE now!" = "click here now!".
Proof. reflexivity. Qed.

Example py_count_ex :
  Py.count "aaa" "aa" = 1%nat /\ Py.count "abc" "" = 4%nat
  /\ Py.count "" "" = 1%nat /\ Py.count "now and now" "now" = 2%nat.
Proof. repeat split; reflexivity. Qed.

Example py_split_ex : Py.split "  best  product ever " = ["best"; "product"; "ever"].
Proof. reflexivity. Qed.

Example re_findall_ex :
  Re.findall_numbers "got 12 of 3x and a5 in 2024." = ["12"; "2024"]
  /\ Re.findall_http "http://a https://b httpx://" = ["http://"; "https://"]
  /\ Re.search_run Re.is_AZ 5 "so ANGRY now" = true
  /\ Re.search_run Re.is_AZ 5 "so ANGRy now" = false
  /\ Re.search_dollar_digits "only $5" = true.
Proof. repeat split; reflexivity. Qed.

Example spam_ex :
  let r := Spam.detect_spam "FREE prize!!! Call now 12345" Spam.default_threshold in
  Spam.found_keywords r = ["free"; "prize"; "call now"]
  /\ Spam.patterns_found r = ["Multiple digits"; "Multiple exclamations"]
  /\ Spam.spam_score r == 4 /\ Spam.classification r = Spam.SPAM.
Proof. vm_compute. repeat split; congruence. Qed.

Example toxicity_ex :
  let r := Toxicity.detect_toxicity "You IDIOT, I will kill you" in
  Toxicity.detected_items r Toxicity.Cat.severe_toxic = ["kill"]
  /\ Toxicity.detected_items r Toxicity.Cat.threat = ["will kill"]
  /\ Toxicity.detected_items r Toxicity.Cat.insult = ["idiot"]
  /\ Toxicity.toxic r == 0.7 /\ Toxicity.threat r == 0.4
  /\ Toxicity.overall_toxicity r == 0.7
  /\ Toxicity.classification r = Toxicity.Highly_Toxic.
Proof. vm_compute. repeat split; congruence. Qed.

Example fake_news_ex :
  let r := FakeNews.detect_fake_news "BREAKING: shocking scandal, officials said now or never!!!" in
  FakeNews.fake_indicators r =
    [("sensationalism", ["shocking"; "breaking"]); ("emotion", ["scandal"]);
     ("urgency", ["now"; "breaking"]); ("absolute", ["never"]);
     ("unreliable", [])]
  /\ FakeNews.credible_indicators r =
    [("sources", ["official"]); ("facts", []); ("attribution", ["said"]);
     ("verification", [])]
  /\ FakeNews.fake_score r == 1 /\ FakeNews.credible_score r == 0.4
  /\ FakeNews.classification r = FakeNews.Likely_Fake.
Proof. vm_compute. repeat split; congruence. Qed.

Example review_ex :
  let r := Review.analyze_review_authenticity "Perfect! Must buy, click here" in
  Review.found_indicators r =
    [("fake_indicators", ["must buy"; "perfect"]); ("spam_patterns", ["click here"])]
  /\ Review.fake_score r == 1.6 /\ Review.authentic_score r == 0
  /\ Review.authenticity_score r == 0
  /\ Review.classification r = Review.Likely_Fake_Spam.
Proof. vm_compute. repeat split; congruence. Qed.

(** The same texts with rounded sums, and three texts on which rounding
    shows: 0.15 + 0.1 + 0.1 + 0.05 stays below 0.4, 0.2 + 0.2 + 0.15 + 0.15
    exceeds 0.7, and 0.2 + 0.2 + 0.2 exceeds 0.6. *)
Example binary64_ex :
  (Binary64.lit 0.1 == 3602879701896397 # 36028797018963968
   /\ Binary64.add (Binary64.lit 0.1) (Binary64.lit 0.2)
      == Binary64.lit 0.30000000000000004
   /\ Binary64.add (Binary64.lit 0.1) (Binary64.lit 0.05)
      == Binary64.lit 0.15000000000000002
   /\ Binary64.div (Binary64.lit 0.6)
        (Binary64.add (Binary64.lit 0.6) (Binary64.lit 0.2))
      == Binary64.lit 0.7499999999999999
   /\ Binary64.mul (Binary64.of_int 3) (Binary64.lit 0.2)
      == Binary64.lit 0.6000000000000001
   /\ Binary64.int_div 1 3 == Binary64.lit 0.3333333333333333
   /\ Binary64.sub 1 (Binary64.lit 0.9) == Binary64.lit 0.09999999999999998)%Q.
Proof. vm_compute. repeat split; congruence. Qed.

Example toxicity64_ex :
  let r := Toxicity64.detect_toxicity "You IDIOT, I will kill you" in
  let r1 := Toxicity64.detect_toxicity "damn race ABCDE!!!" in
  let r2 := Toxicity64.detect_toxicity "kill or die, damn it to hell" in
  (Toxicity.toxic r == Binary64.lit 0.7 /\ Toxicity.threat r == Binary64.lit 0.4
   /\ Toxicity.classification r = Toxicity.Highly_Toxic
   /\ Toxicity.overall_toxicity r1 == Binary64.lit 0.39999999999999997
   /\ Toxicity.classification r1 = Toxicity.Mildly_Toxic
   /\ Toxicity.classification (Toxicity.detect_toxicity "damn race ABCDE!!!")
      = Toxicity.Moderately_Toxic
   /\ Toxicity.toxic r2 == Binary64.lit 0.7000000000000001
   /\ Toxicity.classification r2 = Toxicity.Highly_Toxic)%Q.
Proof. vm_compute. repeat split; congruence. Qed.

Example fake_news64_ex :
  let r := FakeNews64.detect_fake_news "BREAKING: shocking scandal, officials said now or never!!!" in
  let r1 := FakeNews64.detect_fake_news "research data said!!!" in
  (FakeNews.fake_score r == 1 /\ FakeNews.credible_score r == Binary64.lit 0.4
   /\ FakeNews.classification r = FakeNews.Likely_Fake
   /\ FakeNews.credible_score r1 == Binary64.lit 0.6000000000000001
   /\ FakeNews.credibility r1 == Binary64.lit 0.7500000000000001
   /\ FakeNews.classification r1 = FakeNews.Likely_Credible)%Q.
Proof. vm_compute. repeat split; congruence. Qed.

Example review64_ex :
  let r := Review64.analyze_review_authenticity "Perfect! Must buy, click here" in
  let r1 := Review64.analyze_review_authenticity "I wish it were cheaper, but it works" in
  (Review.fake_score r == Binary64.lit 1.6 /\ Review.authentic_score r == 0
   /\ Review.authenticity_score r == 0
   /\ Review.classification r = Review.Likely_Fake_Spam
   /\ Review.fake_score r1 == Binary64.lit 0.3
   /\ Review.authentic_score r1 == Binary64.lit 0.8
   /\ Review.authenticity_score r1 == Binary64.lit 0.7272727272727273
   /\ Review.classification r1 = Review.Likely_Authentic)%Q.
Proof. vm_compute. repeat split; congruence. Qed.

(** * Properties *)

(** ** Numbers *)

Lemma Qgt_bool_true (x y : Q) : Qgt_bool x y = true <-> (y < x)%Q.
Proof.
  unfold Qgt_bool. rewrite negb_true_iff. split; intro H.
  - apply Qnot_le_lt. intro L. apply Qle_bool_iff in L. congruence.
  - destruct (Qle_bool x y) eqn:E; [|reflexivity].
    apply Qle_bool_iff in E. exfalso. exact (Qlt_not_le _ _ H E).
Qed.

Lemma Qgt_bool_false (x y : Q) : Qgt_bool x y = false <-> (x <= y)%Q.
Proof.
  unfold Qgt_bool. rewrite negb_false_iff. apply Qle_bool_iff.
Qed.

Lemma Qge_bool_true (x y : Q) : Qge_bool x y = true <-> (y <= x)%Q.
Proof. unfold Qge_bool. apply Qle_bool_iff. Qed.

Lemma Qge_bool_false (x y : Q) : Qge_bool x y = false <-> (x < y)%Q.
Proof.
  unfold Qge_bool. split; intro H.
  - apply Qnot_le_lt. intro L. apply Qle_bool_iff in L. congruence.
  - destruct (Qle_bool y x) eqn:E; [|reflexivity].
    apply Qle_bool_iff in E. exfalso. exact (Qlt_not_le _ _ H E).
Qed.

Lemma of_int_nonneg (n : nat) : (0 <= of_int n)%Q.
Proof.
  unfold of_int, Qle. simpl. lia.
Qed.

Lemma Qmin_1_bounds (x : Q) : (0 <= x -> 0 <= Qmin x 1.0 <= 1)%Q.
Proof.
  intro H. split.
  - apply Q.min_glb; [exact H | discriminate].
  - apply Qle_trans with 1.0%Q; [apply Q.le_min_r | discriminate].
Qed.

(** An invariant of the loop variables holds after a loop whose body keeps it. *)
Lemma fold_left_inv {A B : Type} (P : A -> Prop) (f : A -> B -> A) (l : list B) :
  (forall a b, P a -> P (f a b)) -> forall a, P a -> P (fold_left f l a).
Proof.
  intro step. induction l as [|b l IH]; intros a Ha; simpl.
  - exact Ha.
  - apply IH, step, Ha.
Qed.

(** ** Strings *)

Module PyFacts.
Import Py.

Lemma lower_app (s w : string) : lower (s ++ w) = lower s ++ lower w.
Proof.
  induction s as [|c r IH]; cbn [lower append]; [reflexivity|].
  now rewrite IH.
Qed.

Lemma startswith_app (s w p : string) :
  startswith s p = true -> startswith (s ++ w) p = true.
Proof.
  revert s. induction p as [|a p IH]; intros s H; [reflexivity|].
  destruct s as [|b s]; cbn [startswith append] in *; [discriminate|].
  apply andb_true_iff in H as [H1 H2].
  rewrite H1. cbn [andb]. now apply IH.
Qed.

Lemma contains_cons (sub : string) (c : ascii) (r : string) :
  contains sub (String c r) = startswith (String c r) sub || contains sub r.
Proof. reflexivity. Qed.

Lemma contains_nil (sub : string) :
  contains sub EmptyString = startswith EmptyString sub.
Proof. cbn [contains]. apply orb_false_r. Qed.

Lemma startswith_nil (sub : string) :
  startswith EmptyString sub = true -> sub = EmptyString.
Proof. destruct sub; [reflexivity|discriminate]. Qed.

(** A term that occurs in a text occurs in every extension of it. *)
Lemma contains_app (sub s w : string) :
  contains sub s = true -> contains sub (s ++ w) = true.
Proof.
  induction s as [|c r IH]; intro H.
  - rewrite contains_nil in H. apply startswith_nil in H. subst sub.
    destruct w; reflexivity.
  - cbn [append]. rewrite contains_cons in *.
    apply orb_true_iff in H as [H|H]; apply orb_true_iff.
    + left. change (String c (r ++ w)) with (String c r ++ w).
      now apply startswith_app.
    + right. now apply IH.
Qed.

(** A term that does not occur is counted 0 times, so the guard
    [if keyword in text_lower] leaves out nothing that [count] would add. *)
Lemma count_from_absent (sub s : string) (skip : nat) :
  contains sub s = false -> count_from sub skip s = 0%nat.
Proof.
  revert skip. induction s as [|c r IH]; intros skip H.
  - rewrite contains_nil in H. cbn [count_from]. rewrite H.
    now destruct skip.
  - rewrite contains_cons in H. apply orb_false_iff in H as [H1 H2].
    cbn [count_from]. destruct skip; [rewrite H1|]; now apply IH.
Qed.

Lemma count_absent (s sub : string) :
  contains sub s = false -> count s sub = 0%nat.
Proof. apply count_from_absent. Qed.

(** A term that occurs is counted at least once. *)
Lemma count_present (s sub : string) :
  contains sub s = true -> (1 <= count s sub)%nat.
Proof.
  unfold count. induction s as [|c r IH]; intro H.
  - rewrite contains_nil in H. cbn [count_from]. now rewrite H.
  - rewrite contains_cons in H. cbn [count_from].
    destruct (startswith (String c r) sub); [lia|].
    now apply IH.
Qed.

Lemma startswith_length (s p : string) :
  startswith s p = true -> (String.length p <= String.length s)%nat.
Proof.
  revert s. induction p as [|a p IH]; intros s H; cbn [String.length]; [lia|].
  destruct s as [|b s]; cbn [startswith] in H; [discriminate|].
  apply andb_true_iff in H as [_ H]. apply IH in H. cbn [String.length]. lia.
Qed.

Lemma contains_length (sub s : string) :
  contains sub s = true -> (String.length sub <= String.length s)%nat.
Proof.
  induction s as [|c r IH]; intro H.
  - rewrite contains_nil in H. now apply startswith_length in H.
  - rewrite contains_cons in H. apply orb_true_iff in H as [H|H].
    + now apply startswith_length in H.
    + apply IH in H. cbn [String.length]. lia.
Qed.

Lemma count_from_short (sub s : string) (skip : nat) :
  (String.length s < String.length sub)%nat -> count_from sub skip s = 0%nat.
Proof.
  intro H. apply count_from_absent.
  destruct (contains sub s) eqn:E; [|reflexivity].
  apply contains_length in E. lia.
Qed.

Lemma length_app (s w : string) :
  String.length (s ++ w) = (String.length s + String.length w)%nat.
Proof.
  induction s as [|c r IH]; cbn [append String.length]; [reflexivity|].
  now rewrite IH.
Qed.

(** A prefix of an extended text that is no longer than the text is a
    prefix of the text. *)
Lemma startswith_fits (s w p : string) :
  startswith (s ++ w) p = true ->
  (String.length p <= String.length s)%nat -> startswith s p = true.
Proof.
  revert s. induction p as [|a p IH]; intros s H L; [reflexivity|].
  destruct s as [|b s]; cbn [String.length] in L; [lia|].
  cbn [append startswith] in *.
  apply andb_true_iff in H as [H1 H2]. rewrite H1. cbn [andb].
  apply IH; [exact H2|lia].
Qed.

(** Appending text never lowers a count. *)
Lemma count_from_app (sub s w : string) (skip : nat) :
  (count_from sub skip s <= count_from sub skip (s ++ w))%nat.
Proof.
  revert skip. induction s as [|c r IH]; intro skip.
  - cbn [append count_from]. destruct skip; [|lia].
    destruct (startswith EmptyString sub) eqn:E; [|lia].
    apply startswith_nil in E. subst sub.
    destruct w; cbn [count_from startswith]; lia.
  - cbn [append count_from]. destruct skip as [|k]; [|apply IH].
    destruct (startswith (String c r) sub) eqn:E.
    + change (String c (r ++ w)) with (String c r ++ w).
      rewrite (startswith_app _ w _ E). apply le_n_S, IH.
    + destruct (startswith (String c (r ++ w)) sub) eqn:E'; [|apply IH].
      rewrite count_from_short; [lia|].
      destruct (Nat.lt_ge_cases (String.length r) (String.length sub))
        as [L|L]; [exact L|].
      exfalso.
      assert (F : (String.length sub <= String.length (String c r))%nat)
        by (cbn [String.length]; lia).
      change (String c (r ++ w)) with (String c r ++ w) in E'.
      rewrite (startswith_fits _ _ _ E' F) in E. discriminate.
Qed.

Lemma count_app (s w sub : string) : (count s sub <= count (s ++ w) sub)%nat.
Proof. apply count_from_app. Qed.

End PyFacts.

Module ReFacts.
Import Re.

Lemma match_run_app (X : ascii -> bool) (n : nat) (s w : string) :
  match_run X n s = true -> match_run X n (s ++ w) = true.
Proof.
  revert s. induction n as [|n IH]; intros s H; [reflexivity|].
  destruct s as [|c r]; cbn [match_run append] in *; [discriminate|].
  apply andb_true_iff in H as [H1 H2]. rewrite H1. cbn [andb]. now apply IH.
Qed.

Lemma search_run_cons (X : ascii -> bool) (n : nat) (c : ascii) (r : string) :
  search_run X n (String c r) = match_run X n (String c r) || search_run X n r.
Proof. reflexivity. Qed.

(** A run found in a text is found in every extension of it. *)
Lemma search_run_app (X : ascii -> bool) (n : nat) (s w : string) :
  search_run X n s = true -> search_run X n (s ++ w) = true.
Proof.
  induction s as [|c r IH]; intro H.
  - cbn [search_run] in H. rewrite orb_false_r in H.
    destruct n; [|discriminate]. destruct w; reflexivity.
  - cbn [append]. rewrite search_run_cons in *.
    apply orb_true_iff in H as [H|H]; apply orb_true_iff.
    + left. change (String c (r ++ w)) with (String c r ++ w).
      now apply match_run_app.
    + right. now apply IH.
Qed.

Lemma search_dollar_digits_app (s w : string) :
  search_dollar_digits s = true -> search_dollar_digits (s ++ w) = true.
Proof.
  induction s as [|c r IH]; intro H; [discriminate|].
  cbn [append search_dollar_digits] in *.
  apply orb_true_iff in H as [H|H]; apply orb_true_iff.
  - left. apply andb_true_iff in H as [H1 H2]. rewrite H1.
    cbn [andb]. now apply match_run_app.
  - right. now apply IH.
Qed.

Lemma http_not_https (s w : string) :
  Py.startswith s "http://" = true ->
  Py.startswith (s ++ w) "https://" = false.
Proof.
  intro H.
  destruct s as [|c1 [|c2 [|c3 [|c4 [|c5 s]]]]];
    cbn [Py.startswith] in H;
    repeat match type of H with
           | (_ && _)%bool = true => apply andb_true_iff in H as [? H]
           end;
    try discriminate.
  repeat match goal with
         | E : Ascii.eqb _ _ = true |- _ => apply Ascii.eqb_eq in E; subst
         end.
  reflexivity.
Qed.

Lemma match_http_app (s w : string) (n : nat) :
  match_http s = Some n -> match_http (s ++ w) = Some n.
Proof.
  unfold match_http.
  destruct (Py.startswith s "https://") eqn:E8.
  - intro H. now rewrite (PyFacts.startswith_app _ w _ E8).
  - destruct (Py.startswith s "http://") eqn:E7; [|discriminate].
    intro H. rewrite (http_not_https _ w E7).
    now rewrite (PyFacts.startswith_app _ w _ E7).
Qed.

Lemma match_http_length (s : string) (n : nat) :
  match_http s = Some n -> (7 <= n <= 8 /\ n <= String.length s)%nat.
Proof.
  unfold match_http.
  destruct (Py.startswith s "https://") eqn:E8.
  - intro H. injection H as <-. apply PyFacts.startswith_length in E8.
    cbn [String.length] in E8. lia.
  - destruct (Py.startswith s "http://") eqn:E7; [|discriminate].
    intro H. injection H as <-. apply PyFacts.startswith_length in E7.
    cbn [String.length] in E7. lia.
Qed.

(** A match in an extended text that fits in the text is a match there. *)
Lemma match_http_fits (s w : string) (n : nat) :
  match_http (s ++ w) = Some n -> (8 <= String.length s)%nat ->
  match_http s = Some n.
Proof.
  unfold match_http. intros H L.
  destruct (Py.startswith (s ++ w) "https://") eqn:E8.
  - rewrite (PyFacts.startswith_fits _ _ _ E8); [exact H|exact L].
  - destruct (Py.startswith (s ++ w) "http://") eqn:E7; [|discriminate].
    assert (F : Py.startswith s "http://" = true).
    { apply (PyFacts.startswith_fits _ _ _ E7). cbn [String.length]. lia. }
    destruct (Py.startswith s "https://") eqn:E8'.
    + rewrite (PyFacts.startswith_app _ w _ E8') in E8. discriminate.
    + now rewrite F.
Qed.

Lemma findall_http_short (s : string) (skip : nat) :
  (String.length s < 7)%nat -> findall_http_from skip s = [].
Proof.
  revert skip. induction s as [|c r IH]; intros skip L; [reflexivity|].
  cbn [findall_http_from]. cbn [String.length] in L.
  destruct skip; [|apply IH; lia].
  destruct (match_http (String c r)) eqn:E; [|apply IH; lia].
  apply match_http_length in E. cbn [String.length] in E. lia.
Qed.

(** Appending text never lowers the number of matches. *)
Lemma findall_http_from_app (s w : string) (skip : nat) :
  (List.length (findall_http_from skip s)
   <= List.length (findall_http_from skip (s ++ w)))%nat.
Proof.
  revert skip. induction s as [|c r IH]; intro skip.
  - cbn [findall_http_from List.length]. lia.
  - cbn [append findall_http_from]. destruct skip as [|k]; [|apply IH].
    change (String c (r ++ w)) with (String c r ++ w).
    destruct (match_http (String c r)) as [n|] eqn:E.
    + rewrite (match_http_app _ w _ E). cbn [List.length].
      apply le_n_S, IH.
    + destruct (match_http (String c r ++ w)) as [n|] eqn:E'; [|apply IH].
      destruct (Nat.le_gt_cases 8 (String.length (String c r))) as [L|L].
      * rewrite (match_http_fits _ _ _ E' L) in E. discriminate.
      * rewrite findall_http_short; [cbn [List.length]; lia|].
        cbn [String.length] in L. lia.
Qed.

Lemma findall_http_app (s w : string) :
  (List.length (findall_http s) <= List.length (findall_http (s ++ w)))%nat.
Proof. apply findall_http_from_app. Qed.

End ReFacts.

(** Two loops over the same list whose bodies keep a relation between their
    variables end in related variables. *)
Lemma fold_left_rel {A A' B : Type} (R : A -> A' -> Prop)
    (f : A -> B -> A) (g : A' -> B -> A') (l : list B) :
  (forall a a' b, In b l -> R a a' -> R (f a b) (g a' b)) ->
  forall a a', R a a' -> R (fold_left f l a) (fold_left g l a').
Proof.
  induction l as [|b l IH]; intros step a a' H; cbn [fold_left]; [exact H|].
  apply IH.
  - intros x x' y Hy. apply step. now right.
  - apply step; [now left|exact H].
Qed.

Lemma of_int_le (n m : nat) : (n <= m)%nat -> (of_int n <= of_int m)%Q.
Proof.
  intro H. unfold of_int. rewrite <- Zle_Qle. lia.
Qed.

Lemma ltb_mono (k n m : nat) :
  (n <= m)%nat -> (k <? n)%nat = true -> (k <? m)%nat = true.
Proof.
  intros L H. apply Nat.ltb_lt in H. apply Nat.ltb_lt. lia.
Qed.

Lemma of_int_S (n : nat) : (of_int (S n) == of_int n + 1)%Q.
Proof.
  unfold of_int. rewrite Nat2Z.inj_succ, <- Z.add_1_r, inject_Z_plus.
  reflexivity.
Qed.

Lemma of_int_add (n m : nat) : (of_int (n + m) == of_int n + of_int m)%Q.
Proof.
  unfold of_int. rewrite Nat2Z.inj_add, inject_Z_plus. reflexivity.
Qed.

Lemma occurrences_cons (tl k : string) (l : list string) :
  occurrences tl (k :: l) = (Py.count tl k + occurrences tl l)%nat.
Proof. reflexivity. Qed.

Lemma total_occurrences_cons (tl : string) (item : string * list string)
    (table : list (string * list string)) :
  total_occurrences tl (item :: table)
  = (occurrences tl (snd item) + total_occurrences tl table)%nat.
Proof. reflexivity. Qed.

Lemma matched_cons (tl k : string) (l : list string) :
  matched tl (k :: l)
  = if Py.contains k tl then k :: matched tl l else matched tl l.
Proof. reflexivity. Qed.

Module SpamFacts.
Import Spam.
Local Open Scope Q_scope.

Lemma spam_check_keyword_nonneg (tl : string) (st : Q * list string) (k : string) :
  0 <= fst st -> 0 <= fst (check_keyword tl st k).
Proof.
  intro H. unfold check_keyword. destruct (Py.contains k tl); simpl; lra.
Qed.

Lemma check_pattern_nonneg (b : bool) (w : Q) (n : string) (st : Q * list string) :
  0 <= w -> 0 <= fst st -> 0 <= fst (check_pattern b w n st).
Proof.
  intros Hw H. unfold check_pattern. destruct b; simpl; lra.
Qed.

(** The fields of the result, from the two phases of the function.  The
    phases are abstracted before the two sides are compared. *)
Lemma spam_result_eq (t : string) (th : Q) :
  let kw := scan_keywords (Py.lower t) in
  let st := check_patterns t (fst kw) in
  let p := Qmin (fst st / 5.0) 1.0 in
  let r := detect_spam t th in
  spam_score r = fst st /\ spam_probability r = p
  /\ ham_probability r = 1 - p /\ confidence r = Qmax p (1 - p)
  /\ is_spam r = Qgt_bool p th
  /\ classification r = (if Qgt_bool p th then SPAM else HAM)
  /\ found_keywords r = snd kw /\ patterns_found r = snd st.
Proof.
  unfold detect_spam. cbv zeta.
  generalize (scan_keywords (Py.lower t)). intro kw.
  generalize (check_patterns t (fst kw)). intro st.
  repeat split; reflexivity.
Qed.

Lemma spam_score_eq (t : string) (th : Q) :
  spam_score (detect_spam t th)
  = fst (check_patterns t (fst (scan_keywords (Py.lower t)))).
Proof. apply (spam_result_eq t th). Qed.

Lemma scan_keywords_nonneg (tl : string) : 0 <= fst (scan_keywords tl).
Proof.
  unfold scan_keywords.
  apply (fold_left_inv (fun st => 0 <= fst st)).
  - intros a b. apply spam_check_keyword_nonneg.
  - cbn [fst]. lra.
Qed.

Lemma check_patterns_nonneg (t : string) (s : Q) :
  0 <= s -> 0 <= fst (check_patterns t s).
Proof.
  intro H. unfold check_patterns.
  do 5 (apply check_pattern_nonneg; [lra|]).
  exact H.
Qed.

Lemma spam_score_nonneg (t : string) (th : Q) :
  0 <= spam_score (detect_spam t th).
Proof.
  rewrite spam_score_eq.
  apply check_patterns_nonneg, scan_keywords_nonneg.
Qed.

Lemma spam_probability_eq (t : string) (th : Q) :
  spam_probability (detect_spam t th)
  = Qmin (spam_score (detect_spam t th) / 5.0) 1.0.
Proof.
  destruct (spam_result_eq t th) as (E1 & E2 & _). rewrite E1, E2. reflexivity.
Qed.

Lemma spam_probability_bounds (t : string) (th : Q) :
  0 <= spam_probability (detect_spam t th) <= 1.
Proof.
  rewrite spam_probability_eq. apply Qmin_1_bounds.
  pose proof (spam_score_nonneg t th) as H.
  apply Qle_shift_div_l; lra.
Qed.

(** *** What a keyword contributes *)

Lemma spam_keywords_from (tl : string) (l : list string) (st : Q * list string) :
  fst (fold_left (check_keyword tl) l st)
  == fst st + of_int (List.length (matched tl l))
  /\ snd (fold_left (check_keyword tl) l st) = (snd st ++ matched tl l)%list.
Proof.
  revert st. induction l as [|k l IH]; intro st; cbn [fold_left].
  - cbn [matched filter List.length]. change (of_int 0) with 0.
    rewrite app_nil_r. split; [lra|reflexivity].
  - destruct (IH (check_keyword tl st k)) as [E1 E2].
    rewrite E1, E2, matched_cons. unfold check_keyword.
    destruct (Py.contains k tl); cbn [fst snd List.length].
    + rewrite of_int_S, <- app_assoc. split; [lra|reflexivity].
    + split; reflexivity.
Qed.

Lemma scan_keywords_eq (tl : string) :
  fst (scan_keywords tl) == of_int (List.length (matched tl spam_keywords))
  /\ snd (scan_keywords tl) = matched tl spam_keywords.
Proof.
  unfold scan_keywords.
  destruct (spam_keywords_from tl spam_keywords (0, [])) as [K1 K2].
  rewrite K1, K2. cbn [fst snd app]. split; [lra|reflexivity].
Qed.

Lemma spam_check_patterns_add (t : string) (s : Q) :
  fst (check_patterns t s) == s + fst (check_patterns t 0)
  /\ snd (check_patterns t s) = snd (check_patterns t 0).
Proof.
  unfold check_patterns, check_pattern.
  destruct (Re.search_run Re.is_digit 3 t), (excessive_caps t),
    (2 <? Py.count t "!")%nat, (Re.search_dollar_digits t),
    (1 <? List.length (Re.findall_http t))%nat;
    cbn [fst snd]; split; try reflexivity; lra.
Qed.

Lemma spam_classification_eq (t : string) (th : Q) :
  classification (detect_spam t th)
  = if Qgt_bool (spam_probability (detect_spam t th)) th then SPAM else HAM.
Proof.
  destruct (spam_result_eq t th) as (_ & E2 & _ & _ & _ & E6 & _).
  rewrite E2, E6. reflexivity.
Qed.

Lemma classification_spec (t : string) (th : Q) :
  (classification (detect_spam t th) = SPAM
   <-> th < spam_probability (detect_spam t th))
  /\ (classification (detect_spam t th) = HAM
      <-> spam_probability (detect_spam t th) <= th).
Proof.
  rewrite spam_classification_eq.
  destruct (Qgt_bool (spam_probability (detect_spam t th)) th) eqn:E;
    [apply Qgt_bool_true in E | apply Qgt_bool_false in E];
    repeat split; intros; try discriminate; try assumption;
    exfalso; lra.
Qed.

(** *** Appending text *)

Lemma check_keyword_mono tl tl' st st' k :
  (Py.contains k tl = true -> Py.contains k tl' = true) ->
  fst st <= fst st' ->
  fst (check_keyword tl st k) <= fst (check_keyword tl' st' k).
Proof.
  intros Hc H. unfold check_keyword.
  destruct (Py.contains k tl).
  - rewrite Hc by reflexivity. cbn [fst]. lra.
  - destruct (Py.contains k tl'); cbn [fst]; lra.
Qed.

Lemma scan_keywords_mono tl tl' :
  (forall k, Py.contains k tl = true -> Py.contains k tl' = true) ->
  fst (scan_keywords tl) <= fst (scan_keywords tl').
Proof.
  intro Hc. unfold scan_keywords.
  apply (fold_left_rel (fun st st' => fst st <= fst st')).
  - intros a a' b _. apply check_keyword_mono, Hc.
  - cbn [fst]. lra.
Qed.

Lemma check_pattern_mono (b b' : bool) w n st st' :
  0 <= w -> (b = true -> b' = true) -> fst st <= fst st' ->
  fst (check_pattern b w n st) <= fst (check_pattern b' w n st').
Proof.
  intros Hw Hb H. unfold check_pattern.
  destruct b.
  - rewrite Hb by reflexivity. cbn [fst]. lra.
  - destruct b'; cbn [fst]; lra.
Qed.

Lemma check_patterns_mono (t w : string) (s s' : Q) :
  (excessive_caps t = true -> excessive_caps (t ++ w) = true) ->
  s <= s' ->
  fst (check_patterns t s) <= fst (check_patterns (t ++ w) s').
Proof.
  intros Hcaps H. unfold check_patterns.
  apply check_pattern_mono; [lra| |].
  { apply ltb_mono, ReFacts.findall_http_app. }
  apply check_pattern_mono; [lra|apply ReFacts.search_dollar_digits_app|].
  apply check_pattern_mono; [lra| |].
  { apply ltb_mono, PyFacts.count_app. }
  apply check_pattern_mono; [lra|exact Hcaps|].
  apply check_pattern_mono; [lra|apply ReFacts.search_run_app|].
  exact H.
Qed.

Lemma spam_score_app (t w : string) (th : Q) :
  (excessive_caps t = true -> excessive_caps (t ++ w) = true) ->
  spam_score (detect_spam t th) <= spam_score (detect_spam (t ++ w) th).
Proof.
  intro Hcaps. rewrite !spam_score_eq.
  apply check_patterns_mono; [exact Hcaps|].
  apply scan_keywords_mono. intros k Hk.
  rewrite PyFacts.lower_app. now apply PyFacts.contains_app.
Qed.

Lemma spam_probability_mono (t t' : string) (th : Q) :
  spam_score (detect_spam t th) <= spam_score (detect_spam t' th) ->
  spam_probability (detect_spam t th) <= spam_probability (detect_spam t' th).
Proof.
  intro H. rewrite !spam_probability_eq.
  apply Q.min_le_compat_r.
  apply Qmult_le_compat_r; [exact H|discriminate].
Qed.

End SpamFacts.

Module ToxicityFacts.
Import Toxicity.
Local Open Scope Q_scope.

Lemma set_same {V} (d : dict V) (k : Cat.t) (v : V) : set d k v k = v.
Proof. unfold set. destruct k; reflexivity. Qed.

Lemma set_at {V} (d : dict V) (k k' : Cat.t) (v : V) :
  set d k v k' = v \/ set d k v k' = d k'.
Proof. unfold set. destruct (Cat.eqb k k'); auto. Qed.

Lemma normalize_at (sc : dict Q) (k : Cat.t) :
  normalize sc k = Qmin (sc k) 1.0.
Proof. destruct k; reflexivity. Qed.

Lemma set_nonneg (sc : dict Q) (k : Cat.t) (v : Q) :
  nonneg sc -> 0 <= v -> nonneg (set sc k v).
Proof.
  intros H Hv k'. destruct (set_at sc k k' v) as [E|E]; rewrite E; auto.
Qed.

Lemma add_nonneg (sc : dict Q) (k : Cat.t) (w : Q) :
  nonneg sc -> 0 <= w -> nonneg (set sc k (sc k + w)).
Proof.
  intros H Hw. apply set_nonneg; [exact H|]. specialize (H k). lra.
Qed.

Lemma check_word_nonneg tl cat w wt st word :
  0 <= w -> 0 <= wt -> nonneg (fst st) ->
  nonneg (fst (check_word tl cat w wt st word)).
Proof.
  intros Hw Hwt H. unfold check_word.
  destruct (Py.contains word tl); [|exact H].
  cbn [fst]. apply add_nonneg; [|exact Hwt]. apply add_nonneg; assumption.
Qed.

Lemma accumulate_nonneg (t : string) : nonneg (fst (accumulate t)).
Proof.
  unfold accumulate. cbn [fst].
  assert (L : forall cat w wt l st, 0 <= w -> 0 <= wt -> nonneg (fst st) ->
            nonneg (fst (fold_left (check_word (Py.lower t) cat w wt) l st))).
  { intros cat w wt l st Hw Hwt.
    apply (fold_left_inv (fun st => nonneg (fst st))).
    intros a b. apply check_word_nonneg; assumption. }
  match goal with
  | |- nonneg (if ?b then _ else ?x) =>
      assert (H2 : nonneg x); [|destruct b; [apply add_nonneg; [exact H2|lra]|exact H2]]
  end.
  match goal with
  | |- nonneg (if ?b then _ else ?x) =>
      assert (H1 : nonneg x); [|destruct b; [apply add_nonneg; [exact H1|lra]|exact H1]]
  end.
  do 5 (apply L; [lra|lra|]).
  intro k. cbn [fst]. lra.
Qed.

Lemma max_of_bounds (a b : Q) (x : Q) (xs : list Q) :
  a <= x <= b -> Forall (fun y => a <= y <= b) xs ->
  a <= max_of (x :: xs) <= b.
Proof.
  unfold max_of. revert x.
  induction xs as [|y r IH]; intros x Hx Hall; cbn [fold_left].
  - exact Hx.
  - inversion Hall as [|? ? Hy Hr]; subst.
    apply IH; [|exact Hr].
    destruct (Q.max_spec x y) as [[_ E]|[_ E]]; rewrite E; assumption.
Qed.

(** The fields of the result, from the accumulated scores.  The
    accumulation is abstracted before the two sides are compared. *)
Lemma tox_result_eq (t : string) :
  let st := accumulate t in
  let sc := normalize (fst st) in
  let r := detect_toxicity t in
  (forall k, get r k = sc k)
  /\ overall_toxicity r = max_of (values sc)
  /\ classification r = fst (classify (max_of (values sc)))
  /\ risk_level r = snd (classify (max_of (values sc)))
  /\ detected_items r = snd st.
Proof.
  unfold detect_toxicity. cbv zeta.
  generalize (accumulate t). intro st.
  generalize (normalize (fst st)). intro sc.
  repeat split. intro k. destruct k; reflexivity.
Qed.

Lemma tox_scores_eq (t : string) :
  let sc := normalize (fst (accumulate t)) in
  let r := detect_toxicity t in
  toxic r = sc Cat.toxic /\ severe_toxic r = sc Cat.severe_toxic
  /\ obscene r = sc Cat.obscene /\ threat r = sc Cat.threat
  /\ insult r = sc Cat.insult /\ identity_attack r = sc Cat.identity_attack
  /\ overall_toxicity r = max_of (values sc).
Proof.
  destruct (tox_result_eq t) as (G & E & _). intros sc r.
  exact (conj (G Cat.toxic) (conj (G Cat.severe_toxic) (conj (G Cat.obscene)
          (conj (G Cat.threat) (conj (G Cat.insult)
             (conj (G Cat.identity_attack) E)))))).
Qed.

Lemma normalized_bounds (t : string) (k : Cat.t) :
  0 <= normalize (fst (accumulate t)) k <= 1.
Proof.
  rewrite normalize_at. apply Qmin_1_bounds, accumulate_nonneg.
Qed.

Lemma overall_toxicity_bounds (t : string) :
  0 <= overall_toxicity (detect_toxicity t) <= 1.
Proof.
  destruct (tox_scores_eq t) as (_ & _ & _ & _ & _ & _ & E). rewrite E.
  unfold values, Cat.keys. cbn [map].
  apply max_of_bounds; [apply normalized_bounds|].
  repeat constructor; apply normalized_bounds.
Qed.

(** *** Appending text *)

Lemma Cat_eqb_eq (a b : Cat.t) : Cat.eqb a b = true -> a = b.
Proof. destruct a, b; (reflexivity || discriminate). Qed.

Lemma add_mono (sc sc' : dict Q) (k : Cat.t) (w : Q) :
  le_dict sc sc' -> le_dict (set sc k (sc k + w)) (set sc' k (sc' k + w)).
Proof.
  intros H k'. unfold set. destruct (Cat.eqb k k').
  - specialize (H k). lra.
  - apply H.
Qed.

Lemma add_ge (sc : dict Q) (k : Cat.t) (w : Q) :
  0 <= w -> le_dict sc (set sc k (sc k + w)).
Proof.
  intros Hw k'. unfold set. destruct (Cat.eqb k k') eqn:E; [|lra].
  apply Cat_eqb_eq in E. subst k'. lra.
Qed.

Lemma le_dict_trans (a b c : dict Q) : le_dict a b -> le_dict b c -> le_dict a c.
Proof. intros H1 H2 k. apply Qle_trans with (b k); auto. Qed.

Lemma check_word_mono tl tl' cat w wt st st' word :
  0 <= w -> 0 <= wt ->
  (Py.contains word tl = true -> Py.contains word tl' = true) ->
  le_dict (fst st) (fst st') ->
  le_dict (fst (check_word tl cat w wt st word))
          (fst (check_word tl' cat w wt st' word)).
Proof.
  intros Hw Hwt Hc H. unfold check_word.
  destruct (Py.contains word tl).
  - rewrite Hc by reflexivity. cbn [fst]. now apply add_mono, add_mono.
  - destruct (Py.contains word tl'); [|exact H]. cbn [fst].
    apply le_dict_trans with (fst st'); [exact H|].
    eapply le_dict_trans; [apply (add_ge _ cat w Hw)|].
    apply add_ge, Hwt.
Qed.

Lemma if_add_mono (b b' : bool) (sc sc' : dict Q) (k : Cat.t) (w : Q) :
  0 <= w -> (b = true -> b' = true) -> le_dict sc sc' ->
  le_dict (if b then set sc k (sc k + w) else sc)
          (if b' then set sc' k (sc' k + w) else sc').
Proof.
  intros Hw Hb H. destruct b.
  - rewrite Hb by reflexivity. now apply add_mono.
  - destruct b'; [|exact H].
    apply le_dict_trans with sc'; [exact H|]. apply add_ge, Hw.
Qed.

Lemma accumulate_app (t w : string) :
  le_dict (fst (accumulate t)) (fst (accumulate (t ++ w))).
Proof.
  unfold accumulate. cbn [fst].
  assert (L : forall cat x xt l st st', 0 <= x -> 0 <= xt ->
            le_dict (fst st) (fst st') ->
            le_dict
              (fst (fold_left (check_word (Py.lower t) cat x xt) l st))
              (fst (fold_left (check_word (Py.lower (t ++ w)) cat x xt) l st'))).
  { intros cat x xt l st st' Hx Hxt.
    apply (fold_left_rel (fun st st' => le_dict (fst st) (fst st'))).
    intros a a' b _. apply check_word_mono; try assumption.
    rewrite PyFacts.lower_app. apply PyFacts.contains_app. }
  apply if_add_mono; [lra|apply ReFacts.search_run_app|].
  apply if_add_mono; [lra|apply ReFacts.search_run_app|].
  do 5 (apply L; [lra|lra|]).
  intro k. cbn [fst]. lra.
Qed.

Lemma normalize_mono (sc sc' : dict Q) :
  le_dict sc sc' -> le_dict (normalize sc) (normalize sc').
Proof.
  intros H k. rewrite !normalize_at. apply Q.min_le_compat_r, H.
Qed.

Lemma max_of_values_mono (sc sc' : dict Q) :
  le_dict sc sc' -> max_of (values sc) <= max_of (values sc').
Proof.
  intro H. unfold values, Cat.keys, max_of. cbn [map fold_left].
  repeat apply Q.max_le_compat; apply H.
Qed.

(** *** What a word contributes *)

Lemma words_from tl cat w wt (l : list string)
    (st : dict Q * dict (list string)) :
  Cat.eqb cat Cat.toxic = false ->
  (forall k,
      fst (fold_left (check_word tl cat w wt) l st) k
      == fst st k + bump cat w wt (of_int (List.length (matched tl l))) k)
  /\ (forall k,
         snd (fold_left (check_word tl cat w wt) l st) k
         = (snd st k ++ (if Cat.eqb cat k then matched tl l else []))%list).
Proof.
  intro Hcat. revert st.
  induction l as [|word l IH]; intro st; cbn [fold_left].
  - change (matched tl []) with (@nil string). cbn [List.length].
    change (of_int 0) with 0. split; intro k.
    + unfold bump. destruct (Cat.eqb cat k), (Cat.eqb Cat.toxic k); lra.
    + destruct (Cat.eqb cat k); now rewrite app_nil_r.
  - destruct (IH (check_word tl cat w wt st word)) as [E1 E2].
    split; intro k.
    + rewrite (E1 k), matched_cons. unfold check_word.
      destruct (Py.contains word tl); cbn [fst List.length]; [|reflexivity].
      pose proof (of_int_S (List.length (matched tl l))) as HS.
      destruct cat; try discriminate Hcat; destruct k;
        cbv beta iota delta [set bump Cat.eqb]; try lra; rewrite HS; ring.
    + rewrite (E2 k), matched_cons. unfold check_word.
      destruct (Py.contains word tl); cbn [snd]; [|reflexivity].
      destruct cat; try discriminate Hcat; destruct k;
        cbv beta iota delta [set Cat.eqb];
        rewrite <- ?app_assoc; reflexivity.
Qed.

Lemma accumulate_eq (t : string) :
  (forall k, fst (accumulate t) k == toxicity_sum t k)
  /\ (forall k, snd (accumulate t) k = toxicity_items t k).
Proof.
  unfold toxicity_sum, toxicity_items.
  set (tl := Py.lower t). unfold accumulate. fold tl. cbn [fst snd].
  set (s0 := ((fun _ : Cat.t => 0.0, fun _ : Cat.t => @nil string))).
  set (s1 := fold_left (check_word tl Cat.severe_toxic 0.3 0.2)
               (TOXIC_WORDS Key.severe) s0).
  set (s2 := fold_left (check_word tl Cat.obscene 0.25 0.15)
               (TOXIC_WORDS Key.obscene) s1).
  set (s3 := fold_left (check_word tl Cat.threat 0.4 0.25)
               (TOXIC_WORDS Key.threat) s2).
  set (s4 := fold_left (check_word tl Cat.insult 0.2 0.15)
               (TOXIC_WORDS Key.insult) s3).
  set (s5 := fold_left (check_word tl Cat.identity_attack 0.15 0.1)
               (TOXIC_WORDS Key.identity) s4).
  destruct (words_from tl Cat.severe_toxic 0.3 0.2
              (TOXIC_WORDS Key.severe) s0 eq_refl) as [A1 B1].
  destruct (words_from tl Cat.obscene 0.25 0.15
              (TOXIC_WORDS Key.obscene) s1 eq_refl) as [A2 B2].
  destruct (words_from tl Cat.threat 0.4 0.25
              (TOXIC_WORDS Key.threat) s2 eq_refl) as [A3 B3].
  destruct (words_from tl Cat.insult 0.2 0.15
              (TOXIC_WORDS Key.insult) s3 eq_refl) as [A4 B4].
  destruct (words_from tl Cat.identity_attack 0.15 0.1
              (TOXIC_WORDS Key.identity) s4 eq_refl) as [A5 B5].
  fold s1 in A1, B1. fold s2 in A2, B2. fold s3 in A3, B3.
  fold s4 in A4, B4. fold s5 in A5, B5.
  fold (toxic_hits Key.severe tl) in A1. fold (toxic_hits Key.obscene tl) in A2.
  fold (toxic_hits Key.threat tl) in A3. fold (toxic_hits Key.insult tl) in A4.
  fold (toxic_hits Key.identity tl) in A5.
  split; intro k.
  - assert (E : fst s5 k
                == bump Cat.severe_toxic 0.3 0.2 (toxic_hits Key.severe tl) k
                   + bump Cat.obscene 0.25 0.15 (toxic_hits Key.obscene tl) k
                   + bump Cat.threat 0.4 0.25 (toxic_hits Key.threat tl) k
                   + bump Cat.insult 0.2 0.15 (toxic_hits Key.insult tl) k
                   + bump Cat.identity_attack 0.15 0.1
                       (toxic_hits Key.identity tl) k).
    { rewrite (A5 k), (A4 k), (A3 k), (A2 k), (A1 k).
      unfold s0. cbn [fst]. lra. }
    unfold toxic_pattern_bonus.
    destruct (Re.search_run Re.is_AZ 5 t),
      (Re.search_run (Re.is_char "!") 3 t);
      destruct k; cbv beta iota delta [set Cat.eqb];
      rewrite E; cbv beta iota delta [bump Cat.eqb]; lra.
  - rewrite (B5 k), (B4 k), (B3 k), (B2 k), (B1 k). unfold s0. cbn [snd].
    destruct k; cbv beta iota delta [Cat.eqb]; rewrite ?app_nil_r;
      reflexivity.
Qed.

(** *** The ladder of cutoffs *)

Lemma tox_classify_spec (q : Q) :
  (fst (classify q) = Highly_Toxic <-> 0.7 <= q)
  /\ (fst (classify q) = Moderately_Toxic <-> 0.4 <= q < 0.7)
  /\ (fst (classify q) = Mildly_Toxic <-> 0.2 <= q < 0.4)
  /\ (fst (classify q) = Non_Toxic <-> q < 0.2).
Proof.
  unfold classify.
  destruct (Qge_bool q 0.7) eqn:E7;
    [apply Qge_bool_true in E7 | apply Qge_bool_false in E7];
  (destruct (Qge_bool q 0.4) eqn:E4;
    [apply Qge_bool_true in E4 | apply Qge_bool_false in E4]);
  (destruct (Qge_bool q 0.2) eqn:E2;
    [apply Qge_bool_true in E2 | apply Qge_bool_false in E2]);
  cbn [fst]; repeat split; intros; try discriminate; try lra;
    try (exfalso; lra).
Qed.

Lemma tox_classification_eq (t : string) :
  classification (detect_toxicity t)
  = fst (classify (overall_toxicity (detect_toxicity t)))
  /\ risk_level (detect_toxicity t)
     = snd (classify (overall_toxicity (detect_toxicity t))).
Proof.
  destruct (tox_result_eq t) as (_ & E & C & R & _).
  rewrite E, C, R. split; reflexivity.
Qed.

Lemma get_eq (t : string) (k : Cat.t) :
  get (detect_toxicity t) k = normalize (fst (accumulate t)) k.
Proof. apply (tox_result_eq t). Qed.

Lemma scores_app (t w : string) (k : Cat.t) :
  get (detect_toxicity t) k <= get (detect_toxicity (t ++ w)) k.
Proof.
  rewrite !get_eq. apply normalize_mono, accumulate_app.
Qed.

Lemma overall_toxicity_app (t w : string) :
  overall_toxicity (detect_toxicity t)
  <= overall_toxicity (detect_toxicity (t ++ w)).
Proof.
  destruct (tox_scores_eq t) as (_ & _ & _ & _ & _ & _ & E).
  destruct (tox_scores_eq (t ++ w)) as (_ & _ & _ & _ & _ & _ & E').
  rewrite E, E'. apply max_of_values_mono, normalize_mono, accumulate_app.
Qed.

End ToxicityFacts.

Module FakeNewsFacts.
Import FakeNews.
Local Open Scope Q_scope.

Lemma news_check_keyword_nonneg tl w st k :
  0 <= w -> 0 <= fst st -> 0 <= fst (check_keyword tl w st k).
Proof.
  intros Hw H. unfold check_keyword.
  destruct (Py.contains k tl); [|exact H]. cbn [fst].
  pose proof (of_int_nonneg (Py.count tl k)) as Hc.
  apply Qle_trans with (fst st + 0); [lra|].
  apply Qplus_le_r. apply Qmult_le_0_compat; assumption.
Qed.

Lemma check_category_nonneg tl w st item :
  0 <= w -> 0 <= fst st -> 0 <= fst (check_category tl w st item).
Proof.
  intros Hw H. unfold check_category. cbn [fst].
  apply (fold_left_inv (fun st => 0 <= fst st)).
  - intros a b. apply news_check_keyword_nonneg, Hw.
  - exact H.
Qed.

Lemma scan_nonneg table w tl : 0 <= w -> 0 <= fst (scan table w tl).
Proof.
  intro Hw. unfold scan.
  apply (fold_left_inv (fun st => 0 <= fst st)).
  - intros a b. apply check_category_nonneg, Hw.
  - cbn [fst]. lra.
Qed.

Lemma check_patterns_ge (t : string) (s : Q) : s <= check_patterns t s.
Proof.
  unfold check_patterns.
  destruct (Re.search_run Re.is_AZ 10 t),
           (Re.search_run (Re.is_char "!") 3 t),
           (Re.search_run (Re.is_char "?") 2 t); lra.
Qed.

Lemma news_combine_bounds (c f : Q) :
  0 <= c -> 0 <= f -> 0 <= combine c f <= 1.
Proof.
  intros Hc Hf. unfold combine.
  destruct (Qgt_bool c 0 || Qgt_bool f 0); [|lra].
  destruct (Qgt_bool (c + f) 0) eqn:E; [|lra].
  apply Qgt_bool_true in E. split.
  - apply Qle_shift_div_l; lra.
  - apply Qle_shift_div_r; lra.
Qed.

Lemma news_scores_eq (t : string) :
  let r := detect_fake_news t in
  fake_score r = Qmin (check_patterns t (fst (scan FAKE_INDICATORS 0.15 (Py.lower t)))) 1.0
  /\ credible_score r = Qmin (fst (scan CREDIBLE_INDICATORS 0.2 (Py.lower t))) 1.0
  /\ credibility r = combine (credible_score r) (fake_score r)
  /\ classification r = fst (classify (credibility r))
  /\ risk_level r = snd (classify (credibility r))
  /\ fake_indicators r = snd (scan FAKE_INDICATORS 0.15 (Py.lower t))
  /\ credible_indicators r = snd (scan CREDIBLE_INDICATORS 0.2 (Py.lower t)).
Proof.
  unfold detect_fake_news. cbv zeta.
  generalize (scan FAKE_INDICATORS 0.15 (Py.lower t)). intro fake.
  generalize (scan CREDIBLE_INDICATORS 0.2 (Py.lower t)). intro credible.
  generalize (check_patterns t (fst fake)). intro fs.
  repeat split; reflexivity.
Qed.

(** *** What a keyword contributes *)

Lemma news_keywords_from (tl : string) (w : Q) (l : list string)
    (st : Q * list string) :
  fst (fold_left (check_keyword tl w) l st)
  == fst st + of_int (occurrences tl l) * w
  /\ snd (fold_left (check_keyword tl w) l st) = (snd st ++ matched tl l)%list.
Proof.
  revert st. induction l as [|k l IH]; intro st; cbn [fold_left].
  - change (occurrences tl []) with 0%nat. change (matched tl []) with (@nil string).
    change (of_int 0) with 0. rewrite app_nil_r. split; [lra|reflexivity].
  - destruct (IH (check_keyword tl w st k)) as [E1 E2].
    rewrite E1, E2, matched_cons, occurrences_cons, of_int_add.
    unfold check_keyword.
    destruct (Py.contains k tl) eqn:C; cbn [fst snd].
    + rewrite <- app_assoc. split; [lra|reflexivity].
    + rewrite (PyFacts.count_absent _ _ C). change (of_int 0) with 0.
      split; [lra|reflexivity].
Qed.

Lemma categories_from (tl : string) (w : Q) (table : indicators)
    (st : Q * list (string * list string)) :
  fst (fold_left (check_category tl w) table st)
  == fst st + of_int (total_occurrences tl table) * w
  /\ snd (fold_left (check_category tl w) table st)
     = (snd st ++ matched_by_category tl table)%list.
Proof.
  revert st. induction table as [|item table IH]; intro st; cbn [fold_left].
  - change (total_occurrences tl []) with 0%nat.
    change (matched_by_category tl []) with (@nil (string * list string)).
    change (of_int 0) with 0. rewrite app_nil_r. split; [lra|reflexivity].
  - destruct (IH (check_category tl w st item)) as [E1 E2].
    rewrite E1, E2, total_occurrences_cons, of_int_add.
    change (matched_by_category tl (item :: table))
      with ((fst item, matched tl (snd item)) :: matched_by_category tl table).
    unfold check_category. cbn [fst snd].
    destruct (news_keywords_from tl w (snd item) (fst st, [])) as [K1 K2].
    rewrite K1, K2. cbn [fst snd app].
    rewrite <- app_assoc. split; [lra|reflexivity].
Qed.

Lemma scan_eq (table : indicators) (w : Q) (tl : string) :
  fst (scan table w tl) == of_int (total_occurrences tl table) * w
  /\ snd (scan table w tl) = matched_by_category tl table.
Proof.
  unfold scan. destruct (categories_from tl w table (0.0, [])) as [E1 E2].
  rewrite E1, E2. cbn [fst snd app]. split; [lra|reflexivity].
Qed.

Lemma news_check_patterns_add (t : string) (s : Q) :
  check_patterns t s == s + check_patterns t 0.
Proof.
  unfold check_patterns.
  destruct (Re.search_run Re.is_AZ 10 t),
    (Re.search_run (Re.is_char "!") 3 t),
    (Re.search_run (Re.is_char "?") 2 t); lra.
Qed.

Lemma news_classify_spec (q : Q) :
  (fst (classify q) = Likely_Credible <-> 0.7 <= q)
  /\ (fst (classify q) = Mixed_Signals <-> 0.5 <= q < 0.7)
  /\ (fst (classify q) = Questionable <-> 0.3 <= q < 0.5)
  /\ (fst (classify q) = Likely_Fake <-> q < 0.3).
Proof.
  unfold classify.
  destruct (Qge_bool q 0.7) eqn:E7;
    [apply Qge_bool_true in E7 | apply Qge_bool_false in E7];
  (destruct (Qge_bool q 0.5) eqn:E5;
    [apply Qge_bool_true in E5 | apply Qge_bool_false in E5]);
  (destruct (Qge_bool q 0.3) eqn:E3;
    [apply Qge_bool_true in E3 | apply Qge_bool_false in E3]);
  cbn [fst]; repeat split; intros; try discriminate; try lra;
    try (exfalso; lra).
Qed.

(** With scores that do not vanish together, [combine] is the share of
    the credible score. *)
Lemma news_combine_ratio (c f : Q) :
  0 <= c -> 0 <= f -> 0 < c + f -> combine c f == c / (c + f).
Proof.
  intros Hc Hf H. unfold combine.
  destruct (Qgt_bool c 0) eqn:Ec; cbn [orb].
  - apply Qgt_bool_true in H. rewrite H. reflexivity.
  - apply Qgt_bool_false in Ec.
    destruct (Qgt_bool f 0) eqn:Ef.
    + apply Qgt_bool_true in H. rewrite H. reflexivity.
    + apply Qgt_bool_false in Ef. exfalso. lra.
Qed.

Lemma fake_score_bounds (t : string) :
  0 <= fake_score (detect_fake_news t) <= 1.
Proof.
  destruct (news_scores_eq t) as (E & _). rewrite E.
  apply Qmin_1_bounds.
  apply Qle_trans with (fst (scan FAKE_INDICATORS 0.15 (Py.lower t))).
  - apply scan_nonneg. lra.
  - apply check_patterns_ge.
Qed.

Lemma credible_score_bounds (t : string) :
  0 <= credible_score (detect_fake_news t) <= 1.
Proof.
  destruct (news_scores_eq t) as (_ & E & _). rewrite E.
  apply Qmin_1_bounds, scan_nonneg. lra.
Qed.

Lemma credibility_bounds (t : string) :
  0 <= credibility (detect_fake_news t) <= 1.
Proof.
  destruct (news_scores_eq t) as (_ & _ & E & _). rewrite E.
  apply news_combine_bounds.
  - apply credible_score_bounds.
  - apply fake_score_bounds.
Qed.

End FakeNewsFacts.

Module ReviewFacts.
Import Review.
Local Open Scope Q_scope.

Lemma review_scores_eq (t : string) :
  let r := analyze_review_authenticity t in
  fake_score r = fst (fst (fst (totals t)))
  /\ authentic_score r = snd (fst (fst (totals t)))
  /\ authenticity_score r = combine (fake_score r) (authentic_score r)
  /\ classification r = fst (classify (authenticity_score r)).
Proof.
  unfold analyze_review_authenticity. cbv zeta.
  generalize (totals t). intro st.
  repeat split; reflexivity.
Qed.

Lemma apart_add (x w : Q) : apart x -> apart w -> apart (x + w).
Proof. unfold apart. intros [Hx|Hx] [Hw|Hw]; [left|right|right|right]; lra. Qed.

Lemma apart_if (b : bool) (x w : Q) :
  apart x -> apart w -> apart (if b then x + w else x).
Proof. intros Hx Hw. destruct b; [now apply apart_add|exact Hx]. Qed.

Lemma apart_weight (w : Q) : 0.15 <= w -> apart w.
Proof. intro H. now right. Qed.

Lemma apart_times (n : nat) (w : Q) : 0.15 <= w -> apart (of_int n * w).
Proof.
  intro Hw. destruct n as [|n].
  - left. change (of_int 0) with 0. lra.
  - right. assert (H1 : 1 <= of_int (S n)).
    { change 1 with (of_int 1). apply of_int_le. lia. }
    apply Qle_trans with (1 * w); [lra|].
    apply Qmult_le_compat_r; [exact H1|lra].
Qed.

Lemma apart_nonneg (x : Q) : apart x -> 0 <= x.
Proof. intros [H|H]; lra. Qed.

Lemma check_phrase_apart tl w st phrase :
  0.15 <= w -> apart (fst st) -> apart (fst (check_phrase tl w st phrase)).
Proof.
  intros Hw H. unfold check_phrase.
  destruct (Py.contains phrase tl); [|exact H].
  cbn [fst]. apply apart_add; [exact H|now apply apart_weight].
Qed.

Lemma phrases_apart tl w l st :
  0.15 <= w -> apart (fst st) ->
  apart (fst (fold_left (check_phrase tl w) l st)).
Proof.
  intro Hw. apply (fold_left_inv (fun st => apart (fst st))).
  intros a b. now apply check_phrase_apart.
Qed.

Lemma totals_apart (t : string) :
  apart (fst (fst (fst (totals t)))) /\ apart (snd (fst (fst (totals t)))).
Proof.
  unfold totals. cbn [fst snd]. split.
  - repeat (apply apart_if; [|apply apart_weight; lra]).
    apply phrases_apart; [lra|]. cbn [fst].
    apply phrases_apart; [lra|]. left. reflexivity.
  - apply apart_add; [|apply apart_times; lra].
    apply apart_if; [|apply apart_times; lra].
    assert (A : apart (fst (fold_left (check_phrase (Py.lower t) 0.3)
                              AUTHENTIC_INDICATORS (0, [])))).
    { apply phrases_apart; [lra|]. left. reflexivity. }
    destruct (List.length (Py.split (Py.lower t)) <? 10)%nat; [exact A|].
    apply apart_if; [exact A|apply apart_weight; lra].
Qed.

Lemma scores_apart (t : string) :
  apart (fake_score (analyze_review_authenticity t))
  /\ apart (authentic_score (analyze_review_authenticity t)).
Proof. apply totals_apart. Qed.

Lemma Qmax_floor (x : Q) : 0.1 <= x -> Qmax x 0.1 == x.
Proof. intro H. now apply Q.max_l. Qed.

(** With totals that do not vanish together, [combine] is the share of the
    authentic total. *)
Lemma review_combine_ratio (f a : Q) :
  0 <= f -> 0 <= a -> 0.1 <= f + a -> combine f a == a / (a + f).
Proof.
  intros Hf Ha H. unfold combine.
  assert (D : ~ a + f == 0) by lra.
  assert (R : 0 <= a / (a + f) <= 1).
  { split; [apply Qle_shift_div_l|apply Qle_shift_div_r]; lra. }
  destruct (Qgt_bool f a).
  - rewrite (Qmax_floor _ H).
    assert (E : 1 - f / (f + a) == a / (a + f)) by (field; lra).
    rewrite E. apply Q.max_r. apply R.
  - rewrite (Qmax_floor _ H).
    assert (E : a / (f + a) == a / (a + f)) by (field; lra).
    rewrite E. apply Q.min_r. apply R.
Qed.

Lemma review_combine_bounds (f a : Q) : 0 <= f -> 0 <= a -> 0 <= combine f a <= 1.
Proof.
  intros Hf Ha. unfold combine.
  assert (D : 0 < Qmax (f + a) 0.1).
  { apply Qlt_le_trans with 0.1; [reflexivity|apply Q.le_max_r]. }
  set (d := Qmax (f + a) 0.1) in *.
  destruct (Qgt_bool f a).
  - split; [apply Q.le_max_l|].
    apply Q.max_lub; [lra|].
    assert (0 <= f / d) by (apply Qle_shift_div_l; lra). lra.
  - split; [|apply Q.le_min_l].
    apply Q.min_glb; [lra|]. apply Qle_shift_div_l; lra.
Qed.

End ReviewFacts.

(** ** The accumulation loops, for any addition *)

Lemma add_terms_cons add value term terms score :
  add_terms add value (term :: terms) score
  = add_terms add value terms (add score (value term)).
Proof. reflexivity. Qed.

Lemma add_terms_app add value l l' score :
  add_terms add value (l ++ l') score
  = add_terms add value l' (add_terms add value l score).
Proof. unfold add_terms. apply fold_left_app. Qed.

(** A loop of [detect_toxicity] over a list of words, for any addition. *)
Section WordLoop.

Import Toxicity.

Variable add : Q -> Q -> Q.
Variable tl : string.
Variable cat : Cat.t.
Variables w wt : Q.
Variable step :
  dict Q * dict (list string) -> string -> dict Q * dict (list string).

Hypothesis step_eq : forall st word,
  step st word
  = if Py.contains word tl
    then
      let scores := set (fst st) cat (add (fst st cat) w) in
      let scores := set scores Cat.toxic (add (scores Cat.toxic) wt) in
      (scores, set (snd st) cat (snd st cat ++ [word])%list)
    else st.

Hypothesis cat_not_toxic : Cat.eqb cat Cat.toxic = false.

Lemma word_loop (l : list string) (st : dict Q * dict (list string)) :
  (forall k,
      fst (fold_left step l st) k
      = if Cat.eqb cat k then add_each add w (matched tl l) (fst st k)
        else if Cat.eqb Cat.toxic k
             then add_each add wt (matched tl l) (fst st k)
             else fst st k)
  /\ (forall k,
         snd (fold_left step l st) k
         = (snd st k ++ (if Cat.eqb cat k then matched tl l else []))%list).
Proof.
  revert st. induction l as [|word l IH]; intro st; cbn [fold_left].
  - change (matched tl []) with (@nil string). split; intro k.
    + destruct (Cat.eqb cat k), (Cat.eqb Cat.toxic k); reflexivity.
    + destruct (Cat.eqb cat k); now rewrite app_nil_r.
  - destruct (IH (step st word)) as [E1 E2].
    split; intro k.
    + rewrite (E1 k), step_eq, matched_cons.
      destruct (Py.contains word tl); [|reflexivity].
      unfold add_each. rewrite add_terms_cons. cbn [fst].
      destruct cat; try discriminate cat_not_toxic; destruct k; reflexivity.
    + rewrite (E2 k), step_eq, matched_cons.
      destruct (Py.contains word tl); [|reflexivity]. cbn [snd].
      destruct cat; try discriminate cat_not_toxic; destruct k;
        cbv beta iota delta [set Cat.eqb];
        rewrite <- ?app_assoc; reflexivity.
Qed.

End WordLoop.

(** The loops of [detect_fake_news] over a dictionary of indicators, for any
    way to add a keyword to the score. *)
Section KeywordLoop.

Variable add : Q -> Q -> Q.
Variable value : string -> Q.
Variable tl : string.
Variable step : Q * list string -> string -> Q * list string.
Variable outer :
  Q * list (string * list string) -> string * list string ->
  Q * list (string * list string).

Hypothesis step_eq : forall st keyword,
  step st keyword
  = if Py.contains keyword tl
    then (add (fst st) (value keyword), (snd st ++ [keyword])%list)
    else st.

Hypothesis outer_eq : forall st item,
  outer st item
  = let inner := fold_left step (snd item) (fst st, []) in
    (fst inner, (snd st ++ [(fst item, snd inner)])%list).

Lemma keyword_loop (l : list string) (st : Q * list string) :
  fst (fold_left step l st) = add_terms add value (matched tl l) (fst st)
  /\ snd (fold_left step l st) = (snd st ++ matched tl l)%list.
Proof.
  revert st. induction l as [|k l IH]; intro st; cbn [fold_left].
  - change (matched tl []) with (@nil string). rewrite app_nil_r.
    split; reflexivity.
  - destruct (IH (step st k)) as [E1 E2]. rewrite E1, E2, step_eq, matched_cons.
    destruct (Py.contains k tl); cbn [fst snd].
    + rewrite <- app_assoc. split; reflexivity.
    + split; reflexivity.
Qed.

Lemma category_loop (table : list (string * list string))
    (st : Q * list (string * list string)) :
  fst (fold_left outer table st)
  = add_terms add value (matched_terms tl table) (fst st)
  /\ snd (fold_left outer table st)
     = (snd st ++ matched_by_category tl table)%list.
Proof.
  revert st. induction table as [|item table IH]; intro st; cbn [fold_left].
  - unfold matched_terms. cbn. rewrite app_nil_r. split; reflexivity.
  - destruct (IH (outer st item)) as [E1 E2]. rewrite E1, E2, outer_eq.
    cbv zeta. cbn [fst snd].
    destruct (keyword_loop (snd item) (fst st, [])) as [K1 K2].
    rewrite K1, K2. cbn [fst snd app].
    unfold matched_terms. cbn [matched_by_category map List.concat snd fst].
    rewrite add_terms_app, <- app_assoc. split; reflexivity.
Qed.

End KeywordLoop.

Lemma tox_accumulate_fold (t : string) :
  (forall k, fst (Toxicity.accumulate t) k
             = toxicity_score Qplus (fun x => x) t k)
  /\ (forall k, snd (Toxicity.accumulate t) k = toxicity_items t k).
Proof.
  unfold Toxicity.accumulate. cbv zeta. cbn [fst snd].
  set (tl := Py.lower t).
  set (s0 := ((fun _ : Toxicity.Cat.t => 0.0%Q,
               fun _ : Toxicity.Cat.t => @nil string))).
  set (s1 := fold_left (Toxicity.check_word tl Toxicity.Cat.severe_toxic 0.3 0.2)
               (Toxicity.TOXIC_WORDS Toxicity.Key.severe) s0).
  set (s2 := fold_left (Toxicity.check_word tl Toxicity.Cat.obscene 0.25 0.15)
               (Toxicity.TOXIC_WORDS Toxicity.Key.obscene) s1).
  set (s3 := fold_left (Toxicity.check_word tl Toxicity.Cat.threat 0.4 0.25)
               (Toxicity.TOXIC_WORDS Toxicity.Key.threat) s2).
  set (s4 := fold_left (Toxicity.check_word tl Toxicity.Cat.insult 0.2 0.15)
               (Toxicity.TOXIC_WORDS Toxicity.Key.insult) s3).
  set (s5 := fold_left (Toxicity.check_word tl Toxicity.Cat.identity_attack 0.15 0.1)
               (Toxicity.TOXIC_WORDS Toxicity.Key.identity) s4).
  destruct (word_loop Qplus tl Toxicity.Cat.severe_toxic 0.3 0.2
              (Toxicity.check_word tl Toxicity.Cat.severe_toxic 0.3 0.2) (fun _ _ => eq_refl) eq_refl
              (Toxicity.TOXIC_WORDS Toxicity.Key.severe) s0) as [A1 B1].
  destruct (word_loop Qplus tl Toxicity.Cat.obscene 0.25 0.15
              (Toxicity.check_word tl Toxicity.Cat.obscene 0.25 0.15) (fun _ _ => eq_refl) eq_refl
              (Toxicity.TOXIC_WORDS Toxicity.Key.obscene) s1) as [A2 B2].
  destruct (word_loop Qplus tl Toxicity.Cat.threat 0.4 0.25
              (Toxicity.check_word tl Toxicity.Cat.threat 0.4 0.25) (fun _ _ => eq_refl) eq_refl
              (Toxicity.TOXIC_WORDS Toxicity.Key.threat) s2) as [A3 B3].
  destruct (word_loop Qplus tl Toxicity.Cat.insult 0.2 0.15
              (Toxicity.check_word tl Toxicity.Cat.insult 0.2 0.15) (fun _ _ => eq_refl) eq_refl
              (Toxicity.TOXIC_WORDS Toxicity.Key.insult) s3) as [A4 B4].
  destruct (word_loop Qplus tl Toxicity.Cat.identity_attack 0.15 0.1
              (Toxicity.check_word tl Toxicity.Cat.identity_attack 0.15 0.1) (fun _ _ => eq_refl) eq_refl
              (Toxicity.TOXIC_WORDS Toxicity.Key.identity) s4) as [A5 B5].
  fold s1 in A1, B1. fold s2 in A2, B2. fold s3 in A3, B3.
  fold s4 in A4, B4. fold s5 in A5, B5.
  split; intro k.
  - unfold toxicity_score, toxicity_items. fold tl.
    destruct (Re.search_run Re.is_AZ 5 t),
      (Re.search_run (Re.is_char "!") 3 t);
      destruct k; cbv beta iota delta [Toxicity.set Toxicity.Cat.eqb];
      rewrite ?A5, ?A4, ?A3, ?A2, ?A1;
      cbv beta iota delta [Toxicity.Cat.eqb category_weight];
      reflexivity.
  - unfold toxicity_items. fold tl.
    rewrite B5, B4, B3, B2, B1.
    destruct k; cbv beta iota delta [Toxicity.Cat.eqb]; rewrite ?app_nil_r;
      reflexivity.
Qed.

Lemma tox64_accumulate_fold (t : string) :
  (forall k, fst (Toxicity64.accumulate t) k
             = toxicity_score Binary64.add Binary64.lit t k)
  /\ (forall k, snd (Toxicity64.accumulate t) k = toxicity_items t k).
Proof.
  unfold Toxicity64.accumulate. cbv zeta. cbn [fst snd].
  set (tl := Py.lower t).
  set (s0 := ((fun _ : Toxicity.Cat.t => 0.0%Q,
               fun _ : Toxicity.Cat.t => @nil string))).
  set (s1 := fold_left (Toxicity64.check_word tl Toxicity.Cat.severe_toxic (Binary64.lit 0.3) (Binary64.lit 0.2))
               (Toxicity.TOXIC_WORDS Toxicity.Key.severe) s0).
  set (s2 := fold_left (Toxicity64.check_word tl Toxicity.Cat.obscene (Binary64.lit 0.25) (Binary64.lit 0.15))
               (Toxicity.TOXIC_WORDS Toxicity.Key.obscene) s1).
  set (s3 := fold_left (Toxicity64.check_word tl Toxicity.Cat.threat (Binary64.lit 0.4) (Binary64.lit 0.25))
               (Toxicity.TOXIC_WORDS Toxicity.Key.threat) s2).
  set (s4 := fold_left (Toxicity64.check_word tl Toxicity.Cat.insult (Binary64.lit 0.2) (Binary64.lit 0.15))
               (Toxicity.TOXIC_WORDS Toxicity.Key.insult) s3).
  set (s5 := fold_left (Toxicity64.check_word tl Toxicity.Cat.identity_attack (Binary64.lit 0.15) (Binary64.lit 0.1))
               (Toxicity.TOXIC_WORDS Toxicity.Key.identity) s4).
  destruct (word_loop Binary64.add tl Toxicity.Cat.severe_toxic (Binary64.lit 0.3) (Binary64.lit 0.2)
              (Toxicity64.check_word tl Toxicity.Cat.severe_toxic (Binary64.lit 0.3) (Binary64.lit 0.2)) (fun _ _ => eq_refl) eq_refl
              (Toxicity.TOXIC_WORDS Toxicity.Key.severe) s0) as [A1 B1].
  destruct (word_loop Binary64.add tl Toxicity.Cat.obscene (Binary64.lit 0.25) (Binary64.lit 0.15)
              (Toxicity64.check_word tl Toxicity.Cat.obscene (Binary64.lit 0.25) (Binary64.lit 0.15)) (fun _ _ => eq_refl) eq_refl
              (Toxicity.TOXIC_WORDS Toxicity.Key.obscene) s1) as [A2 B2].
  destruct (word_loop Binary64.add tl Toxicity.Cat.threat (Binary64.lit 0.4) (Binary64.lit 0.25)
              (Toxicity64.check_word tl Toxicity.Cat.threat (Binary64.lit 0.4) (Binary64.lit 0.25)) (fun _ _ => eq_refl) eq_refl
              (Toxicity.TOXIC_WORDS Toxicity.Key.threat) s2) as [A3 B3].
  destruct (word_loop Binary64.add tl Toxicity.Cat.insult (Binary64.lit 0.2) (Binary64.lit 0.15)
              (Toxicity64.check_word tl Toxicity.Cat.insult (Binary64.lit 0.2) (Binary64.lit 0.15)) (fun _ _ => eq_refl) eq_refl
              (Toxicity.TOXIC_WORDS Toxicity.Key.insult) s3) as [A4 B4].
  destruct (word_loop Binary64.add tl Toxicity.Cat.identity_attack (Binary64.lit 0.15) (Binary64.lit 0.1)
              (Toxicity64.check_word tl Toxicity.Cat.identity_attack (Binary64.lit 0.15) (Binary64.lit 0.1)) (fun _ _ => eq_refl) eq_refl
              (Toxicity.TOXIC_WORDS Toxicity.Key.identity) s4) as [A5 B5].
  fold s1 in A1, B1. fold s2 in A2, B2. fold s3 in A3, B3.
  fold s4 in A4, B4. fold s5 in A5, B5.
  split; intro k.
  - unfold toxicity_score, toxicity_items. fold tl.
    destruct (Re.search_run Re.is_AZ 5 t),
      (Re.search_run (Re.is_char "!") 3 t);
      destruct k; cbv beta iota delta [Toxicity.set Toxicity.Cat.eqb];
      rewrite ?A5, ?A4, ?A3, ?A2, ?A1;
      cbv beta iota delta [Toxicity.Cat.eqb category_weight];
      reflexivity.
  - unfold toxicity_items. fold tl.
    rewrite B5, B4, B3, B2, B1.
    destruct k; cbv beta iota delta [Toxicity.Cat.eqb]; rewrite ?app_nil_r;
      reflexivity.
Qed.

Lemma news_scan_fold (table : FakeNews.indicators) (w : Q) (tl : string) :
  fst (FakeNews.scan table w tl)
  = add_terms Qplus (keyword_value tl w) (matched_terms tl table) 0.0%Q
  /\ snd (FakeNews.scan table w tl) = matched_by_category tl table.
Proof.
  unfold FakeNews.scan.
  exact (category_loop Qplus (keyword_value tl w) tl
           (FakeNews.check_keyword tl w) (FakeNews.check_category tl w)
           (fun _ _ => eq_refl) (fun _ _ => eq_refl) table (0.0%Q, [])).
Qed.

Lemma news64_scan_fold (table : FakeNews.indicators) (w : Q) (tl : string) :
  fst (FakeNews64.scan table w tl)
  = add_terms Binary64.add (keyword_value64 tl w) (matched_terms tl table)
      0.0%Q
  /\ snd (FakeNews64.scan table w tl) = matched_by_category tl table.
Proof.
  unfold FakeNews64.scan.
  exact (category_loop Binary64.add (keyword_value64 tl w) tl
           (FakeNews64.check_keyword tl w) (FakeNews64.check_category tl w)
           (fun _ _ => eq_refl) (fun _ _ => eq_refl) table (0.0%Q, [])).
Qed.

Lemma matched_terms_present (tl : string) (table : FakeNews.indicators) :
  Forall (fun keyword => (1 <= Py.count tl keyword)%nat)
    (matched_terms tl table).
Proof.
  unfold matched_terms, matched_by_category. rewrite map_map. cbn [snd].
  apply Forall_concat, Forall_map, Forall_forall. intros item _.
  unfold matched. apply Forall_forall. intros keyword H.
  apply filter_In in H. now apply PyFacts.count_present.
Qed.

Lemma news64_scores_eq (t : string) :
  let r := FakeNews64.detect_fake_news t in
  FakeNews.fake_score r
  = Qmin (FakeNews64.check_patterns t
            (fst (FakeNews64.scan FakeNews.FAKE_INDICATORS
                    (Binary64.lit 0.15) (Py.lower t)))) 1.0
  /\ FakeNews.credible_score r
     = Qmin (fst (FakeNews64.scan FakeNews.CREDIBLE_INDICATORS
                    (Binary64.lit 0.2) (Py.lower t))) 1.0
  /\ FakeNews.credibility r
     = FakeNews64.combine (FakeNews.credible_score r) (FakeNews.fake_score r)
  /\ FakeNews.classification r = fst (FakeNews64.classify (FakeNews.credibility r))
  /\ FakeNews.risk_level r = snd (FakeNews64.classify (FakeNews.credibility r))
  /\ FakeNews.fake_indicators r
     = snd (FakeNews64.scan FakeNews.FAKE_INDICATORS (Binary64.lit 0.15)
              (Py.lower t))
  /\ FakeNews.credible_indicators r
     = snd (FakeNews64.scan FakeNews.CREDIBLE_INDICATORS (Binary64.lit 0.2)
              (Py.lower t)).
Proof.
  unfold FakeNews64.detect_fake_news. cbv zeta.
  generalize (FakeNews64.scan FakeNews.FAKE_INDICATORS (Binary64.lit 0.15)
                (Py.lower t)). intro fake.
  generalize (FakeNews64.scan FakeNews.CREDIBLE_INDICATORS (Binary64.lit 0.2)
                (Py.lower t)). intro credible.
  generalize (FakeNews64.check_patterns t (fst fake)). intro fs.
  repeat split; reflexivity.
Qed.

Lemma tox64_result_eq (t : string) :
  let st := Toxicity64.accumulate t in
  let sc := Toxicity.normalize (fst st) in
  let r := Toxicity64.detect_toxicity t in
  (forall k, Toxicity.get r k = sc k)
  /\ Toxicity.overall_toxicity r = Toxicity.max_of (Toxicity.values sc)
  /\ Toxicity.classification r
     = fst (Toxicity64.classify (Toxicity.max_of (Toxicity.values sc)))
  /\ Toxicity.risk_level r
     = snd (Toxicity64.classify (Toxicity.max_of (Toxicity.values sc)))
  /\ Toxicity.detected_items r = snd st.
Proof.
  unfold Toxicity64.detect_toxicity. cbv zeta.
  generalize (Toxicity64.accumulate t). intro st.
  generalize (Toxicity.normalize (fst st)). intro sc.
  repeat split. intro k. destruct k; reflexivity.
Qed.

Lemma review64_scores_eq (t : string) :
  let st := Review64.totals t in
  let r := Review64.analyze_review_authenticity t in
  Review.fake_score r = fst (fst (fst st))
  /\ Review.authentic_score r = snd (fst (fst st))
  /\ Review.authenticity_score r
     = Review64.combine (Review.fake_score r) (Review.authentic_score r)
  /\ Review.classification r
     = fst (Review64.classify (Review.authenticity_score r))
  /\ Review.trust r = snd (Review64.classify (Review.authenticity_score r))
  /\ Review.found_indicators r = snd (fst st)
  /\ Review.word_count r = snd st.
Proof.
  unfold Review64.analyze_review_authenticity. cbv zeta.
  generalize (Review64.totals t). intro st.
  repeat split; reflexivity.
Qed.

Lemma spam_keywords_fold (tl : string) (l : list string)
    (st : Q * list string) :
  fst (fold_left (Spam.check_keyword tl) l st)
  = add_each Qplus 1 (matched tl l) (fst st)
  /\ snd (fold_left (Spam.check_keyword tl) l st)
     = (snd st ++ matched tl l)%list.
Proof.
  exact (keyword_loop Qplus (fun _ => 1%Q) tl (Spam.check_keyword tl)
           (fun _ _ => eq_refl) l st).
Qed.

Lemma spam_scan_fold (tl : string) :
  fst (Spam.scan_keywords tl)
  = add_each Qplus 1 (matched tl Spam.spam_keywords) 0%Q
  /\ snd (Spam.scan_keywords tl) = matched tl Spam.spam_keywords.
Proof.
  unfold Spam.scan_keywords.
  destruct (spam_keywords_fold tl Spam.spam_keywords (0%Q, [])) as [K1 K2].
  rewrite K1, K2. cbn [fst snd app]. split; reflexivity.
Qed.

(** ** Appending text to a message *)

Lemma spam_patterns_split (t : string) (s : Q) :
  (fst (Spam.check_patterns t s) == s + pattern_bonus t + caps_bonus t)%Q.
Proof.
  unfold Spam.check_patterns, Spam.check_pattern, pattern_bonus, caps_bonus.
  destruct (Re.search_run Re.is_digit 3 t), (Spam.excessive_caps t),
    (2 <? Py.count t "!")%nat, (Re.search_dollar_digits t),
    (1 <? List.length (Re.findall_http t))%nat;
    cbn [fst]; lra.
Qed.

Lemma bonus_mono (b b' : bool) (w : Q) :
  (0 <= w)%Q -> (b = true -> b' = true) ->
  ((if b then w else 0) <= (if b' then w else 0))%Q.
Proof.
  intros Hw H. destruct b; [rewrite H by reflexivity; lra|].
  destruct b'; lra.
Qed.

Lemma pattern_bonus_app (t w : string) :
  (pattern_bonus t <= pattern_bonus (t ++ w))%Q.
Proof.
  unfold pattern_bonus.
  pose proof (bonus_mono (Re.search_run Re.is_digit 3 t)
                (Re.search_run Re.is_digit 3 (t ++ w)) 0.5) as H1.
  pose proof (bonus_mono (2 <? Py.count t "!")%nat
                (2 <? Py.count (t ++ w) "!")%nat 0.5) as H2.
  pose proof (bonus_mono (Re.search_dollar_digits t)
                (Re.search_dollar_digits (t ++ w)) 0.5) as H3.
  pose proof (bonus_mono (1 <? List.length (Re.findall_http t))%nat
                (1 <? List.length (Re.findall_http (t ++ w)))%nat 0.5) as H4.
  assert (P : (0 <= 0.5)%Q) by discriminate.
  specialize (H1 P (ReFacts.search_run_app _ _ _ _)).
  specialize (H2 P (ltb_mono _ _ _ (PyFacts.count_app _ _ _))).
  specialize (H3 P (ReFacts.search_dollar_digits_app _ _)).
  specialize (H4 P (ltb_mono _ _ _ (ReFacts.findall_http_app _ _))).
  lra.
Qed.

(** The names that the pattern checks of [detect_spam] record. *)
Lemma spam_pattern_found (t : string) (s : Q) (name : string) :
  In name (snd (Spam.check_patterns t s))
  <-> (name = "Multiple digits" /\ Re.search_run Re.is_digit 3 t = true)
      \/ (name = "Excessive CAPS" /\ Spam.excessive_caps t = true)
      \/ (name = "Multiple exclamations" /\ (2 <? Py.count t "!")%nat = true)
      \/ (name = "Dollar amounts" /\ Re.search_dollar_digits t = true)
      \/ (name = "Multiple URLs"
          /\ (1 <? List.length (Re.findall_http t))%nat = true).
Proof.
  unfold Spam.check_patterns, Spam.check_pattern.
  destruct (Re.search_run Re.is_digit 3 t), (Spam.excessive_caps t),
    (2 <? Py.count t "!")%nat, (Re.search_dollar_digits t),
    (1 <? List.length (Re.findall_http t))%nat;
    cbn [fst snd app In]; intuition (discriminate || auto).
Qed.

Lemma spam_patterns_app (t w : string) (s s' : Q) (name : string) :
  name <> "Excessive CAPS" ->
  In name (snd (Spam.check_patterns t s)) ->
  In name (snd (Spam.check_patterns (t ++ w) s')).
Proof.
  intros N H. apply spam_pattern_found in H. apply spam_pattern_found.
  destruct H as [[E H]|[[E H]|[[E H]|[[E H]|[E H]]]]].
  - left. split; [exact E|]. now apply ReFacts.search_run_app.
  - contradiction.
  - right. right. left. split; [exact E|].
    revert H. apply ltb_mono, PyFacts.count_app.
  - right. right. right. left. split; [exact E|].
    now apply ReFacts.search_dollar_digits_app.
  - right. right. right. right. split; [exact E|].
    revert H. apply ltb_mono, ReFacts.findall_http_app.
Qed.

Lemma matched_app (s w : string) (l : list string) :
  incl (matched (Py.lower s) l) (matched (Py.lower (s ++ w)) l).
Proof.
  intros k H. unfold matched in *. apply filter_In in H as [I C].
  apply filter_In. split; [exact I|].
  rewrite PyFacts.lower_app. now apply PyFacts.contains_app.
Qed.

(** ** Binary64 rounding and the two ratio rules *)

Module Binary64Facts.
Import Binary64.

Lemma pow2_pos (k : Z) : (0 < pow2 k)%Z.
Proof. unfold pow2. apply Z.pow_pos_nonneg; lia. Qed.

Lemma nearest_even_nonneg (num den : Z) :
  (0 <= num)%Z -> (0 < den)%Z -> (0 <= nearest_even num den)%Z.
Proof.
  intros Hn Hd. unfold nearest_even.
  assert (D : (0 <= num / den)%Z) by (apply Z.div_pos; lia).
  destruct (2 * (num mod den) ?= den)%Z; [|lia|lia].
  destruct (Z.even (num / den)); lia.
Qed.

Lemma round_pos_nonneg (p q : positive) : (0 <= round_pos p q)%Q.
Proof.
  unfold round_pos. rewrite Qred_correct.
  set (s := (52 - Z.max (exponent p q) (-1022))%Z).
  set (n := nearest_even (Z.pos p * pow2 s) (Z.pos q * pow2 (- s))).
  assert (N : (0 <= n)%Z).
  { apply nearest_even_nonneg.
    - apply Z.mul_nonneg_nonneg; [lia|apply Z.lt_le_incl, pow2_pos].
    - apply Z.mul_pos_pos; [lia|apply pow2_pos]. }
  assert (M : (0 <= n * pow2 (- s))%Z).
  { apply Z.mul_nonneg_nonneg; [exact N|apply Z.lt_le_incl, pow2_pos]. }
  unfold Qle. cbn [Qnum Qden]. lia.
Qed.

(** Rounding keeps the sign. *)
Lemma round_nonneg (x : Q) : (0 <= x)%Q -> (0 <= round x)%Q.
Proof.
  intro H. unfold round. destruct x as [n d]. cbn [Qnum Qden].
  destruct n as [|p|p].
  - apply Qle_refl.
  - apply round_pos_nonneg.
  - exfalso. unfold Qle in H. cbn in H. lia.
Qed.

Lemma round_nonpos (x : Q) : (x <= 0)%Q -> (round x <= 0)%Q.
Proof.
  intro H. unfold round. destruct x as [n d]. cbn [Qnum Qden].
  destruct n as [|p|p].
  - apply Qle_refl.
  - exfalso. unfold Qle in H. cbn in H. lia.
  - pose proof (round_pos_nonneg p d) as P.
    apply Qopp_le_compat in P. exact P.
Qed.

End Binary64Facts.

Lemma news64_combine_cases (c f : Q) :
  ((0 < Binary64.add c f ->
    FakeNews64.combine c f == Binary64.div c (Binary64.add c f))
   /\ (Binary64.add c f <= 0 -> FakeNews64.combine c f == 0.5))%Q.
Proof.
  unfold FakeNews64.combine. split; intro H.
  - assert (G : Qgt_bool (Binary64.add c f) 0 = true).
    { destruct (Qgt_bool (Binary64.add c f) 0) eqn:E; [reflexivity|].
      apply Qgt_bool_false in E. exfalso. lra. }
    rewrite G.
    destruct (Qgt_bool c 0) eqn:Ec; [reflexivity|].
    destruct (Qgt_bool f 0) eqn:Ef; [reflexivity|].
    apply Qgt_bool_false in Ec. apply Qgt_bool_false in Ef.
    exfalso. assert (N : (c + f <= 0)%Q) by lra.
    apply Binary64Facts.round_nonpos in N. unfold Binary64.add in H. lra.
  - assert (G : Qgt_bool (Binary64.add c f) 0 = false).
    { destruct (Qgt_bool (Binary64.add c f) 0) eqn:E; [|reflexivity].
      apply Qgt_bool_true in E. exfalso. lra. }
    rewrite G. destruct (Qgt_bool c 0 || Qgt_bool f 0); reflexivity.
Qed.

Lemma review64_combine_cases (g a : Q) :
  let floor := Qmax (Binary64.add g a) (Binary64.lit 0.1) in
  ((g <= a -> Review64.combine g a == Qmin 1 (Binary64.div a floor))
   /\ (a < g ->
       Review64.combine g a
       == Qmax 0 (Binary64.sub 1 (Binary64.div g floor))))%Q.
Proof.
  intro floor. unfold Review64.combine. fold floor. split; intro H.
  - destruct (Qgt_bool g a) eqn:E; [|reflexivity].
    apply Qgt_bool_true in E. exfalso. lra.
  - destruct (Qgt_bool g a) eqn:E; [reflexivity|].
    apply Qgt_bool_false in E. exfalso. lra.
Qed.

Lemma floored_if (b : bool) (x w : Q) :
  (0.3 <= w)%Q -> floored x -> floored (if b then x + w else x)%Q.
Proof.
  intros Hw [H|H]; destruct b; unfold floored; try (right; lra); left; exact H.
Qed.

Lemma phrases_floored tl w l st :
  (0.3 <= w)%Q -> floored (fst st) ->
  floored (fst (fold_left (Review.check_phrase tl w) l st)).
Proof.
  intro Hw. apply (fold_left_inv (fun st => floored (fst st))).
  intros a b Ha. unfold Review.check_phrase.
  destruct (Py.contains b tl); [|exact Ha]. cbn [fst].
  apply (floored_if true); assumption.
Qed.

Lemma review_fake_floored (t : string) :
  floored (Review.fake_score (Review.analyze_review_authenticity t)).
Proof.
  destruct (ReviewFacts.review_scores_eq t) as (E & _). rewrite E.
  unfold Review.totals. cbn [fst snd].
  repeat (apply floored_if; [lra|]).
  apply phrases_floored; [lra|]. cbn [fst].
  apply phrases_floored; [lra|]. left. reflexivity.
Qed.

(** ** The claims *)

(** C1. For every text and every threshold, the aggregate score of a
    detector lies in the interval from 0 to 1: [spam_probability] of
    [detect_spam], [overall_toxicity] of [detect_toxicity] and [credibility]
    of [detect_fake_news]. *)
Theorem aggregate_score_in_unit_interval (t : string) (threshold : Q) :
  (0 <= Spam.spam_probability (Spam.detect_spam t threshold) <= 1
   /\ 0 <= Toxicity.overall_toxicity (Toxicity.detect_toxicity t) <= 1
   /\ 0 <= FakeNews.credibility (FakeNews.detect_fake_news t) <= 1)%Q.
Proof.
  split; [apply SpamFacts.spam_probability_bounds|].
  split; [apply ToxicityFacts.overall_toxicity_bounds|].
  apply FakeNewsFacts.credibility_bounds.
Qed.

(** C2, as the code has it.  [detect_toxicity] and [detect_fake_news] test
    their cutoffs from the highest down with [>=], so each label is given
    exactly on the interval that is closed at its lower bound: a score equal
    to a cutoff gets the label above the cutoff.  [detect_spam] tests
    [spam_probability > threshold], so a probability equal to the threshold is
    classified HAM. *)
Theorem cutoffs_first_match (t : string) (threshold : Q) :
  let tox := Toxicity.detect_toxicity t in
  let x := Toxicity.overall_toxicity tox in
  let news := FakeNews.detect_fake_news t in
  let c := FakeNews.credibility news in
  let spam := Spam.detect_spam t threshold in
  let p := Spam.spam_probability spam in
  ((Toxicity.classification tox = Toxicity.Highly_Toxic <-> 0.7 <= x)
   /\ (Toxicity.classification tox = Toxicity.Moderately_Toxic <-> 0.4 <= x < 0.7)
   /\ (Toxicity.classification tox = Toxicity.Mildly_Toxic <-> 0.2 <= x < 0.4)
   /\ (Toxicity.classification tox = Toxicity.Non_Toxic <-> x < 0.2))%Q
  /\ ((FakeNews.classification news = FakeNews.Likely_Credible <-> 0.7 <= c)
      /\ (FakeNews.classification news = FakeNews.Mixed_Signals <-> 0.5 <= c < 0.7)
      /\ (FakeNews.classification news = FakeNews.Questionable <-> 0.3 <= c < 0.5)
      /\ (FakeNews.classification news = FakeNews.Likely_Fake <-> c < 0.3))%Q
  /\ ((Spam.classification spam = Spam.SPAM <-> threshold < p)
      /\ (Spam.classification spam = Spam.HAM <-> p <= threshold))%Q.
Proof.
  intros tox x news c spam p. split; [|split].
  - subst x. destruct (ToxicityFacts.tox_classification_eq t) as [E _].
    fold tox in E. rewrite E. apply ToxicityFacts.tox_classify_spec.
  - subst c.
    destruct (FakeNewsFacts.news_scores_eq t) as (_ & _ & _ & E & _).
    fold news in E. rewrite E.
    apply FakeNewsFacts.news_classify_spec.
  - apply SpamFacts.classification_spec.
Qed.

(** C2 fails as stated for [detect_spam]: on "free winner" the probability is
    0.4, exactly the default threshold, and the message is classified HAM. *)
Lemma spam_at_threshold_is_ham :
  let r := Spam.detect_spam "free winner" Spam.default_threshold in
  (Spam.spam_probability r == Spam.default_threshold)%Q
  /\ Spam.is_spam r = false
  /\ Spam.classification r = Spam.HAM
  /\ Spam.classification r <> Spam.SPAM.
Proof. vm_compute. repeat split; congruence. Qed.

(** Texts whose score is exactly a cutoff of the two ladders, with exact
    and with rounded sums. *)
Example toxicity_at_cutoff :
  let r := Toxicity.detect_toxicity "You IDIOT, I will kill you" in
  let r64 := Toxicity64.detect_toxicity "You IDIOT, I will kill you" in
  (Toxicity.overall_toxicity r == 0.7)%Q
  /\ Toxicity.classification r = Toxicity.Highly_Toxic
  /\ (Toxicity.overall_toxicity r64 == Binary64.lit 0.7)%Q
  /\ Toxicity.classification r64 = Toxicity.Highly_Toxic.
Proof. vm_compute. repeat split; congruence. Qed.

Example fake_news_at_cutoff :
  let r := FakeNews.detect_fake_news "he said so!!!" in
  let r64 := FakeNews64.detect_fake_news "he said so!!!" in
  (FakeNews.fake_score r == 0.2)%Q /\ (FakeNews.credible_score r == 0.2)%Q
  /\ (FakeNews.credibility r == 0.5)%Q
  /\ FakeNews.classification r = FakeNews.Mixed_Signals
  /\ (FakeNews.credibility r64 == 0.5)%Q
  /\ FakeNews.classification r64 = FakeNews.Mixed_Signals.
Proof. vm_compute. repeat split; congruence. Qed.

(** C3, as the code has it.  [detect_fake_news] adds, for every keyword of
    every category that occurs in the lowercased text, in the order of the
    tables, the number of its occurrences (at least one) times the weight:
    0.15 for a fake indicator, 0.2 for a credible one.  [detect_spam] and
    [detect_toxicity] add the weight of a term once when the term occurs,
    however often it occurs.  The sums are taken in the order of the loops,
    and the equations hold for the exact addition and for the rounded
    addition of binary64 alike.  All three record every term that occurs,
    once, in the order of the lists. *)
Theorem term_contributions (t : string) (threshold : Q) :
  let tl := Py.lower t in
  let fake_terms := matched_terms tl FakeNews.FAKE_INDICATORS in
  let credible_terms := matched_terms tl FakeNews.CREDIBLE_INDICATORS in
  let news := FakeNews.detect_fake_news t in
  let news64 := FakeNews64.detect_fake_news t in
  let spam := Spam.detect_spam t threshold in
  let tox := Toxicity.detect_toxicity t in
  let tox64 := Toxicity64.detect_toxicity t in
  (FakeNews.fake_score news
   = Qmin (FakeNews.check_patterns t
             (add_terms Qplus (keyword_value tl 0.15) fake_terms 0.0)) 1.0
   /\ FakeNews.credible_score news
      = Qmin (add_terms Qplus (keyword_value tl 0.2) credible_terms 0.0) 1.0
   /\ FakeNews.fake_score news64
      = Qmin (FakeNews64.check_patterns t
                (add_terms Binary64.add
                   (keyword_value64 tl (Binary64.lit 0.15)) fake_terms 0.0))
          1.0
   /\ FakeNews.credible_score news64
      = Qmin (add_terms Binary64.add
                (keyword_value64 tl (Binary64.lit 0.2)) credible_terms 0.0)
          1.0
   /\ Forall (fun keyword => (1 <= Py.count tl keyword)%nat)
        (fake_terms ++ credible_terms)
   /\ FakeNews.fake_indicators news
      = matched_by_category tl FakeNews.FAKE_INDICATORS
   /\ FakeNews.credible_indicators news
      = matched_by_category tl FakeNews.CREDIBLE_INDICATORS
   /\ FakeNews.fake_indicators news64 = FakeNews.fake_indicators news
   /\ FakeNews.credible_indicators news64 = FakeNews.credible_indicators news)%Q
  /\ (Spam.spam_score spam
      = fst (Spam.check_patterns t
               (add_each Qplus 1 (matched tl Spam.spam_keywords) 0%Q))
      /\ Spam.found_keywords spam = matched tl Spam.spam_keywords)
  /\ ((forall k,
          Toxicity.get tox k
          = Qmin (toxicity_score Qplus (fun x => x) t k) 1.0)
      /\ (forall k,
             Toxicity.get tox64 k
             = Qmin (toxicity_score Binary64.add Binary64.lit t k) 1.0)
      /\ (forall k, Toxicity.detected_items tox k = toxicity_items t k)
      /\ (forall k, Toxicity.detected_items tox64 k = toxicity_items t k)).
Proof.
  intros tl fake_terms credible_terms news news64 spam tox tox64.
  split; [|split].
  - destruct (FakeNewsFacts.news_scores_eq t)
      as (E1 & E2 & _ & _ & _ & E6 & E7).
    destruct (news64_scores_eq t) as (G1 & G2 & _ & _ & _ & G6 & G7).
    fold news in E1, E2, E6, E7. fold news64 in G1, G2, G6, G7.
    fold tl in E1, E2, E6, E7, G1, G2, G6, G7.
    destruct (news_scan_fold FakeNews.FAKE_INDICATORS 0.15 tl) as [F1 F2].
    destruct (news_scan_fold FakeNews.CREDIBLE_INDICATORS 0.2 tl) as [C1 C2].
    destruct (news64_scan_fold FakeNews.FAKE_INDICATORS (Binary64.lit 0.15) tl)
      as [F3 F4].
    destruct (news64_scan_fold FakeNews.CREDIBLE_INDICATORS (Binary64.lit 0.2) tl)
      as [C3 C4].
    rewrite E1, E2, E6, E7, G1, G2, G6, G7, F1, F2, F3, F4, C1, C2, C3, C4.
    repeat (split; [reflexivity|]).
    split; [|repeat split; reflexivity].
    apply Forall_app. split; apply matched_terms_present.
  - destruct (SpamFacts.spam_result_eq t threshold)
      as (E1 & _ & _ & _ & _ & _ & E7 & _).
    fold spam in E1, E7. fold tl in E1, E7.
    destruct (spam_scan_fold tl) as [K1 K2].
    rewrite E1, E7, K1, K2. split; reflexivity.
  - destruct (ToxicityFacts.tox_result_eq t) as (G & _ & _ & _ & D).
    destruct (tox64_result_eq t) as (G' & _ & _ & _ & D').
    fold tox in G, D. fold tox64 in G', D'.
    destruct (tox_accumulate_fold t) as [A B].
    destruct (tox64_accumulate_fold t) as [A' B'].
    split; [|split; [|split]]; intro k.
    + rewrite G, ToxicityFacts.normalize_at, A. reflexivity.
    + rewrite G', ToxicityFacts.normalize_at, A'. reflexivity.
    + rewrite D. apply B.
    + rewrite D'. apply B'.
Qed.

(** C3 fails as stated for [detect_spam] and [detect_toxicity]: "free"
    occurs three times in "free free free" and adds 1 to the spam score, not
    3; "idiot" occurs twice in "idiot idiot" and adds 0.2 to the insult
    score, not 0.4. *)
Lemma repeated_term_counts_once :
  Py.count (Py.lower "free free free") "free" = 3%nat
  /\ (Spam.spam_score (Spam.detect_spam "free free free" 0.4) == 1)%Q
  /\ Py.count (Py.lower "idiot idiot") "idiot" = 2%nat
  /\ (Toxicity.insult (Toxicity.detect_toxicity "idiot idiot") == 0.2)%Q.
Proof. vm_compute. repeat split; congruence. Qed.

(** C4, as the code has it.  The threshold of [detect_spam] is read once, by
    the comparison that sets [is_spam]: the score, the probabilities and the
    confidence are the same for every threshold, and the threshold only moves
    the cutoff between SPAM and HAM.  ([detect_toxicity] has no such
    parameter.) *)
Theorem threshold_moves_cutoff_only (t : string) (th1 th2 : Q) :
  let r1 := Spam.detect_spam t th1 in
  let r2 := Spam.detect_spam t th2 in
  Spam.spam_probability r1 = Spam.spam_probability r2
  /\ Spam.spam_score r1 = Spam.spam_score r2
  /\ Spam.ham_probability r1 = Spam.ham_probability r2
  /\ Spam.confidence r1 = Spam.confidence r2
  /\ Spam.is_spam r1 = Qgt_bool (Spam.spam_probability r1) th1
  /\ Spam.is_spam r2 = Qgt_bool (Spam.spam_probability r2) th2.
Proof.
  intros r1 r2.
  destruct (SpamFacts.spam_result_eq t th1) as (A1 & A2 & A3 & A4 & A5 & _).
  destruct (SpamFacts.spam_result_eq t th2) as (B1 & B2 & B3 & B4 & B5 & _).
  fold r1 in A1, A2, A3, A4, A5. fold r2 in B1, B2, B3, B4, B5.
  rewrite A1, A2, A3, A4, A5, B1, B2, B3, B4, B5.
  repeat split; reflexivity.
Qed.

(** C4 fails as stated: two different thresholds give the same aggregate
    score, 0.6, on the text "free prize winner", and only the label differs. *)
Lemma threshold_leaves_score_unchanged :
  let r1 := Spam.detect_spam "free prize winner" 0.2 in
  let r2 := Spam.detect_spam "free prize winner" 0.8 in
  (~ 0.2 == 0.8)%Q
  /\ (Spam.spam_probability r1 == 0.6)%Q
  /\ (Spam.spam_probability r2 == 0.6)%Q
  /\ Spam.classification r1 = Spam.SPAM
  /\ Spam.classification r2 = Spam.HAM.
Proof. vm_compute. repeat split; congruence. Qed.

(** C5, as the code has it.  On the empty text every score of every
    detector is 0 and nothing is recorded as matched: [detect_spam] finds no
    keyword and no pattern, every list of [detected_items] of
    [detect_toxicity] is empty, and so is the list of every category of
    [fake_indicators] and [credible_indicators].  [detect_toxicity] answers
    Non-Toxic and [detect_spam], for a threshold that is not negative, HAM:
    the lowest labels.  [detect_fake_news] has no evidence either way and
    answers with the neutral credibility 0.5, which its ladder labels Mixed
    Signals. *)
Theorem empty_text_scores (threshold : Q) (H : (0 <= threshold)%Q) :
  let spam := Spam.detect_spam "" threshold in
  let tox := Toxicity.detect_toxicity "" in
  let news := FakeNews.detect_fake_news "" in
  ((Spam.spam_score spam == 0)%Q /\ (Spam.spam_probability spam == 0)%Q
   /\ Spam.found_keywords spam = [] /\ Spam.patterns_found spam = []
   /\ Spam.classification spam = Spam.HAM)
  /\ ((forall k, Toxicity.get tox k == 0)%Q
      /\ (forall k, Toxicity.detected_items tox k = [])
      /\ (Toxicity.overall_toxicity tox == 0)%Q
      /\ Toxicity.classification tox = Toxicity.Non_Toxic
      /\ Toxicity.risk_level tox = Toxicity.SAFE)
  /\ ((FakeNews.fake_score news == 0)%Q /\ (FakeNews.credible_score news == 0)%Q
      /\ FakeNews.fake_indicators news
         = map (fun item => (fst item, [])) FakeNews.FAKE_INDICATORS
      /\ FakeNews.credible_indicators news
         = map (fun item => (fst item, [])) FakeNews.CREDIBLE_INDICATORS
      /\ (FakeNews.credibility news == 0.5)%Q
      /\ FakeNews.classification news = FakeNews.Mixed_Signals
      /\ FakeNews.risk_level news = FakeNews.Medium_Risk).
Proof.
  intros spam tox news. split; [|split].
  - assert (P : (Spam.spam_probability spam == 0)%Q) by (vm_compute; reflexivity).
    repeat split; try (vm_compute; reflexivity); try exact P.
    apply (SpamFacts.classification_spec "" threshold).
    fold spam. rewrite P. exact H.
  - repeat split; try (vm_compute; reflexivity);
      intro k; destruct k; vm_compute; reflexivity.
  - repeat split; vm_compute; reflexivity.
Qed.

Lemma empty_text_scores_witness :
  Spam.classification (Spam.detect_spam "" Spam.default_threshold) = Spam.HAM.
Proof.
  assert (H : (0 <= Spam.default_threshold)%Q) by (vm_compute; discriminate).
  exact (proj2 (proj2 (proj2 (proj2
           (proj1 (empty_text_scores Spam.default_threshold H)))))).
Defined.

(** C5 fails as stated for [detect_fake_news]: the empty text is labelled
    Mixed Signals, with Medium Risk, and not with the lowest severity of the
    ladder, Likely Credible with Low Risk.  ([detect_spam] calls the empty
    text SPAM when the threshold is negative.) *)
Lemma empty_text_is_mixed_signals :
  FakeNews.classification (FakeNews.detect_fake_news "") = FakeNews.Mixed_Signals
  /\ FakeNews.risk_level (FakeNews.detect_fake_news "") = FakeNews.Medium_Risk
  /\ FakeNews.classification (FakeNews.detect_fake_news "")
     <> FakeNews.Likely_Credible
  /\ Spam.classification (Spam.detect_spam "" (-0.1)) = Spam.SPAM.
Proof. vm_compute. repeat split; congruence. Qed.

(** C6, as the code has it.  Appending any text [w] (a recognized term or
    not) to [t] never lowers a category score of [detect_toxicity], nor its
    overall score.  In [detect_spam] every keyword found in [t] is found in
    [t ++ w], every pattern recorded for [t] other than the excessive
    capitals is recorded for [t ++ w], and the spam score less what the
    capitals check adds never decreases.  The capitals check reads a ratio
    that appended text can lower: the spam score and the probability do not
    decrease provided that check, if it fired on [t], still fires on
    [t ++ w]. *)
Theorem append_never_lowers_scores (t w : string) (threshold : Q) :
  (forall k,
      Toxicity.get (Toxicity.detect_toxicity t) k
      <= Toxicity.get (Toxicity.detect_toxicity (t ++ w)) k)%Q
  /\ (Toxicity.overall_toxicity (Toxicity.detect_toxicity t)
      <= Toxicity.overall_toxicity (Toxicity.detect_toxicity (t ++ w)))%Q
  /\ ((Spam.excessive_caps t = true -> Spam.excessive_caps (t ++ w) = true) ->
      (Spam.spam_score (Spam.detect_spam t threshold)
       <= Spam.spam_score (Spam.detect_spam (t ++ w) threshold))%Q
      /\ (Spam.spam_probability (Spam.detect_spam t threshold)
          <= Spam.spam_probability (Spam.detect_spam (t ++ w) threshold))%Q)
  /\ (Spam.spam_score (Spam.detect_spam t threshold) - caps_bonus t
      <= Spam.spam_score (Spam.detect_spam (t ++ w) threshold)
         - caps_bonus (t ++ w))%Q
  /\ incl (Spam.found_keywords (Spam.detect_spam t threshold))
       (Spam.found_keywords (Spam.detect_spam (t ++ w) threshold))
  /\ (forall name, name <> "Excessive CAPS" ->
        In name (Spam.patterns_found (Spam.detect_spam t threshold)) ->
        In name (Spam.patterns_found (Spam.detect_spam (t ++ w) threshold))).
Proof.
  split; [intro k; apply ToxicityFacts.scores_app|].
  split; [apply ToxicityFacts.overall_toxicity_app|].
  split.
  { intro Hcaps.
    assert (H := SpamFacts.spam_score_app t w threshold Hcaps).
    split; [exact H|]. now apply SpamFacts.spam_probability_mono. }
  destruct (SpamFacts.spam_result_eq t threshold)
    as (E1 & _ & _ & _ & _ & _ & E7 & E8).
  destruct (SpamFacts.spam_result_eq (t ++ w) threshold)
    as (F1 & _ & _ & _ & _ & _ & F7 & F8).
  rewrite E1, E7, E8, F1, F7, F8.
  split; [|split].
  - rewrite !spam_patterns_split.
    pose proof (pattern_bonus_app t w) as P.
    assert (K : (fst (Spam.scan_keywords (Py.lower t))
                 <= fst (Spam.scan_keywords (Py.lower (t ++ w))))%Q).
    { apply SpamFacts.scan_keywords_mono. intros k Hk.
      rewrite PyFacts.lower_app. now apply PyFacts.contains_app. }
    lra.
  - destruct (SpamFacts.scan_keywords_eq (Py.lower t)) as [_ K].
    destruct (SpamFacts.scan_keywords_eq (Py.lower (t ++ w))) as [_ K'].
    rewrite K, K'. apply matched_app.
  - intros name N. apply spam_patterns_app. exact N.
Qed.

(** The capitals check fires on "FREE" and on "FREE PRIZE": the spam score
    goes from 2 to 3. *)
Lemma append_never_lowers_scores_witness :
  (Spam.excessive_caps "FREE" = true -> Spam.excessive_caps ("FREE" ++ " PRIZE") = true)
  /\ (Spam.spam_score (Spam.detect_spam "FREE" 0.4)
      <= Spam.spam_score (Spam.detect_spam ("FREE" ++ " PRIZE") 0.4))%Q.
Proof.
  assert (H : Spam.excessive_caps "FREE" = true ->
              Spam.excessive_caps ("FREE" ++ " PRIZE") = true)
    by (intros _; vm_compute; reflexivity).
  split; [exact H|].
  exact (proj1 (proj1 (proj2 (proj2
           (append_never_lowers_scores "FREE" " PRIZE" 0.4))) H)).
Defined.

(** C6 fails as stated for [detect_spam]: "free" is a spam keyword, and
    appending " free" to "FREE" lowers the share of capitals from 1 to 4/9,
    so the excessive capitals check no longer fires and the score drops from
    2 to 1. *)
Lemma append_keyword_lowers_spam_score :
  In "free" Spam.spam_keywords
  /\ (Spam.spam_score (Spam.detect_spam "FREE" 0.4) == 2)%Q
  /\ (Spam.spam_score (Spam.detect_spam ("FREE" ++ " free") 0.4) == 1)%Q
  /\ (Spam.spam_probability (Spam.detect_spam ("FREE" ++ " free") 0.4)
      < Spam.spam_probability (Spam.detect_spam "FREE" 0.4))%Q.
Proof.
  split; [cbn; tauto|]. vm_compute. repeat split; congruence.
Qed.

(** C7, as the code has it.  The aggregate of a ratio rule is a quotient of
    binary64 numbers, rounded.  [detect_fake_news] returns
    [credible_score / (credible_score + fake_score)] when the sum is positive
    and the neutral 0.5 otherwise.  [analyze_review_authenticity] divides by
    [max(fake_score + authentic_score, 0.1)] and has two forms: the share of
    the authentic total, [min(1, authentic_score / ...)], when
    [fake_score <= authentic_score], and the complement of the share of the
    fake total, [max(0, 1 - fake_score / ...)], when
    [fake_score > authentic_score].  The fake total of a review is 0 or more
    than 0.2, so the totals 0.6 and 0.2 of the example cannot occur there. *)
Theorem ratio_rule (t : string) :
  let news := FakeNews64.detect_fake_news t in
  let c := FakeNews.credible_score news in
  let f := FakeNews.fake_score news in
  let review := Review64.analyze_review_authenticity t in
  let a := Review.authentic_score review in
  let g := Review.fake_score review in
  let floor := Qmax (Binary64.add g a) (Binary64.lit 0.1) in
  let fake_total :=
    Review.fake_score (Review.analyze_review_authenticity t) in
  ((0 < Binary64.add c f ->
    FakeNews.credibility news == Binary64.div c (Binary64.add c f))
   /\ (Binary64.add c f <= 0 -> FakeNews.credibility news == 0.5)
   /\ (g <= a ->
       Review.authenticity_score review == Qmin 1 (Binary64.div a floor))
   /\ (a < g ->
       Review.authenticity_score review
       == Qmax 0 (Binary64.sub 1 (Binary64.div g floor)))
   /\ (fake_total == 0 \/ 0.2 < fake_total))%Q.
Proof.
  intros news c f review a g floor fake_total.
  destruct (news64_scores_eq t) as (_ & _ & E & _).
  destruct (review64_scores_eq t) as (_ & _ & R & _).
  fold news in E. fold c f in E. fold review in R. fold a g in R.
  destruct (news64_combine_cases c f) as [N1 N2].
  destruct (review64_combine_cases g a) as [R1 R2].
  rewrite E, R.
  split; [exact N1|]. split; [exact N2|]. split; [exact R1|].
  split; [exact R2|].
  destruct (review_fake_floored t) as [Z|L]; [left; exact Z|right].
  apply Qlt_le_trans with 0.3%Q; [reflexivity|exact L].
Qed.

(** On "research data said!!!" the sum of the two scores is positive and
    the credibility is the rounded quotient. *)
Lemma ratio_rule_witness :
  let news := FakeNews64.detect_fake_news "research data said!!!" in
  (FakeNews.credibility news
   == Binary64.div (FakeNews.credible_score news)
        (Binary64.add (FakeNews.credible_score news)
           (FakeNews.fake_score news)))%Q.
Proof.
  intro news.
  assert (H : (0 < Binary64.add (FakeNews.credible_score news)
                     (FakeNews.fake_score news))%Q)
    by (vm_compute; reflexivity).
  exact (proj1 (ratio_rule "research data said!!!") H).
Defined.

(** C7 fails as stated.  "research data said!!!" has three credible keywords
    and one pattern, the totals 0.6 and 0.2 of the example: the code
    accumulates 0.2 + 0.2 + 0.2 = 0.6000000000000001 and returns the
    credibility 0.7500000000000001, not 0.75; from the literals 0.6 and 0.2
    themselves the quotient is 0.7499999999999999.  In the review the
    authentic total 0.8999999999999999 is below the fake total 0.9, so the
    code returns 1 - 0.9 / 1.7999999999999998 = 0.4999999999999999 and the
    label Questionable, where the share of the authentic total,
    0.8999999999999999 / 1.7999999999999998, is 0.5. *)
Lemma ratio_rule_rounds :
  let news := FakeNews64.detect_fake_news "research data said!!!" in
  let review :=
    Review64.analyze_review_authenticity
      "Must buy with promo, however 1 of 4 cups broke after 2 or 3 washes" in
  let a := Review.authentic_score review in
  let g := Review.fake_score review in
  ((FakeNews.credible_score news == Binary64.lit 0.6000000000000001
    /\ FakeNews.fake_score news == Binary64.lit 0.2
    /\ FakeNews.credibility news == Binary64.lit 0.7500000000000001
    /\ ~ FakeNews.credibility news == 0.75)
   /\ (FakeNews64.combine (Binary64.lit 0.6) (Binary64.lit 0.2)
       == Binary64.lit 0.7499999999999999
       /\ ~ FakeNews64.combine (Binary64.lit 0.6) (Binary64.lit 0.2) == 0.75)
   /\ (a == Binary64.lit 0.8999999999999999 /\ g == Binary64.lit 0.9
       /\ Review.authenticity_score review == Binary64.lit 0.4999999999999999
       /\ Binary64.div a (Binary64.add a g) == 0.5
       /\ ~ Review.authenticity_score review
            == Binary64.div a (Binary64.add a g)
       /\ Review.classification review = Review.Questionable))%Q.
Proof. vm_compute. repeat split; congruence. Qed.

(** C8, as the code has it.  [detect_toxicity] clamps every category score
    to at most 1.0 before it takes the maximum: each score of its result is
    [min] of the accumulated score and 1.0, lies between 0 and 1, and the
    overall score is the maximum of the clamped scores.
    [analyze_review_authenticity] has no clamp on [fake_score] and
    [authentic_score]: they are returned as accumulated, not negative, and
    only its [authenticity_score] is kept between 0 and 1. *)
Theorem category_scores_clamped (t : string) :
  let r := Toxicity.detect_toxicity t in
  let raw := fst (Toxicity.accumulate t) in
  let review := Review.analyze_review_authenticity t in
  ((forall k, Toxicity.get r k = Qmin (raw k) 1.0)
   /\ (forall k, 0 <= Toxicity.get r k <= 1)%Q
   /\ Toxicity.overall_toxicity r
      = Toxicity.max_of (map (fun k => Qmin (raw k) 1.0) Toxicity.Cat.keys))
  /\ (Review.fake_score review = fst (fst (fst (Review.totals t)))
      /\ Review.authentic_score review = snd (fst (fst (Review.totals t)))
      /\ 0 <= Review.fake_score review
      /\ 0 <= Review.authentic_score review
      /\ 0 <= Review.authenticity_score review <= 1)%Q.
Proof.
  intros r raw review. split.
  - destruct (ToxicityFacts.tox_result_eq t) as (G & E & _).
    fold r in G, E. fold raw in G, E.
    split; [|split].
    + intro k. rewrite G. apply ToxicityFacts.normalize_at.
    + intro k. rewrite G. apply ToxicityFacts.normalized_bounds.
    + rewrite E. unfold Toxicity.values. apply f_equal.
      apply map_ext. intro k. apply ToxicityFacts.normalize_at.
  - destruct (ReviewFacts.review_scores_eq t) as (E1 & E2 & E3 & _).
    fold review in E1, E2, E3.
    destruct (ReviewFacts.scores_apart t) as [Ff Fa]. fold review in Ff, Fa.
    assert (Nf := ReviewFacts.apart_nonneg _ Ff).
    assert (Na := ReviewFacts.apart_nonneg _ Fa).
    split; [exact E1|]. split; [exact E2|].
    split; [exact Nf|]. split; [exact Na|].
    rewrite E3. now apply ReviewFacts.review_combine_bounds.
Qed.

(** C8 fails as stated for [analyze_review_authenticity]: three spam
    patterns in a short review give a [fake_score] of 1.8, and seven numbers
    an [authentic_score] of 1.05. *)
Lemma review_scores_exceed_one :
  (Review.fake_score
     (Review.analyze_review_authenticity "click here visit check out") == 1.8
   /\ 1 < Review.fake_score
            (Review.analyze_review_authenticity "click here visit check out")
   /\ Review.authentic_score
        (Review.analyze_review_authenticity "1 2 3 4 5 6 7") == 1.05
   /\ 1 < Review.authentic_score
            (Review.analyze_review_authenticity "1 2 3 4 5 6 7"))%Q.
Proof. vm_compute. repeat split; congruence. Qed.

(** C10. For every text and every threshold, the result of [detect_spam] has
    [ham_probability = 1 - spam_probability] and
    [confidence = max(spam_probability, ham_probability)], and the confidence
    is at least 0.5. *)
Theorem detect_spam_confidence (t : string) (threshold : Q) :
  let r := Spam.detect_spam t threshold in
  (Spam.ham_probability r == 1 - Spam.spam_probability r
   /\ Spam.confidence r == Qmax (Spam.spam_probability r) (Spam.ham_probability r)
   /\ 0.5 <= Spam.confidence r)%Q.
Proof.
  intro r.
  destruct (SpamFacts.spam_result_eq t threshold) as (_ & E2 & E3 & E4 & _).
  fold r in E2, E3, E4. rewrite E3, E4, E2.
  split; [reflexivity|]. split; [reflexivity|].
  set (p := Qmin _ _).
  destruct (Qlt_le_dec p 0.5) as [L|L].
  - apply Qle_trans with (1 - p)%Q; [lra | apply Q.le_max_r].
  - apply Qle_trans with p; [exact L | apply Q.le_max_l].
Qed.

(** * Further properties of the detectors and of their callers *)

(** ** detect_spam *)

Lemma spam_counts_eq (t : string) (th : Q) :
  let r := Spam.detect_spam t th in
  Spam.keyword_count r = List.length (Spam.found_keywords r)
  /\ Spam.pattern_count r = List.length (Spam.patterns_found r)
  /\ Spam.text r = t
  /\ Spam.word_count r = List.length (Py.split t)
  /\ Spam.text_length r = String.length t.
Proof.
  unfold Spam.detect_spam. cbv zeta.
  generalize (Spam.scan_keywords (Py.lower t)). intro kw.
  generalize (Spam.check_patterns t (fst kw)). intro st.
  repeat split; reflexivity.
Qed.

Lemma matched_length (tl : string) (l : list string) :
  (List.length (matched tl l) <= List.length l)%nat.
Proof. apply filter_length_le. Qed.

(** The pattern checks of [detect_spam] started from 0: the total weight and
    the number of names recorded. *)
Lemma spam_patterns_shape (t : string) :
  (fst (Spam.check_patterns t 0)
   == of_int (List.length (snd (Spam.check_patterns t 0))) * 0.5
      + (if Spam.excessive_caps t then 0.5 else 0))%Q
  /\ (List.length (snd (Spam.check_patterns t 0)) <= 5)%nat.
Proof.
  unfold Spam.check_patterns, Spam.check_pattern.
  destruct (Re.search_run Re.is_digit 3 t), (Spam.excessive_caps t),
    (2 <? Py.count t "!")%nat, (Re.search_dollar_digits t),
    (1 <? List.length (Re.findall_http t))%nat;
    cbn [fst snd app List.length]; split; try lia; vm_compute; reflexivity.
Qed.

Lemma spam_score_ge_keywords (t : string) (threshold : Q) :
  (of_int (Spam.keyword_count (Spam.detect_spam t threshold))
   <= Spam.spam_score (Spam.detect_spam t threshold))%Q.
Proof.
  destruct (spam_counts_eq t threshold) as (K & _).
  destruct (SpamFacts.spam_result_eq t threshold)
    as (E1 & _ & _ & _ & _ & _ & E7 & _).
  destruct (SpamFacts.scan_keywords_eq (Py.lower t)) as [K1 K2].
  destruct (SpamFacts.spam_check_patterns_add t
              (fst (Spam.scan_keywords (Py.lower t)))) as [A1 _].
  rewrite K, E7, K2, E1, A1, K1.
  assert (N : (0 <= fst (Spam.check_patterns t 0))%Q)
    by (apply SpamFacts.check_patterns_nonneg; lra).
  lra.
Qed.

(** X1.  The spam score is made of the counts that the result reports: one
    for every keyword found, a half for every pattern found, and another
    half when the pattern is the excessive capitals.  At most 22 keywords
    and 5 patterns are found, so the score is at most 25. *)
Theorem spam_score_from_counts (t : string) (threshold : Q) :
  let r := Spam.detect_spam t threshold in
  (Spam.spam_score r
   == of_int (Spam.keyword_count r) + of_int (Spam.pattern_count r) * 0.5
      + (if Spam.excessive_caps t then 0.5 else 0))%Q
  /\ (Spam.keyword_count r <= 22)%nat /\ (Spam.pattern_count r <= 5)%nat
  /\ (of_int (Spam.keyword_count r) <= Spam.spam_score r <= 25)%Q.
Proof.
  intro r.
  destruct (spam_counts_eq t threshold) as (K & P & _). fold r in K, P.
  destruct (SpamFacts.spam_result_eq t threshold)
    as (E1 & _ & _ & _ & _ & _ & E7 & E8).
  fold r in E1, E7, E8.
  destruct (SpamFacts.scan_keywords_eq (Py.lower t)) as [K1 K2].
  destruct (SpamFacts.spam_check_patterns_add t
              (fst (Spam.scan_keywords (Py.lower t)))) as [A1 A2].
  destruct (spam_patterns_shape t) as [S1 S2].
  rewrite K, P, E7, E8, K2, A2.
  assert (L : (List.length (matched (Py.lower t) Spam.spam_keywords) <= 22)%nat)
    by apply (matched_length _ Spam.spam_keywords).
  assert (E : (Spam.spam_score r
               == of_int (List.length (matched (Py.lower t) Spam.spam_keywords))
                  + of_int (List.length (snd (Spam.check_patterns t 0))) * 0.5
                  + (if Spam.excessive_caps t then 0.5 else 0))%Q).
  { rewrite E1, A1, K1, S1. ring. }
  split; [exact E|]. split; [exact L|]. split; [exact S2|].
  pose proof (of_int_nonneg (List.length (snd (Spam.check_patterns t 0)))) as N.
  pose proof (of_int_le _ _ L) as L'.
  pose proof (of_int_le _ _ S2) as S2'.
  change (of_int 22) with 22%Q in L'. change (of_int 5) with 5%Q in S2'.
  rewrite E. destruct (Spam.excessive_caps t); split; lra.
Qed.

(** X2.  The probability saturates: it is 1 exactly when the score is at
    least 5, so five keywords alone make a message SPAM at every threshold
    below 1, whatever else the text holds. *)
Theorem spam_probability_saturates (t : string) (threshold : Q) :
  let r := Spam.detect_spam t threshold in
  ((Spam.spam_probability r == 1)%Q <-> (5 <= Spam.spam_score r)%Q)
  /\ ((5 <= Spam.keyword_count r)%nat -> (Spam.spam_probability r == 1)%Q)
  /\ ((5 <= Spam.keyword_count r)%nat -> (threshold < 1)%Q ->
      Spam.classification r = Spam.SPAM).
Proof.
  intro r.
  assert (P := SpamFacts.spam_probability_eq t threshold). fold r in P.
  assert (S : ((Spam.spam_probability r == 1)%Q <-> (5 <= Spam.spam_score r)%Q)).
  { rewrite P.
    assert (D : (Spam.spam_score r == Spam.spam_score r / 5.0 * 5.0)%Q)
      by (field; discriminate).
    set (y := (Spam.spam_score r / 5.0)%Q) in *.
    split; intro H.
    - destruct (Q.min_spec y 1.0) as [[L E]|[L E]].
      + rewrite E in H. exfalso. lra.
      + lra.
    - rewrite Q.min_r; [reflexivity|lra]. }
  assert (K : (5 <= Spam.keyword_count r)%nat -> (Spam.spam_probability r == 1)%Q).
  { intro H. apply S.
    assert (L := spam_score_ge_keywords t threshold). fold r in L.
    apply of_int_le in H. change (of_int 5) with 5%Q in H. lra. }
  split; [exact S|]. split; [exact K|].
  intros H T. apply (SpamFacts.classification_spec t threshold).
  fold r. rewrite (K H). exact T.
Qed.

Lemma spam_probability_saturates_witness :
  Spam.classification
    (Spam.detect_spam "free cash prize offer, winner gets a loan" 0.9) = Spam.SPAM.
Proof.
  apply (proj2 (proj2 (spam_probability_saturates
                         "free cash prize offer, winner gets a loan" 0.9))).
  - vm_compute. lia.
  - reflexivity.
Defined.

(** X3.  With a threshold of 1 or more (1.0 is the top of the slider) no
    message is ever classified SPAM. *)
Theorem spam_never_at_top_threshold (t : string) (threshold : Q)
    (H : (1 <= threshold)%Q) :
  Spam.is_spam (Spam.detect_spam t threshold) = false
  /\ Spam.classification (Spam.detect_spam t threshold) = Spam.HAM.
Proof.
  destruct (SpamFacts.spam_result_eq t threshold) as (_ & E2 & _ & _ & E5 & _).
  destruct (SpamFacts.spam_probability_bounds t threshold) as [_ B].
  split.
  - rewrite E5, <- E2. apply Qgt_bool_false. lra.
  - apply (SpamFacts.classification_spec t threshold). lra.
Qed.

Lemma spam_never_at_top_threshold_witness :
  Spam.classification
    (Spam.detect_spam "FREE prize!!! WINNER, click here NOW for $1000 cash" 1.0)
  = Spam.HAM.
Proof.
  apply (spam_never_at_top_threshold _ 1.0). discriminate.
Defined.

(** X4.  Raising the threshold never turns a HAM message into SPAM: a
    message that is SPAM at a threshold is SPAM at every lower one. *)
Theorem spam_threshold_monotone (t : string) (th1 th2 : Q)
    (H : (th1 <= th2)%Q)
    (S : Spam.classification (Spam.detect_spam t th2) = Spam.SPAM) :
  Spam.classification (Spam.detect_spam t th1) = Spam.SPAM.
Proof.
  apply (SpamFacts.classification_spec t th2) in S.
  apply (SpamFacts.classification_spec t th1).
  destruct (SpamFacts.spam_result_eq t th1) as (_ & E1 & _).
  destruct (SpamFacts.spam_result_eq t th2) as (_ & E2 & _).
  rewrite E1. rewrite E2 in S. lra.
Qed.

Lemma spam_threshold_monotone_witness :
  Spam.classification (Spam.detect_spam "free prize winner" 0.3) = Spam.SPAM.
Proof.
  apply (spam_threshold_monotone "free prize winner" 0.3 0.5).
  - discriminate.
  - vm_compute. reflexivity.
Defined.

(** ** detect_toxicity *)

Lemma fold_Qmax_upper (xs : list Q) (x : Q) :
  (x <= fold_left Qmax xs x)%Q
  /\ Forall (fun y => (y <= fold_left Qmax xs x)%Q) xs.
Proof.
  revert x. induction xs as [|a xs IH]; intro x; cbn [fold_left].
  - split; [apply Qle_refl|constructor].
  - destruct (IH (Qmax x a)) as [U F]. split; [|constructor; [|exact F]].
    + apply Qle_trans with (Qmax x a); [apply Q.le_max_l|exact U].
    + apply Qle_trans with (Qmax x a); [apply Q.le_max_r|exact U].
Qed.

Lemma fold_Qmax_attained (xs : list Q) (x : Q) :
  (fold_left Qmax xs x == x)%Q
  \/ Exists (fun y => (fold_left Qmax xs x == y)%Q) xs.
Proof.
  revert x. induction xs as [|a xs IH]; intro x; cbn [fold_left].
  - left. reflexivity.
  - destruct (IH (Qmax x a)) as [E|E].
    + destruct (Q.max_dec x a) as [M|M].
      * left. now rewrite E.
      * right. left. now rewrite E.
    + right. now right.
Qed.

(** The score of a category with a word list: the number of its detected
    words times its weight, clamped to 1.0. *)
Lemma tox_category_score (t : string) (k : Toxicity.Cat.t) :
  k <> Toxicity.Cat.toxic ->
  (Toxicity.get (Toxicity.detect_toxicity t) k
   == Qmin (of_int (List.length
                      (Toxicity.detected_items (Toxicity.detect_toxicity t) k))
            * category_weight k) 1.0)%Q.
Proof.
  intro N.
  destruct (ToxicityFacts.tox_result_eq t) as (G & _ & _ & _ & D).
  destruct (ToxicityFacts.accumulate_eq t) as [A B].
  rewrite G, D, B, ToxicityFacts.normalize_at.
  apply Q.min_compat; [|reflexivity]. rewrite A.
  destruct k; try (exfalso; apply N; reflexivity);
    unfold toxicity_sum, toxicity_items, toxic_hits, category_weight; ring.
Qed.

Lemma tox_score_le_overall (t : string) (k : Toxicity.Cat.t) :
  (Toxicity.get (Toxicity.detect_toxicity t) k
   <= Toxicity.overall_toxicity (Toxicity.detect_toxicity t))%Q.
Proof.
  destruct (ToxicityFacts.tox_result_eq t) as (G & E & _).
  rewrite G, E.
  set (sc := Toxicity.normalize (fst (Toxicity.accumulate t))).
  unfold Toxicity.values, Toxicity.Cat.keys, Toxicity.max_of. cbn [map].
  destruct (fold_Qmax_upper
              [sc Toxicity.Cat.severe_toxic; sc Toxicity.Cat.obscene;
               sc Toxicity.Cat.threat; sc Toxicity.Cat.insult;
               sc Toxicity.Cat.identity_attack] (sc Toxicity.Cat.toxic))
    as [U F].
  repeat match goal with
         | H : Forall _ (_ :: _) |- _ => inversion_clear H
         end.
  destruct k; assumption.
Qed.

Lemma tox_overall_attained (t : string) :
  exists k,
    (Toxicity.overall_toxicity (Toxicity.detect_toxicity t)
     == Toxicity.get (Toxicity.detect_toxicity t) k)%Q.
Proof.
  destruct (ToxicityFacts.tox_result_eq t) as (G & E & _).
  rewrite E.
  set (sc := Toxicity.normalize (fst (Toxicity.accumulate t))) in *.
  unfold Toxicity.values, Toxicity.Cat.keys, Toxicity.max_of. cbn [map].
  destruct (fold_Qmax_attained
              [sc Toxicity.Cat.severe_toxic; sc Toxicity.Cat.obscene;
               sc Toxicity.Cat.threat; sc Toxicity.Cat.insult;
               sc Toxicity.Cat.identity_attack] (sc Toxicity.Cat.toxic))
    as [A|A].
  - exists Toxicity.Cat.toxic. rewrite G. exact A.
  - repeat match goal with
           | H : Exists _ (_ :: _) |- _ => inversion_clear H
           | H : Exists _ [] |- _ => inversion H
           end;
      [exists Toxicity.Cat.severe_toxic | exists Toxicity.Cat.obscene
      | exists Toxicity.Cat.threat | exists Toxicity.Cat.insult
      | exists Toxicity.Cat.identity_attack]; rewrite G; assumption.
Qed.

(** X5.  The overall toxicity is the greatest category score of the result:
    no category score exceeds it and one of them equals it. *)
Theorem overall_toxicity_is_greatest (t : string) :
  let r := Toxicity.detect_toxicity t in
  (forall k, Toxicity.get r k <= Toxicity.overall_toxicity r)%Q
  /\ (exists k, (Toxicity.overall_toxicity r == Toxicity.get r k)%Q).
Proof.
  intro r. split; [intro k; apply tox_score_le_overall|].
  apply tox_overall_attained.
Qed.

(** A category with [n] detected words of weight at least [b / n], [b <= 1],
    lifts the overall score to [b]. *)
Lemma tox_words_lift_overall (t : string) (k : Toxicity.Cat.t) (n : nat) (b : Q) :
  k <> Toxicity.Cat.toxic ->
  (n <= List.length (Toxicity.detected_items (Toxicity.detect_toxicity t) k))%nat ->
  (b <= of_int n * category_weight k)%Q -> (b <= 1)%Q ->
  (b <= Toxicity.overall_toxicity (Toxicity.detect_toxicity t))%Q.
Proof.
  intros N L W B.
  apply Qle_trans with (Toxicity.get (Toxicity.detect_toxicity t) k);
    [|apply tox_score_le_overall].
  rewrite (tox_category_score t k N).
  apply Q.min_glb; [|apply Qle_trans with 1%Q; [exact B|discriminate]].
  apply Qle_trans with (of_int n * category_weight k)%Q; [exact W|].
  apply Qmult_le_compat_r; [now apply of_int_le|].
  destruct k; discriminate.
Qed.

(** X6.  A text in which a threat phrase is detected is never rated below
    Moderately Toxic: its overall toxicity is at least 0.4. *)
Theorem threat_is_at_least_moderate (t : string)
    (H : Toxicity.detected_items (Toxicity.detect_toxicity t) Toxicity.Cat.threat
         <> []) :
  let r := Toxicity.detect_toxicity t in
  (0.4 <= Toxicity.overall_toxicity r)%Q
  /\ (Toxicity.classification r = Toxicity.Moderately_Toxic
      \/ Toxicity.classification r = Toxicity.Highly_Toxic).
Proof.
  intro r.
  assert (O : (0.4 <= Toxicity.overall_toxicity r)%Q).
  { apply (tox_words_lift_overall t Toxicity.Cat.threat 1); try discriminate.
    destruct (Toxicity.detected_items (Toxicity.detect_toxicity t)
                Toxicity.Cat.threat); [contradiction|cbn [List.length]; lia]. }
  split; [exact O|].
  destruct (ToxicityFacts.tox_classification_eq t) as [C _]. fold r in C.
  destruct (ToxicityFacts.tox_classify_spec (Toxicity.overall_toxicity r))
    as (S1 & S2 & _).
  rewrite C.
  destruct (Qlt_le_dec (Toxicity.overall_toxicity r) 0.7) as [L|L].
  - left. apply S2. split; assumption.
  - right. apply S1. exact L.
Qed.

Lemma threat_is_at_least_moderate_witness :
  (0.4 <= Toxicity.overall_toxicity
            (Toxicity.detect_toxicity "You had better watch out"))%Q.
Proof.
  apply (threat_is_at_least_moderate "You had better watch out").
  vm_compute. discriminate.
Defined.

(** X7.  A text rated Non-Toxic has no severe, obscene, threat or insult
    word detected, and at most one identity word. *)
Theorem non_toxic_has_no_detected_word (t : string)
    (H : Toxicity.classification (Toxicity.detect_toxicity t) = Toxicity.Non_Toxic) :
  let items := Toxicity.detected_items (Toxicity.detect_toxicity t) in
  items Toxicity.Cat.severe_toxic = [] /\ items Toxicity.Cat.obscene = []
  /\ items Toxicity.Cat.threat = [] /\ items Toxicity.Cat.insult = []
  /\ (List.length (items Toxicity.Cat.identity_attack) <= 1)%nat.
Proof.
  intro items.
  destruct (ToxicityFacts.tox_classification_eq t) as [C _].
  rewrite C in H.
  apply (ToxicityFacts.tox_classify_spec
           (Toxicity.overall_toxicity (Toxicity.detect_toxicity t))) in H.
  assert (E : forall k, k <> Toxicity.Cat.toxic ->
                (0.2 <= category_weight k)%Q -> items k = []).
  { intros k N W. destruct (items k) as [|w l] eqn:I; [reflexivity|].
    exfalso.
    assert (L : (0.2 <= Toxicity.overall_toxicity (Toxicity.detect_toxicity t))%Q).
    { apply (tox_words_lift_overall t k 1 0.2 N); [| |discriminate].
      - fold items. rewrite I. cbn [List.length]. lia.
      - change (of_int 1) with 1%Q. lra. }
    lra. }
  repeat split; try (apply E; discriminate).
  destruct (Nat.le_gt_cases
              (List.length (items Toxicity.Cat.identity_attack)) 1) as [L|L];
    [exact L|].
  exfalso.
  assert (O : (0.2 <= Toxicity.overall_toxicity (Toxicity.detect_toxicity t))%Q).
  { apply (tox_words_lift_overall t Toxicity.Cat.identity_attack 2);
      try discriminate. exact L. }
  lra.
Qed.

Lemma non_toxic_has_no_detected_word_witness :
  (List.length
     (Toxicity.detected_items
        (Toxicity.detect_toxicity "People of every religion deserve respect")
        Toxicity.Cat.identity_attack) <= 1)%nat.
Proof.
  apply (non_toxic_has_no_detected_word
           "People of every religion deserve respect").
  vm_compute. reflexivity.
Defined.

Lemma tox_risk_of_label (q : Q) :
  snd (Toxicity.classify q)
  = match fst (Toxicity.classify q) with
    | Toxicity.Highly_Toxic => Toxicity.HIGH_RISK
    | Toxicity.Moderately_Toxic => Toxicity.MEDIUM_RISK
    | Toxicity.Mildly_Toxic => Toxicity.LOW_RISK
    | Toxicity.Non_Toxic => Toxicity.SAFE
    end.
Proof.
  unfold Toxicity.classify.
  destruct (Qge_bool q 0.7), (Qge_bool q 0.4), (Qge_bool q 0.2); reflexivity.
Qed.

Lemma tox64_overall_eq (t : string) :
  let r := Toxicity64.detect_toxicity t in
  let top :=
    Toxicity.max_of
      (map (fun k => Qmin (toxicity_score Binary64.add Binary64.lit t k) 1.0)
         Toxicity.Cat.keys) in
  Toxicity.overall_toxicity r = top
  /\ Toxicity.classification r = fst (Toxicity64.classify top)
  /\ Toxicity.risk_level r = snd (Toxicity64.classify top).
Proof.
  destruct (tox64_result_eq t) as (_ & O & C & R & _).
  destruct (tox64_accumulate_fold t) as [A _].
  assert (E : Toxicity.values (Toxicity.normalize (fst (Toxicity64.accumulate t)))
              = map (fun k =>
                       Qmin (toxicity_score Binary64.add Binary64.lit t k) 1.0)
                  Toxicity.Cat.keys).
  { unfold Toxicity.values. apply map_ext. intro k.
    rewrite ToxicityFacts.normalize_at, A. reflexivity. }
  rewrite E in O, C, R. exact (conj O (conj C R)).
Qed.

(** X8.  The two pattern checks alone never make a text toxic: when no word
    of [TOXIC_WORDS] is detected, every category score but [toxic] is 0, the
    overall toxicity stays below the first cutoff, 0.2, and the text is rated
    Non-Toxic and SAFE, however many capitals and exclamation marks it has.
    In binary64 the overall toxicity is then at most 0.1 + 0.05, which is
    0.15000000000000002. *)
Theorem no_detected_word_is_safe (t : string)
    (H : forall k,
        Toxicity.detected_items (Toxicity.detect_toxicity t) k = []) :
  let r := Toxicity.detect_toxicity t in
  let r64 := Toxicity64.detect_toxicity t in
  ((forall k, k <> Toxicity.Cat.toxic -> Toxicity.get r k == 0)%Q
   /\ (Toxicity.overall_toxicity r < 0.2)%Q
   /\ Toxicity.classification r = Toxicity.Non_Toxic
   /\ Toxicity.risk_level r = Toxicity.SAFE)
  /\ ((forall k, k <> Toxicity.Cat.toxic -> Toxicity.get r64 k == 0)%Q
      /\ (Toxicity.overall_toxicity r64
          <= Binary64.add (Binary64.lit 0.1) (Binary64.lit 0.05))%Q
      /\ Toxicity.classification r64 = Toxicity.Non_Toxic
      /\ Toxicity.risk_level r64 = Toxicity.SAFE).
Proof.
  intros r r64.
  assert (I : forall k, toxicity_items t k = []).
  { intro k. destruct (ToxicityFacts.tox_result_eq t) as (_ & _ & _ & _ & D).
    destruct (ToxicityFacts.accumulate_eq t) as [_ B].
    rewrite <- B, <- D. apply H. }
  split.
  - assert (Z : forall k, k <> Toxicity.Cat.toxic -> (Toxicity.get r k == 0)%Q).
    { intros k N. unfold r. rewrite (tox_category_score t k N), (H k).
      cbn [List.length]. change (of_int 0) with 0%Q.
      rewrite Q.min_l; [ring|].
      apply Qle_trans with 0%Q; [|discriminate]. apply Qle_lteq. right. ring. }
    assert (T : (Toxicity.get r Toxicity.Cat.toxic < 0.2)%Q).
    { destruct (ToxicityFacts.tox_result_eq t) as (G & _).
      destruct (ToxicityFacts.accumulate_eq t) as [A _].
      unfold r. rewrite G, ToxicityFacts.normalize_at.
      apply Qle_lt_trans with (fst (Toxicity.accumulate t) Toxicity.Cat.toxic);
        [apply Q.le_min_l|].
      rewrite A. unfold toxicity_sum, toxic_hits.
      pose proof (I Toxicity.Cat.severe_toxic) as I1.
      pose proof (I Toxicity.Cat.obscene) as I2.
      pose proof (I Toxicity.Cat.threat) as I3.
      pose proof (I Toxicity.Cat.insult) as I4.
      pose proof (I Toxicity.Cat.identity_attack) as I5.
      unfold toxicity_items in I1, I2, I3, I4, I5.
      rewrite I1, I2, I3, I4, I5. cbn [List.length]. change (of_int 0) with 0%Q.
      unfold toxic_pattern_bonus.
      destruct (Re.search_run Re.is_AZ 5 t),
        (Re.search_run (Re.is_char "!") 3 t); vm_compute; reflexivity. }
    assert (O : (Toxicity.overall_toxicity r < 0.2)%Q).
    { destruct (tox_overall_attained t) as [k E]. fold r in E. rewrite E.
      destruct k; try exact T; rewrite Z; (discriminate || reflexivity). }
    destruct (ToxicityFacts.tox_classification_eq t) as [C R]. fold r in C, R.
    assert (L : Toxicity.classification r = Toxicity.Non_Toxic).
    { rewrite C. apply ToxicityFacts.tox_classify_spec. exact O. }
    split; [exact Z|]. split; [exact O|]. split; [exact L|].
    rewrite R, tox_risk_of_label, <- C, L. reflexivity.
  - destruct (tox64_result_eq t) as (G & _).
    destruct (tox64_accumulate_fold t) as [A _].
    destruct (tox64_overall_eq t) as (O & C & R).
    fold r64 in G, O, C, R.
    assert (S : forall k,
               Toxicity.get r64 k
               = Qmin (toxicity_score Binary64.add Binary64.lit t k) 1.0).
    { intro k. rewrite G, ToxicityFacts.normalize_at, A. reflexivity. }
    split; [|rewrite O, C, R]; [intros k N; rewrite S|];
      unfold Toxicity.Cat.keys; cbn [map];
      unfold toxicity_score; cbv zeta; rewrite ?I;
      destruct (Re.search_run Re.is_AZ 5 t),
        (Re.search_run (Re.is_char "!") 3 t).
    all: try (destruct k; try contradiction; vm_compute; reflexivity).
    all: vm_compute; repeat split; congruence.
Qed.

Lemma no_detected_word_is_safe_witness :
  Toxicity.classification (Toxicity.detect_toxicity "STOP SHOUTING AT ME!!!!")
  = Toxicity.Non_Toxic
  /\ Toxicity.classification
       (Toxicity64.detect_toxicity "STOP SHOUTING AT ME!!!!")
     = Toxicity.Non_Toxic.
Proof.
  assert (H : forall k,
             Toxicity.detected_items
               (Toxicity.detect_toxicity "STOP SHOUTING AT ME!!!!") k = [])
    by (intro k; destruct k; vm_compute; reflexivity).
  pose proof (no_detected_word_is_safe "STOP SHOUTING AT ME!!!!" H) as P.
  exact (conj (proj1 (proj2 (proj2 (proj1 P))))
              (proj1 (proj2 (proj2 (proj2 P))))).
Defined.

(** ** detect_fake_news *)

Lemma Qdiv_ge_iff (a c s : Q) : (0 < s -> (a <= c / s <-> a * s <= c))%Q.
Proof.
  intro S. split; intro H.
  - destruct (Qlt_le_dec c (a * s)) as [L|L]; [|exact L].
    exfalso. apply (Qlt_shift_div_r _ _ _ S) in L. lra.
  - now apply Qle_shift_div_l.
Qed.

Lemma Qdiv_lt_iff (a c s : Q) : (0 < s -> (c / s < a <-> c < a * s))%Q.
Proof.
  intro S. split; intro H.
  - destruct (Qlt_le_dec c (a * s)) as [L|L]; [exact L|].
    exfalso. apply (Qle_shift_div_l _ _ _ S) in L. lra.
  - now apply Qlt_shift_div_r.
Qed.

Lemma news_combine_neutral (c f : Q) :
  (c == 0 -> f == 0 -> FakeNews.combine c f == 0.5)%Q.
Proof.
  intros C F. unfold FakeNews.combine.
  assert (E1 : Qgt_bool c 0 = false) by (apply Qgt_bool_false; lra).
  assert (E2 : Qgt_bool f 0 = false) by (apply Qgt_bool_false; lra).
  rewrite E1, E2. reflexivity.
Qed.

(** X9.  The label of [detect_fake_news] is decided by the balance of its
    two scores: Likely Credible exactly when there is credible evidence and
    the fake score is at most 3/7 of the credible one, Likely Fake exactly
    when the credible score is below 3/7 of the fake one, Questionable in
    between below parity, and Mixed Signals from parity up, or when there
    is no evidence at all. *)
Theorem fake_news_label_by_balance (t : string) :
  let r := FakeNews.detect_fake_news t in
  let c := FakeNews.credible_score r in
  let f := FakeNews.fake_score r in
  ((FakeNews.classification r = FakeNews.Likely_Credible
    <-> 0 < c /\ 7 * f <= 3 * c)
   /\ (FakeNews.classification r = FakeNews.Mixed_Signals
       <-> (c == 0 /\ f == 0) \/ (0 < c /\ f <= c /\ 3 * c < 7 * f))
   /\ (FakeNews.classification r = FakeNews.Questionable
       <-> c < f /\ 3 * f <= 7 * c)
   /\ (FakeNews.classification r = FakeNews.Likely_Fake
       <-> 7 * c < 3 * f))%Q.
Proof.
  intros r c f.
  destruct (FakeNewsFacts.news_scores_eq t) as (_ & _ & E & L & _).
  fold r in E, L.
  fold c in E. fold f in E.
  destruct (FakeNewsFacts.credible_score_bounds t) as [C0 _].
  destruct (FakeNewsFacts.fake_score_bounds t) as [F0 _].
  fold r in C0, F0.
  fold c in C0. fold f in F0.
  rewrite L, E.
  destruct (FakeNewsFacts.news_classify_spec (FakeNews.combine c f))
    as (S1 & S2 & S3 & S4).
  rewrite S1, S2, S3, S4.
  destruct (Qlt_le_dec 0 (c + f)) as [P|P].
  - rewrite (FakeNewsFacts.news_combine_ratio c f C0 F0 P).
    pose proof (Qdiv_ge_iff 0.7 c (c + f) P) as G7.
    pose proof (Qdiv_ge_iff 0.5 c (c + f) P) as G5.
    pose proof (Qdiv_ge_iff 0.3 c (c + f) P) as G3.
    pose proof (Qdiv_lt_iff 0.7 c (c + f) P) as L7.
    pose proof (Qdiv_lt_iff 0.5 c (c + f) P) as L5.
    pose proof (Qdiv_lt_iff 0.3 c (c + f) P) as L3.
    rewrite G7, G5, G3, L7, L5, L3.
    repeat split; intros; repeat match goal with
                                 | H : _ /\ _ |- _ => destruct H
                                 | H : _ \/ _ |- _ => destruct H
                                 end; lra.
  - assert (Zc : (c == 0)%Q) by lra. assert (Zf : (f == 0)%Q) by lra.
    rewrite (news_combine_neutral c f Zc Zf).
    repeat split; intros; repeat match goal with
                                 | H : _ /\ _ |- _ => destruct H
                                 | H : _ \/ _ |- _ => destruct H
                                 end; lra.
Qed.

Lemma occurrences_app (tl x : string) (l : list string) :
  (occurrences tl l <= occurrences (tl ++ x) l)%nat.
Proof.
  induction l as [|k l IH]; [apply Nat.le_refl|].
  rewrite !occurrences_cons.
  apply Nat.add_le_mono; [apply PyFacts.count_app|exact IH].
Qed.

Lemma total_occurrences_app (tl x : string) (table : list (string * list string)) :
  (total_occurrences tl table <= total_occurrences (tl ++ x) table)%nat.
Proof.
  induction table as [|item table IH]; [apply Nat.le_refl|].
  rewrite !total_occurrences_cons.
  apply Nat.add_le_mono; [apply occurrences_app|exact IH].
Qed.

Lemma news_scan_app (table : FakeNews.indicators) (w : Q) (t x : string) :
  (0 <= w ->
   fst (FakeNews.scan table w (Py.lower t))
   <= fst (FakeNews.scan table w (Py.lower (t ++ x))))%Q.
Proof.
  intro W.
  destruct (FakeNewsFacts.scan_eq table w (Py.lower t)) as [E _].
  destruct (FakeNewsFacts.scan_eq table w (Py.lower (t ++ x))) as [E' _].
  rewrite E, E', PyFacts.lower_app.
  apply Qmult_le_compat_r; [|exact W].
  apply of_int_le, total_occurrences_app.
Qed.

Lemma news_check_patterns_app (t x : string) (s s' : Q) :
  (s <= s' -> FakeNews.check_patterns t s <= FakeNews.check_patterns (t ++ x) s')%Q.
Proof.
  intro H. unfold FakeNews.check_patterns.
  pose proof (ReFacts.search_run_app Re.is_AZ 10 t x) as A.
  pose proof (ReFacts.search_run_app (Re.is_char "!") 3 t x) as B.
  pose proof (ReFacts.search_run_app (Re.is_char "?") 2 t x) as C.
  destruct (Re.search_run Re.is_AZ 10 t);
    [rewrite (A eq_refl)|destruct (Re.search_run Re.is_AZ 10 (t ++ x))];
    (destruct (Re.search_run (Re.is_char "!") 3 t);
     [rewrite (B eq_refl)|destruct (Re.search_run (Re.is_char "!") 3 (t ++ x))]);
    (destruct (Re.search_run (Re.is_char "?") 2 t);
     [rewrite (C eq_refl)|destruct (Re.search_run (Re.is_char "?") 2 (t ++ x))]);
    lra.
Qed.

(** X10.  Appending text to an article never lowers its fake score nor its
    credible score: every occurrence counted before is counted again, and a
    pattern found before is found again. *)
Theorem fake_news_scores_grow_with_text (t x : string) :
  (FakeNews.fake_score (FakeNews.detect_fake_news t)
   <= FakeNews.fake_score (FakeNews.detect_fake_news (t ++ x)))%Q
  /\ (FakeNews.credible_score (FakeNews.detect_fake_news t)
      <= FakeNews.credible_score (FakeNews.detect_fake_news (t ++ x)))%Q.
Proof.
  destruct (FakeNewsFacts.news_scores_eq t) as (F & C & _).
  destruct (FakeNewsFacts.news_scores_eq (t ++ x)) as (F' & C' & _).
  rewrite F, C, F', C'. split; apply Q.min_le_compat_r.
  - apply news_check_patterns_app, news_scan_app. discriminate.
  - apply news_scan_app. discriminate.
Qed.

Lemma matched_nil_occurrences (tl : string) (l : list string) :
  matched tl l = [] -> occurrences tl l = 0%nat.
Proof.
  induction l as [|k l IH]; intro H; [reflexivity|].
  rewrite matched_cons in H. rewrite occurrences_cons.
  destruct (Py.contains k tl) eqn:C; [discriminate|].
  rewrite (PyFacts.count_absent _ _ C), (IH H). reflexivity.
Qed.

Lemma matched_by_category_nil (tl : string) (table : list (string * list string)) :
  Forall (fun item => snd item = []) (matched_by_category tl table) ->
  total_occurrences tl table = 0%nat.
Proof.
  induction table as [|item table IH]; intro H; [reflexivity|].
  change (matched_by_category tl (item :: table))
    with ((fst item, matched tl (snd item)) :: matched_by_category tl table) in H.
  inversion_clear H as [|? ? H1 H2]. cbn [snd] in H1.
  rewrite total_occurrences_cons, (matched_nil_occurrences _ _ H1), (IH H2).
  reflexivity.
Qed.

(** X11.  An article in which no credible keyword is found is never rated
    better than Mixed Signals: its credibility is 0.5 when nothing speaks
    against it either, and 0, Likely Fake, as soon as its fake score is
    positive. *)
Theorem no_credible_keyword_caps_label (t : string)
    (H : Forall (fun item => snd item = [])
           (FakeNews.credible_indicators (FakeNews.detect_fake_news t))) :
  let r := FakeNews.detect_fake_news t in
  (FakeNews.credible_score r == 0)%Q
  /\ ((FakeNews.fake_score r == 0)%Q ->
      (FakeNews.credibility r == 0.5)%Q
      /\ FakeNews.classification r = FakeNews.Mixed_Signals)
  /\ ((0 < FakeNews.fake_score r)%Q ->
      (FakeNews.credibility r == 0)%Q
      /\ FakeNews.classification r = FakeNews.Likely_Fake).
Proof.
  intro r.
  destruct (FakeNewsFacts.news_scores_eq t) as (_ & C & E & L & _ & _ & I).
  fold r in C, E, L, I.
  destruct (FakeNewsFacts.scan_eq FakeNews.CREDIBLE_INDICATORS 0.2 (Py.lower t))
    as [S1 S2].
  destruct (FakeNewsFacts.fake_score_bounds t) as [F0 _].
  fold r in F0.
  unfold r in I. rewrite I, S2 in H.
  apply matched_by_category_nil in H.
  assert (Z : (FakeNews.credible_score r == 0)%Q).
  { rewrite C, S1, H. reflexivity. }
  destruct (FakeNewsFacts.news_classify_spec (FakeNews.credibility r))
    as (_ & M & _ & K).
  split; [exact Z|]. split; intro F.
  - assert (V : (FakeNews.credibility r == 0.5)%Q)
      by (rewrite E; now apply news_combine_neutral).
    split; [exact V|]. rewrite L. apply M. rewrite V.
    split; [discriminate|reflexivity].
  - assert (V : (FakeNews.credibility r == 0)%Q).
    { rewrite E, FakeNewsFacts.news_combine_ratio; try lra.
      rewrite Z. field. lra. }
    split; [exact V|]. rewrite L. apply K. rewrite V. reflexivity.
Qed.

Lemma no_credible_keyword_caps_label_witness :
  (FakeNews.credible_score
     (FakeNews.detect_fake_news "SHOCKING!!! You won't believe this") == 0)%Q.
Proof.
  assert (H : Forall (fun item : string * list string => snd item = [])
                (FakeNews.credible_indicators
                   (FakeNews.detect_fake_news
                      "SHOCKING!!! You won't believe this")))
    by (vm_compute; repeat constructor).
  exact (proj1 (no_credible_keyword_caps_label
                  "SHOCKING!!! You won't believe this" H)).
Defined.



(** ** analyze_review_authenticity *)

Lemma review_classify_spec (q : Q) :
  ((fst (Review.classify q) = Review.Likely_Authentic <-> 0.7 <= q)
   /\ (fst (Review.classify q) = Review.Moderately_Authentic <-> 0.5 <= q < 0.7)
   /\ (fst (Review.classify q) = Review.Questionable <-> 0.3 <= q < 0.5)
   /\ (fst (Review.classify q) = Review.Likely_Fake_Spam <-> q < 0.3))%Q.
Proof.
  unfold Review.classify.
  destruct (Qge_bool q 0.7) eqn:E7;
    [apply Qge_bool_true in E7 | apply Qge_bool_false in E7];
  (destruct (Qge_bool q 0.5) eqn:E5;
    [apply Qge_bool_true in E5 | apply Qge_bool_false in E5]);
  (destruct (Qge_bool q 0.3) eqn:E3;
    [apply Qge_bool_true in E3 | apply Qge_bool_false in E3]);
  cbn [fst]; repeat split; intros; try discriminate; try lra;
    try (exfalso; lra).
Qed.

Lemma review_trust_of_label (q : Q) :
  snd (Review.classify q)
  = match fst (Review.classify q) with
    | Review.Likely_Authentic => Review.High
    | Review.Moderately_Authentic => Review.Medium
    | Review.Questionable => Review.Low
    | Review.Likely_Fake_Spam => Review.Very_Low
    end.
Proof.
  unfold Review.classify.
  destruct (Qge_bool q 0.7), (Qge_bool q 0.5), (Qge_bool q 0.3); reflexivity.
Qed.

Lemma review_result_eq (t : string) :
  let r := Review.analyze_review_authenticity t in
  Review.trust r = snd (Review.classify (Review.authenticity_score r))
  /\ Review.found_indicators r = snd (fst (Review.totals t))
  /\ Review.word_count r = snd (Review.totals t)
  /\ Review.text r = t.
Proof.
  unfold Review.analyze_review_authenticity. cbv zeta.
  generalize (Review.totals t). intro st.
  repeat split; reflexivity.
Qed.

(** [combine] when neither total is there. *)
Lemma review_combine_nothing (f a : Q) :
  (f == 0 -> a == 0 -> Review.combine f a == 0)%Q.
Proof.
  intros F A. unfold Review.combine.
  assert (G : Qgt_bool f a = false) by (apply Qgt_bool_false; lra).
  rewrite G, A. unfold Qdiv. rewrite Qmult_0_l.
  apply Q.min_r. discriminate.
Qed.

(** The two totals of a review and its score: the facts that the
    statements below start from. *)
Lemma review_score_cases (t : string) :
  let r := Review.analyze_review_authenticity t in
  let f := Review.fake_score r in
  let a := Review.authentic_score r in
  (0 <= f /\ 0 <= a)%Q
  /\ (((f == 0 /\ a == 0) /\ Review.authenticity_score r == 0)
      \/ (0.15 <= a + f /\ Review.authenticity_score r == a / (a + f)))%Q.
Proof.
  intros r f a.
  destruct (ReviewFacts.review_scores_eq t) as (_ & _ & E & _).
  fold r in E. fold f in E. fold a in E.
  destruct (ReviewFacts.scores_apart t) as [Ff Fa].
  fold r in Ff, Fa. fold f in Ff. fold a in Fa.
  assert (Nf := ReviewFacts.apart_nonneg _ Ff).
  assert (Na := ReviewFacts.apart_nonneg _ Fa).
  split; [split; assumption|]. rewrite E.
  destruct Ff as [Zf|Wf]; destruct Fa as [Za|Wa].
  - left. split; [split; assumption|now apply review_combine_nothing].
  - right. split; [lra|]. apply ReviewFacts.review_combine_ratio; lra.
  - right. split; [lra|]. apply ReviewFacts.review_combine_ratio; lra.
  - right. split; [lra|]. apply ReviewFacts.review_combine_ratio; lra.
Qed.



(** X14.  A review without authentic evidence scores 0 and is rated Likely
    Fake/Spam with Very Low trust, also when nothing fake is found in it. *)
Theorem review_without_authentic_evidence (t : string)
    (H : (Review.authentic_score (Review.analyze_review_authenticity t) == 0)%Q) :
  let r := Review.analyze_review_authenticity t in
  (Review.authenticity_score r == 0)%Q
  /\ Review.classification r = Review.Likely_Fake_Spam
  /\ Review.trust r = Review.Very_Low.
Proof.
  intro r. subst r.
  destruct (ReviewFacts.review_scores_eq t) as (_ & _ & _ & L).
  destruct (review_result_eq t) as (T & _).
  set (r := Review.analyze_review_authenticity t) in *.
  assert (V : (Review.authenticity_score r == 0)%Q).
  { destruct (review_score_cases t) as (_ & [[_ V]|[P V]]);
      fold r in V; [exact V|].
    rewrite V, H. unfold Qdiv. apply Qmult_0_l. }
  assert (C : Review.classification r = Review.Likely_Fake_Spam).
  { rewrite L. apply review_classify_spec. rewrite V. reflexivity. }
  split; [exact V|]. split; [exact C|].
  rewrite T, review_trust_of_label, <- L, C. reflexivity.
Qed.

Lemma review_without_authentic_evidence_witness :
  Review.classification
    (Review.analyze_review_authenticity
       "The parcel was delivered on Tuesday and the box looked fine to us")
  = Review.Likely_Fake_Spam.
Proof.
  apply (review_without_authentic_evidence
           "The parcel was delivered on Tuesday and the box looked fine to us").
  vm_compute. reflexivity.
Defined.

Lemma review_phrases_found tl w (l : list string) (st : Q * list string) :
  snd (fold_left (Review.check_phrase tl w) l st) = (snd st ++ matched tl l)%list.
Proof.
  revert st. induction l as [|k l IH]; intro st; cbn [fold_left].
  - change (matched tl []) with (@nil string). now rewrite app_nil_r.
  - rewrite IH, matched_cons. unfold Review.check_phrase.
    destruct (Py.contains k tl); cbn [snd]; [|reflexivity].
    now rewrite <- app_assoc.
Qed.

(** X15.  [found_indicators] lists, in the order fake indicators, spam
    patterns, authentic indicators, the phrases of each list that occur in
    the lowercased review, and leaves out a list in which nothing occurs:
    no entry of it is empty. *)
Theorem review_found_indicators (t : string) :
  let r := Review.analyze_review_authenticity t in
  let tl := Py.lower t in
  Review.found_indicators r
  = filter (fun item => match snd item with [] => false | _ => true end)
      [("fake_indicators", matched tl Review.FAKE_INDICATORS);
       ("spam_patterns", matched tl Review.SPAM_PATTERNS);
       ("authentic_indicators", matched tl Review.AUTHENTIC_INDICATORS)]
  /\ Forall (fun item => snd item <> []) (Review.found_indicators r).
Proof.
  intros r tl.
  destruct (review_result_eq t) as (_ & F & _). fold r in F.
  assert (E : Review.found_indicators r
              = filter (fun item : string * list string =>
                          match snd item with [] => false | _ => true end)
                  [("fake_indicators", matched tl Review.FAKE_INDICATORS);
                   ("spam_patterns", matched tl Review.SPAM_PATTERNS);
                   ("authentic_indicators",
                    matched tl Review.AUTHENTIC_INDICATORS)]).
  { rewrite F. unfold Review.totals. fold tl. cbn [fst snd].
    rewrite !review_phrases_found. cbn [snd app filter].
    unfold Review.record_found.
    destruct (matched tl Review.FAKE_INDICATORS),
      (matched tl Review.SPAM_PATTERNS),
      (matched tl Review.AUTHENTIC_INDICATORS); reflexivity. }
  split; [exact E|]. rewrite E.
  apply Forall_forall. intros item I. apply filter_In in I as [_ I].
  destruct (snd item); [discriminate|discriminate].
Qed.

(** X16.  A review of fewer than ten words starts with a fake total of 0.3:
    its fake score is at least 0.3 and its authenticity score stays below 1,
    whatever it says. *)
Theorem short_review_is_suspicious (t : string)
    (H : (Review.word_count (Review.analyze_review_authenticity t) < 10)%nat) :
  let r := Review.analyze_review_authenticity t in
  (0.3 <= Review.fake_score r)%Q /\ (Review.authenticity_score r < 1)%Q.
Proof.
  intro r. subst r.
  destruct (review_result_eq t) as (_ & _ & W & _). rewrite W in H.
  destruct (ReviewFacts.review_scores_eq t) as (Ef & _).
  assert (F : (0.3 <= Review.fake_score (Review.analyze_review_authenticity t))%Q).
  { rewrite Ef. revert H. unfold Review.totals. cbn [fst snd]. intro H.
    apply Nat.ltb_lt in H. rewrite H.
    assert (N : (0 <= fst (fold_left (Review.check_phrase (Py.lower t) 0.5)
                            Review.SPAM_PATTERNS
                            (fst (fold_left
                                    (Review.check_phrase (Py.lower t) 0.4)
                                    Review.FAKE_INDICATORS (0, [])), [])))%Q).
    { apply ReviewFacts.apart_nonneg.
      apply ReviewFacts.phrases_apart; [discriminate|]. cbn [fst].
      apply ReviewFacts.phrases_apart; [discriminate|]. left. reflexivity. }
    destruct (Qgt_bool (Review.caps_ratio t) 0.3),
      (3 <? Py.count t "!")%nat; lra. }
  split; [exact F|].
  destruct (review_score_cases t) as ([_ Na] & [[[Zf _] _]|[P V]]).
  - exfalso. lra.
  - rewrite V. apply Qlt_shift_div_r; lra.
Qed.

Lemma short_review_is_suspicious_witness :
  (0.3 <= Review.fake_score
            (Review.analyze_review_authenticity "Works well, but I wish it were lighter"))%Q.
Proof.
  apply (short_review_is_suspicious "Works well, but I wish it were lighter").
  vm_compute. lia.
Defined.

(** ** The pages: single input and batch mode *)

Lemma lstrip_cases (s : string) :
  Page.lstrip s = EmptyString
  \/ exists c r, Page.lstrip s = String c r /\ Py.isspace c = false.
Proof.
  induction s as [|c r IH]; [now left|].
  cbn [Page.lstrip]. destruct (Py.isspace c) eqn:E; [exact IH|].
  right. now exists c, r.
Qed.

Lemma rstrip_keeps_start (c : ascii) (r : string) :
  Py.isspace c = false -> Page.truthy (Page.rstrip (String c r)) = true.
Proof.
  intro E. cbn [Page.rstrip]. rewrite E.
  destruct (Page.rstrip r); reflexivity.
Qed.

Lemma split_from_nil (cur s : string) :
  Py.split_from cur s = [] <-> cur = EmptyString /\ Page.lstrip s = EmptyString.
Proof.
  revert cur. induction s as [|c r IH]; intro cur.
  - cbn [Py.split_from Page.lstrip]. destruct cur; split; intro H.
    + now split.
    + reflexivity.
    + discriminate.
    + destruct H as [H _]. discriminate.
  - cbn [Py.split_from Page.lstrip]. destruct (Py.isspace c).
    + destruct cur.
      * rewrite IH. reflexivity.
      * split; intro H; [discriminate|]. destruct H as [H _]. discriminate.
    + rewrite IH. split; intro H; destruct H as [H1 H2].
      * destruct cur; discriminate.
      * discriminate.
Qed.

(** X17.  Single input mode analyses a text exactly when it holds a word:
    [user_input.strip()] is not empty if and only if [split] finds at least
    one word, so every analysed text has a word count of at least 1 and a
    text of white space alone is never scored. *)
Theorem single_input_needs_a_word (user_input : string) (threshold : Q) :
  (Page.accepts user_input = true
   <-> (1 <= List.length (Py.split user_input))%nat)
  /\ (Page.accepts user_input = true
      <-> (1 <= Spam.word_count (Spam.detect_spam user_input threshold))%nat)
  /\ (Page.accepts user_input = false <-> Py.split user_input = []).
Proof.
  assert (A : Page.accepts user_input = false <-> Py.split user_input = []).
  { unfold Page.accepts, Page.strip, Py.split. rewrite split_from_nil.
    destruct (lstrip_cases user_input) as [E|(c & r & E & S)]; rewrite E.
    - cbn. tauto.
    - rewrite (rstrip_keeps_start c r S).
      split; intro H; [discriminate|]. destruct H as [_ H]. discriminate. }
  assert (B : Page.accepts user_input = true
              <-> (1 <= List.length (Py.split user_input))%nat).
  { split; intro H.
    - destruct (Py.split user_input) eqn:S; [|cbn [List.length]; lia].
      exfalso. rewrite (proj2 A eq_refl) in H. discriminate.
    - destruct (Page.accepts user_input) eqn:E; [reflexivity|].
      exfalso. rewrite (proj1 A eq_refl) in H. cbn [List.length] in H. lia. }
  split; [exact B|]. split; [|exact A].
  destruct (spam_counts_eq user_input threshold) as (_ & _ & _ & W & _).
  rewrite W. exact B.
Qed.

Lemma count_ge_map {A : Type} (f : A -> Q) (p : A -> bool) (b : Q)
    (rows : list A) :
  (forall row, In row rows -> Qge_bool (f row) b = p row) ->
  Page.count_ge b (map f rows) = List.length (filter p rows).
Proof.
  unfold Page.count_ge. induction rows as [|row rows IH]; intro H;
    [reflexivity|].
  cbn [map filter]. rewrite (H row) by now left.
  destruct (p row); cbn [List.length]; rewrite IH; auto;
    intros x I; apply H; now right.
Qed.

Lemma count_lt_map {A : Type} (f : A -> Q) (p : A -> bool) (b : Q)
    (rows : list A) :
  (forall row, In row rows -> negb (Qge_bool (f row) b) = p row) ->
  Page.count_lt b (map f rows) = List.length (filter p rows).
Proof.
  unfold Page.count_lt. induction rows as [|row rows IH]; intro H;
    [reflexivity|].
  cbn [map filter]. rewrite (H row) by now left.
  destruct (p row); cbn [List.length]; rewrite IH; auto;
    intros x I; apply H; now right.
Qed.

Lemma fold_Qplus_bounds (values : list Q) (acc : Q) :
  Forall (fun v => 0 <= v <= 1)%Q values ->
  (acc <= fold_left Qplus values acc <= acc + of_int (List.length values))%Q.
Proof.
  revert acc. induction values as [|v values IH]; intros acc H;
    cbn [fold_left List.length].
  - change (of_int 0) with 0%Q. lra.
  - inversion_clear H as [|? ? Hv Hr].
    destruct (IH (acc + v)%Q Hr) as [L U]. rewrite of_int_S. lra.
Qed.

Lemma mean_bounds (values : list Q) :
  values <> [] -> Forall (fun v => 0 <= v <= 1)%Q values ->
  (0 <= Page.mean values <= 1)%Q.
Proof.
  intros N H. unfold Page.mean.
  destruct (fold_Qplus_bounds values 0 H) as [L U].
  assert (P : (0 < of_int (List.length values))%Q).
  { destruct values as [|v values]; [contradiction|].
    cbn [List.length]. rewrite of_int_S.
    pose proof (of_int_nonneg (List.length values)). lra. }
  split; [apply Qle_shift_div_l|apply Qle_shift_div_r]; lra.
Qed.

Lemma filter_split_length {A : Type} (p : A -> bool) (l : list A) :
  (List.length (filter p l) + List.length (filter (fun x => negb (p x)) l)
   = List.length l)%nat.
Proof.
  induction l as [|x l IH]; [reflexivity|].
  cbn [filter]. destruct (p x); cbn [negb List.length]; lia.
Qed.

Lemma spam_label_is_flag (t : string) (th : Q) :
  (match Spam.classification (Spam.detect_spam t th) with
   | Spam.SPAM => true
   | Spam.HAM => false
   end) = Spam.is_spam (Spam.detect_spam t th).
Proof.
  destruct (SpamFacts.spam_result_eq t th) as (_ & _ & _ & _ & E5 & E6 & _).
  rewrite E5, E6.
  destruct (Qgt_bool (Qmin (fst (Spam.check_patterns t
                                   (fst (Spam.scan_keywords (Py.lower t)))) / 5.0)
                        1.0) th); reflexivity.
Qed.

Lemma spam_count_by_label (texts : list string) (th : Q) :
  List.length
    (filter (fun b : bool => b)
       (map Spam.is_spam (map (fun text => Spam.detect_spam text th) texts)))
  = List.length
      (filter (fun r => match Spam.classification r with
                        | Spam.SPAM => true
                        | Spam.HAM => false
                        end)
         (map (fun text => Spam.detect_spam text th) texts)).
Proof.
  induction texts as [|t texts IH]; [reflexivity|].
  cbn [map filter]. rewrite spam_label_is_flag.
  destruct (Spam.is_spam (Spam.detect_spam t th)); cbn [List.length];
    now rewrite IH.
Qed.

(** X18.  Batch mode of the spam page returns one result per row, in the
    order of the rows, each the result of [detect_spam] on its row.  For a
    table with at least one row the summary counts every message once, as
    spam or as ham, the spam count is the number of rows labelled SPAM, and
    the spam rate lies between 0 and 100; for a table without rows reading
    the column of the empty results raises [KeyError]. *)
Theorem spam_batch_summary (texts : list string) (sensitivity : Q) :
  let results := SpamPage.analyze_all texts sensitivity in
  List.length results = List.length texts
  /\ (forall i, nth_error results i
                = option_map (fun text => Spam.detect_spam text sensitivity)
                    (nth_error texts i))
  /\ (texts = [] -> SpamPage.summarize results = inl (KeyError "is_spam"))
  /\ (texts <> [] ->
      exists s, SpamPage.summarize results = inr s
        /\ SpamPage.total_messages s = List.length texts
        /\ (SpamPage.spam_count s + SpamPage.ham_count s
            = SpamPage.total_messages s)%nat
        /\ SpamPage.spam_count s
           = List.length
               (filter (fun r => match Spam.classification r with
                                 | Spam.SPAM => true
                                 | Spam.HAM => false
                                 end) results)
        /\ (0 <= SpamPage.spam_rate s <= 100)%Q).
Proof.
  intro results. unfold results, SpamPage.analyze_all.
  split; [apply length_map|]. split; [intro i; apply nth_error_map|].
  split; [intro E; subst texts; reflexivity|].
  intro N. destruct texts as [|t0 texts]; [contradiction|].
  set (rs := map (fun text => Spam.detect_spam text sensitivity) (t0 :: texts))
    in *.
  assert (Len : List.length rs = S (List.length texts))
    by (unfold rs; now rewrite length_map).
  assert (Split := filter_split_length (fun b : bool => b) (map Spam.is_spam rs)).
  rewrite length_map in Split.
  set (sc := List.length (filter (fun b : bool => b) (map Spam.is_spam rs))) in *.
  set (hc := List.length (filter (fun b : bool => negb b) (map Spam.is_spam rs)))
    in *.
  exists {| SpamPage.total_messages := List.length rs;
            SpamPage.spam_count := sc;
            SpamPage.ham_count := hc;
            SpamPage.spam_rate :=
              (of_int sc / of_int (List.length rs) * 100)%Q |}.
  cbn [SpamPage.total_messages SpamPage.spam_count SpamPage.ham_count
       SpamPage.spam_rate].
  split.
  - unfold SpamPage.summarize. fold rs.
    destruct rs as [|r0 rs'] eqn:R; [discriminate|].
    cbn [List.length Nat.ltb Nat.leb]. reflexivity.
  - split; [exact Len|]. split; [exact Split|]. split.
    + unfold sc, rs. apply spam_count_by_label.
    + assert (P : (0 < of_int (List.length rs))%Q).
      { rewrite Len, of_int_S. pose proof (of_int_nonneg (List.length texts)).
        lra. }
      assert (Le : (of_int sc <= of_int (List.length rs))%Q)
        by (apply of_int_le; lia).
      pose proof (of_int_nonneg sc) as Nn.
      assert (R : (0 <= of_int sc / of_int (List.length rs) <= 1)%Q).
      { split; [apply Qle_shift_div_l|apply Qle_shift_div_r]; lra. }
      lra.
Qed.

Lemma spam_batch_summary_witness :
  exists s,
    SpamPage.summarize
      (SpamPage.analyze_all ["free cash prize"; "see you at noon"] 0.4) = inr s
    /\ (SpamPage.spam_count s + SpamPage.ham_count s
        = SpamPage.total_messages s)%nat.
Proof.
  assert (N : ["free cash prize"; "see you at noon"] <> []) by discriminate.
  destruct (proj2 (proj2 (proj2
              (spam_batch_summary ["free cash prize"; "see you at noon"] 0.4))) N)
    as (s & E & _ & C & _).
  exists s. split; [exact E|exact C].
Defined.

Lemma take_length (n : nat) (s : string) :
  String.length (Py.take n s) = Nat.min n (String.length s).
Proof.
  revert s. induction n as [|n IH]; intro s; [reflexivity|].
  destruct s as [|c r]; [reflexivity|].
  cbn [Py.take String.length Nat.min]. now rewrite IH.
Qed.

Lemma take_all (n : nat) (s : string) :
  (String.length s <= n)%nat -> Py.take n s = s.
Proof.
  revert s. induction n as [|n IH]; intros s H.
  - destruct s; [reflexivity|cbn [String.length] in H; lia].
  - destruct s as [|c r]; [reflexivity|].
    cbn [Py.take]. rewrite IH; [reflexivity|cbn [String.length] in H; lia].
Qed.

Lemma shorten_spec (n : nat) (s : string) :
  ((String.length s <= n)%nat -> Page.shorten n s = s)
  /\ ((n < String.length s)%nat ->
      Page.shorten n s = Py.take n s ++ "..."
      /\ String.length (Page.shorten n s) = (n + 3)%nat)
  /\ (String.length (Page.shorten n s) <= n + 3)%nat.
Proof.
  unfold Page.shorten.
  destruct (n <? String.length s)%nat eqn:E;
    [apply Nat.ltb_lt in E | apply Nat.ltb_ge in E].
  - assert (L : String.length (Py.take n s ++ "...") = (n + 3)%nat).
    { rewrite PyFacts.length_app, take_length. cbn [String.length]. lia. }
    split; [intro H; lia|]. split; [intros _; now split|]. lia.
  - split; [reflexivity|]. split; [intro H; lia|]. lia.
Qed.

Lemma filter_length_impl {A : Type} (p q : A -> bool) (l : list A) :
  (forall x, p x = true -> q x = true) ->
  (List.length (filter p l) <= List.length (filter q l))%nat.
Proof.
  intro H. induction l as [|x l IH]; [apply Nat.le_refl|].
  cbn [filter]. destruct (p x) eqn:P.
  - rewrite (H x P). cbn [List.length]. lia.
  - destruct (q x); cbn [List.length]; lia.
Qed.

Lemma filter_disjoint_length {A : Type} (p q : A -> bool) (l : list A) :
  (forall x, p x = true -> q x = false) ->
  (List.length (filter p l) + List.length (filter q l) <= List.length l)%nat.
Proof.
  intro H. induction l as [|x l IH]; [apply Nat.le_refl|].
  cbn [filter]. destruct (p x) eqn:P.
  - rewrite (H x P). cbn [List.length]. lia.
  - destruct (q x); cbn [List.length]; lia.
Qed.

Lemma tox_row_facts (t : string) :
  let row := ToxicityPage.simplify (Toxicity.detect_toxicity t) in
  Qge_bool (ToxicityPage.overall_toxicity row) 0.7 = is_highly_toxic row
  /\ Qge_bool (ToxicityPage.overall_toxicity row) 0.2 = is_toxic row
  /\ (0 <= ToxicityPage.overall_toxicity row <= 1)%Q
  /\ ToxicityPage.text row = Page.shorten 100 t.
Proof.
  destruct (ToxicityFacts.tox_classification_eq t) as [C _].
  destruct (ToxicityFacts.overall_toxicity_bounds t) as [B0 B1].
  assert (T : Toxicity.text (Toxicity.detect_toxicity t) = t).
  { unfold Toxicity.detect_toxicity. cbv zeta.
    generalize (Toxicity.accumulate t). intro st. reflexivity. }
  revert C B0 B1 T. generalize (Toxicity.detect_toxicity t). intros r C B0 B1 T.
  unfold is_highly_toxic, is_toxic. cbn.
  rewrite C, T. unfold Toxicity.classify.
  destruct (Qge_bool (Toxicity.overall_toxicity r) 0.7) eqn:E7;
    [apply Qge_bool_true in E7 | apply Qge_bool_false in E7];
  (destruct (Qge_bool (Toxicity.overall_toxicity r) 0.4) eqn:E4;
    [apply Qge_bool_true in E4 | apply Qge_bool_false in E4]);
  (destruct (Qge_bool (Toxicity.overall_toxicity r) 0.2) eqn:E2;
    [apply Qge_bool_true in E2 | apply Qge_bool_false in E2]);
  cbn [fst]; repeat split; try assumption; try reflexivity; exfalso; lra.
Qed.

(** X19.  Batch mode of the toxicity page keeps one row per message, with a
    text of at most 103 characters that is the message itself when the
    message has at most 100.  For a table with at least one row the summary
    agrees with the labels of the rows: High Risk counts the rows labelled
    Highly Toxic, Toxic Items counts the rows that are not labelled
    Non-Toxic, High Risk <= Toxic Items <= the number of rows, and the
    average toxicity lies between 0 and 1.  A table without rows raises
    [KeyError]. *)
Theorem toxicity_batch_summary (texts : list string) :
  let rows := ToxicityPage.analyze_all texts in
  List.length rows = List.length texts
  /\ (forall i text, nth_error texts i = Some text ->
        exists row, nth_error rows i = Some row
          /\ (String.length (ToxicityPage.text row) <= 103)%nat
          /\ ((String.length text <= 100)%nat -> ToxicityPage.text row = text))
  /\ (texts = [] ->
      ToxicityPage.summarize rows = inl (KeyError "overall_toxicity"))
  /\ (texts <> [] ->
      exists s, ToxicityPage.summarize rows = inr s
        /\ ToxicityPage.total_analyzed s = List.length texts
        /\ ToxicityPage.high_risk s = List.length (filter is_highly_toxic rows)
        /\ ToxicityPage.toxic_count s = List.length (filter is_toxic rows)
        /\ (ToxicityPage.high_risk s <= ToxicityPage.toxic_count s
            <= ToxicityPage.total_analyzed s)%nat
        /\ (0 <= ToxicityPage.avg_toxicity s <= 1)%Q).
Proof.
  intro rows. unfold rows, ToxicityPage.analyze_all.
  set (f := fun text => ToxicityPage.simplify (Toxicity.detect_toxicity text)).
  assert (Row : forall row, In row (map f texts) ->
                  Qge_bool (ToxicityPage.overall_toxicity row) 0.7
                  = is_highly_toxic row
                  /\ Qge_bool (ToxicityPage.overall_toxicity row) 0.2
                     = is_toxic row
                  /\ (0 <= ToxicityPage.overall_toxicity row <= 1)%Q).
  { intros row I. apply in_map_iff in I as (t & <- & _).
    destruct (tox_row_facts t) as (A & B & C & _).
    exact (conj A (conj B C)). }
  split; [apply length_map|]. split; [|split].
  - intros i text H. exists (f text). split.
    + rewrite nth_error_map, H. reflexivity.
    + destruct (tox_row_facts text) as (_ & _ & _ & T). fold (f text) in T.
      rewrite T. destruct (shorten_spec 100 text) as (S1 & _ & S3).
      split; [exact S3|exact S1].
  - intro E. subst texts. reflexivity.
  - intro N.
    assert (Len : List.length (map f texts) = List.length texts)
      by apply length_map.
    destruct (map f texts) as [|r0 rs] eqn:R.
    { destruct texts; [contradiction|discriminate]. }
    set (rws := r0 :: rs) in *.
    exists {| ToxicityPage.total_analyzed := List.length rws;
              ToxicityPage.high_risk :=
                Page.count_ge 0.7 (map ToxicityPage.overall_toxicity rws);
              ToxicityPage.avg_toxicity :=
                Page.mean (map ToxicityPage.overall_toxicity rws);
              ToxicityPage.toxic_count :=
                Page.count_ge 0.2 (map ToxicityPage.overall_toxicity rws) |}.
    cbn [ToxicityPage.total_analyzed ToxicityPage.high_risk
         ToxicityPage.avg_toxicity ToxicityPage.toxic_count].
    split; [reflexivity|]. split; [exact Len|].
    rewrite (count_ge_map _ is_highly_toxic 0.7 rws)
      by (intros row I; apply (Row row I)).
    rewrite (count_ge_map _ is_toxic 0.2 rws)
      by (intros row I; apply (Row row I)).
    split; [reflexivity|]. split; [reflexivity|]. split.
    + split; [|apply filter_length_le].
      apply filter_length_impl. intro row. unfold is_highly_toxic, is_toxic.
      destruct (ToxicityPage.classification row); (reflexivity || discriminate).
    + apply mean_bounds; [discriminate|].
      apply Forall_forall. intros v I. apply in_map_iff in I as (row & <- & I).
      apply (Row row I).
Qed.

Lemma toxicity_batch_summary_witness :
  exists s,
    ToxicityPage.summarize
      (ToxicityPage.analyze_all ["I will kill you"; "have a nice day"]) = inr s
    /\ (ToxicityPage.high_risk s <= ToxicityPage.toxic_count s
        <= ToxicityPage.total_analyzed s)%nat.
Proof.
  assert (N : ["I will kill you"; "have a nice day"] <> []) by discriminate.
  destruct (proj2 (proj2 (proj2
              (toxicity_batch_summary ["I will kill you"; "have a nice day"]))) N)
    as (s & E & _ & _ & _ & C & _).
  exists s. split; [exact E|exact C].
Defined.

Lemma news_row_facts (t : string) :
  let row := FakeNewsPage.simplify (FakeNews.detect_fake_news t) in
  negb (Qge_bool (FakeNewsPage.credibility row) 0.3) = is_likely_fake row
  /\ Qge_bool (FakeNewsPage.credibility row) 0.7 = is_likely_credible row
  /\ (0 <= FakeNewsPage.credibility row <= 1)%Q
  /\ FakeNewsPage.text row = Page.shorten 60 t.
Proof.
  destruct (FakeNewsFacts.news_scores_eq t) as (_ & _ & _ & C & _).
  destruct (FakeNewsFacts.credibility_bounds t) as [B0 B1].
  assert (T : FakeNews.text (FakeNews.detect_fake_news t) = t).
  { unfold FakeNews.detect_fake_news. cbv zeta.
    generalize (FakeNews.scan FakeNews.FAKE_INDICATORS 0.15 (Py.lower t)).
    intro fake.
    generalize (FakeNews.scan FakeNews.CREDIBLE_INDICATORS 0.2 (Py.lower t)).
    intro credible. reflexivity. }
  revert C B0 B1 T.
  generalize (FakeNews.detect_fake_news t).
  intros r C B0 B1 T.
  unfold is_likely_fake, is_likely_credible. cbn.
  rewrite C, T. unfold FakeNews.classify.
  destruct (Qge_bool (FakeNews.credibility r) 0.7) eqn:E7;
    [apply Qge_bool_true in E7 | apply Qge_bool_false in E7];
  (destruct (Qge_bool (FakeNews.credibility r) 0.5) eqn:E5;
    [apply Qge_bool_true in E5 | apply Qge_bool_false in E5]);
  (destruct (Qge_bool (FakeNews.credibility r) 0.3) eqn:E3;
    [apply Qge_bool_true in E3 | apply Qge_bool_false in E3]);
  cbn [fst negb]; repeat split; try assumption; try reflexivity; exfalso; lra.
Qed.

(** X20.  Batch mode of the fake news page keeps one row per article, with
    a text of at most 63 characters.  For a table with at least one row the
    summary agrees with the labels of the rows: Likely Fake counts the rows
    labelled Likely Fake and Likely Credible those labelled Likely Credible,
    no row is counted twice, and the average credibility lies between 0 and
    1.  A table without rows raises [KeyError]. *)
Theorem fake_news_batch_summary (texts : list string) :
  let rows := FakeNewsPage.analyze_all texts in
  List.length rows = List.length texts
  /\ (forall i text, nth_error texts i = Some text ->
        exists row, nth_error rows i = Some row
          /\ (String.length (FakeNewsPage.text row) <= 63)%nat
          /\ ((String.length text <= 60)%nat -> FakeNewsPage.text row = text))
  /\ (texts = [] -> FakeNewsPage.summarize rows = inl (KeyError "credibility"))
  /\ (texts <> [] ->
      exists s, FakeNewsPage.summarize rows = inr s
        /\ FakeNewsPage.total_analyzed s = List.length texts
        /\ FakeNewsPage.likely_fake s = List.length (filter is_likely_fake rows)
        /\ FakeNewsPage.likely_credible s
           = List.length (filter is_likely_credible rows)
        /\ (FakeNewsPage.likely_fake s + FakeNewsPage.likely_credible s
            <= FakeNewsPage.total_analyzed s)%nat
        /\ (0 <= FakeNewsPage.avg_cred s <= 1)%Q).
Proof.
  intro rows. unfold rows, FakeNewsPage.analyze_all.
  set (f := fun text => FakeNewsPage.simplify (FakeNews.detect_fake_news text)).
  assert (Row : forall row, In row (map f texts) ->
                  negb (Qge_bool (FakeNewsPage.credibility row) 0.3)
                  = is_likely_fake row
                  /\ Qge_bool (FakeNewsPage.credibility row) 0.7
                     = is_likely_credible row
                  /\ (0 <= FakeNewsPage.credibility row <= 1)%Q).
  { intros row I. apply in_map_iff in I as (t & <- & _).
    destruct (news_row_facts t) as (A & B & C & _).
    exact (conj A (conj B C)). }
  split; [apply length_map|]. split; [|split].
  - intros i text H. exists (f text). split.
    + rewrite nth_error_map, H. reflexivity.
    + destruct (news_row_facts text) as (_ & _ & _ & T). fold (f text) in T.
      rewrite T. destruct (shorten_spec 60 text) as (S1 & _ & S3).
      split; [exact S3|exact S1].
  - intro E. subst texts. reflexivity.
  - intro N.
    assert (Len : List.length (map f texts) = List.length texts)
      by apply length_map.
    destruct (map f texts) as [|r0 rs] eqn:R.
    { destruct texts; [contradiction|discriminate]. }
    set (rws := r0 :: rs) in *.
    exists {| FakeNewsPage.total_analyzed := List.length rws;
              FakeNewsPage.likely_fake :=
                Page.count_lt 0.3 (map FakeNewsPage.credibility rws);
              FakeNewsPage.likely_credible :=
                Page.count_ge 0.7 (map FakeNewsPage.credibility rws);
              FakeNewsPage.avg_cred :=
                Page.mean (map FakeNewsPage.credibility rws) |}.
    cbn [FakeNewsPage.total_analyzed FakeNewsPage.likely_fake
         FakeNewsPage.likely_credible FakeNewsPage.avg_cred].
    split; [reflexivity|]. split; [exact Len|].
    rewrite (count_lt_map _ is_likely_fake 0.3 rws)
      by (intros row I; apply (Row row I)).
    rewrite (count_ge_map _ is_likely_credible 0.7 rws)
      by (intros row I; apply (Row row I)).
    split; [reflexivity|]. split; [reflexivity|]. split.
    + apply filter_disjoint_length. intro row.
      unfold is_likely_fake, is_likely_credible.
      destruct (FakeNewsPage.classification row); (reflexivity || discriminate).
    + apply mean_bounds; [discriminate|].
      apply Forall_forall. intros v I. apply in_map_iff in I as (row & <- & I).
      apply (Row row I).
Qed.

Lemma fake_news_batch_summary_witness :
  exists s,
    FakeNewsPage.summarize
      (FakeNewsPage.analyze_all ["SHOCKING scandal!!!"; "the minister said"])
    = inr s
    /\ (FakeNewsPage.likely_fake s + FakeNewsPage.likely_credible s
        <= FakeNewsPage.total_analyzed s)%nat.
Proof.
  assert (N : ["SHOCKING scandal!!!"; "the minister said"] <> []) by discriminate.
  destruct (proj2 (proj2 (proj2
              (fake_news_batch_summary
                 ["SHOCKING scandal!!!"; "the minister said"]))) N)
    as (s & E & _ & _ & _ & C & _).
  exists s. split; [exact E|exact C].
Defined.

Lemma review_row_facts (t : string) :
  let row := ReviewPage.simplify (Review.analyze_review_authenticity t) in
  Qge_bool (ReviewPage.authenticity row) 0.7 = is_authentic_row row
  /\ negb (Qge_bool (ReviewPage.authenticity row) 0.3) = is_fake_row row
  /\ ReviewPage.text row = Py.take 60 t ++ "...".
Proof.
  destruct (ReviewFacts.review_scores_eq t) as (_ & _ & _ & C).
  destruct (review_result_eq t) as (_ & _ & _ & T).
  revert C T. generalize (Review.analyze_review_authenticity t). intros r C T.
  unfold is_authentic_row, is_fake_row. cbn.
  rewrite C, T. unfold Review.classify.
  destruct (Qge_bool (Review.authenticity_score r) 0.7) eqn:E7;
    [apply Qge_bool_true in E7 | apply Qge_bool_false in E7];
  (destruct (Qge_bool (Review.authenticity_score r) 0.5) eqn:E5;
    [apply Qge_bool_true in E5 | apply Qge_bool_false in E5]);
  (destruct (Qge_bool (Review.authenticity_score r) 0.3) eqn:E3;
    [apply Qge_bool_true in E3 | apply Qge_bool_false in E3]);
  cbn [fst negb]; repeat split; try reflexivity; exfalso; lra.
Qed.

(** X21.  Batch mode of the review page keeps one row per review.  The text
    of a row is the first 60 characters of the review followed by three
    dots, also when nothing was cut: a review of at most 60 characters is
    shown with the dots appended.  For a table with at least one row,
    Authentic counts the rows labelled Likely Authentic and Likely Fake those
    labelled Likely Fake/Spam, and no row is counted twice.  A table without
    rows raises [KeyError]. *)
Theorem review_batch_summary (texts : list string) :
  let rows := ReviewPage.analyze_all texts in
  List.length rows = List.length texts
  /\ (forall i text, nth_error texts i = Some text ->
        exists row, nth_error rows i = Some row
          /\ ReviewPage.text row = Py.take 60 text ++ "..."
          /\ String.length (ReviewPage.text row)
             = (Nat.min 60 (String.length text) + 3)%nat
          /\ ((String.length text <= 60)%nat ->
              ReviewPage.text row = text ++ "..."))
  /\ (texts = [] -> ReviewPage.summarize rows = inl (KeyError "authenticity"))
  /\ (texts <> [] ->
      exists s, ReviewPage.summarize rows = inr s
        /\ ReviewPage.total s = List.length texts
        /\ ReviewPage.authentic s = List.length (filter is_authentic_row rows)
        /\ ReviewPage.fake s = List.length (filter is_fake_row rows)
        /\ (ReviewPage.authentic s + ReviewPage.fake s <= ReviewPage.total s)%nat).
Proof.
  intro rows. unfold rows, ReviewPage.analyze_all.
  set (f := fun text =>
              ReviewPage.simplify (Review.analyze_review_authenticity text)).
  assert (Row : forall row, In row (map f texts) ->
                  Qge_bool (ReviewPage.authenticity row) 0.7
                  = is_authentic_row row
                  /\ negb (Qge_bool (ReviewPage.authenticity row) 0.3)
                     = is_fake_row row).
  { intros row I. apply in_map_iff in I as (t & <- & _).
    destruct (review_row_facts t) as (A & B & _).
    exact (conj A B). }
  split; [apply length_map|]. split; [|split].
  - intros i text H. exists (f text). split.
    + rewrite nth_error_map, H. reflexivity.
    + destruct (review_row_facts text) as (_ & _ & T). fold (f text) in T.
      rewrite T. split; [reflexivity|]. split.
      * rewrite PyFacts.length_app, take_length. reflexivity.
      * intro L. now rewrite take_all.
  - intro E. subst texts. reflexivity.
  - intro N.
    assert (Len : List.length (map f texts) = List.length texts)
      by apply length_map.
    destruct (map f texts) as [|r0 rs] eqn:R.
    { destruct texts; [contradiction|discriminate]. }
    set (rws := r0 :: rs) in *.
    exists {| ReviewPage.total := List.length rws;
              ReviewPage.authentic :=
                Page.count_ge 0.7 (map ReviewPage.authenticity rws);
              ReviewPage.fake :=
                Page.count_lt 0.3 (map ReviewPage.authenticity rws) |}.
    cbn [ReviewPage.total ReviewPage.authentic ReviewPage.fake].
    split; [reflexivity|]. split; [exact Len|].
    rewrite (count_ge_map _ is_authentic_row 0.7 rws)
      by (intros row I; apply (Row row I)).
    rewrite (count_lt_map _ is_fake_row 0.3 rws)
      by (intros row I; apply (Row row I)).
    split; [reflexivity|]. split; [reflexivity|].
    apply filter_disjoint_length. intro row.
    unfold is_authentic_row, is_fake_row.
    destruct (ReviewPage.classification row); (reflexivity || discriminate).
Qed.

Lemma review_batch_summary_witness :
  exists s,
    ReviewPage.summarize
      (ReviewPage.analyze_all ["Must buy!"; "Good, but I wish it were lighter"])
    = inr s
    /\ (ReviewPage.authentic s + ReviewPage.fake s <= ReviewPage.total s)%nat.
Proof.
  assert (N : ["Must buy!"; "Good, but I wish it were lighter"] <> [])
    by discriminate.
  destruct (proj2 (proj2 (proj2
              (review_batch_summary
                 ["Must buy!"; "Good, but I wish it were lighter"]))) N)
    as (s & E & _ & _ & _ & C).
  exists s. split; [exact E|exact C].
Defined.
